(** * Induction planning engine: the rule-based optimizer, the alert
      generator, the what-if simulation and the plan service of
      [routes/trains.js] (induction router), with the plan schema of
      [models/inductionPlan.model.js].

    Numbers are JavaScript numbers in the source, that is IEEE doubles.
    Timestamps, ranks, counts, rounded scores and severities are integers
    and are modelled by [Z].  The scorer is written once over an arithmetic
    ([rawScoreIn]) and read in two of them: in the doubles of the code
    ([doubleArith], on the kernel's binary64 floats), and in exact rationals
    ([exactArith]), where [rawScore] is the same expression without
    rounding.  The value of a finite double is a rational, and the ranking
    is stated for any rational score ([rankTrainsWith]).  The one division
    whose divisor can be zero is modelled with [Js.number], which has
    [NaN]. *)

From Stdlib Require Import ZArith QArith Qround Qabs Qminmax.
From Stdlib Require Import List String Ascii Bool Lia Permutation Sorted.
From Stdlib Require Import DecimalString Lqa.
From Stdlib Require PrimFloat SpecFloat FloatOps.
Import ListNotations.

Local Open Scope Z_scope.

(** ** JavaScript primitives used by the router *)

Module Js.

(** The result of a division whose divisor may be zero. *)
Inductive number : Type :=
| Num (q : Q)
| NaN
| PosInfinity
| NegInfinity.

(** [a / b] on finite numbers. *)
Definition divide (a b : Q) : number :=
  if Qeq_bool b 0 then
    match Qcompare a 0 with
    | Eq => NaN
    | Gt => PosInfinity
    | Lt => NegInfinity
    end
  else Num (a / b).

(** [Math.round]: the nearest integer, halves towards plus infinity. *)
Definition mathRound (x : Q) : Z := Qfloor (x + (1 # 2)).

(** [Math.floor(a / b)] on integers, [b > 0]. *)
Definition floorDiv (a b : Z) : Z := a / b.

(** [x || d] on an optional number: [undefined], [null] and [0] are falsy. *)
Definition orNum (x : option Q) (d : Q) : Q :=
  match x with
  | Some v => if Qeq_bool v 0 then d else v
  | None => d
  end.

(** Truthiness of an optional boolean. *)
Definition truthy (b : option bool) : bool :=
  match b with
  | Some true => true
  | _ => false
  end.

(** Truthiness of an optional number. *)
Definition truthyNum (x : option Q) : bool :=
  match x with
  | Some v => negb (Qeq_bool v 0)
  | None => false
  end.

(** [s === 'lit'] on an optional string. *)
Definition strictEq (s : option string) (lit : string) : bool :=
  match s with
  | Some v => String.eqb v lit
  | None => false
  end.

(** [Array.prototype.sort(cmp)]: the sort is stable, so it is the stable
    insertion of each element in front of the sorted rest: [x] goes before
    the first [y] that it does not have to follow ([cmp x y <= 0]). *)
Fixpoint insertBy {A : Type} (cmp : A -> A -> Z) (x : A) (l : list A) : list A :=
  match l with
  | [] => [x]
  | y :: l' => if cmp x y <=? 0 then x :: l else y :: insertBy cmp x l'
  end.

Definition sort {A : Type} (cmp : A -> A -> Z) (l : list A) : list A :=
  fold_right (insertBy cmp) [] l.

(** The comparator [(a, b) => key(b) - key(a)]. *)
Definition desc {A : Type} (key : A -> Z) (a b : A) : Z := key b - key a.

(** [Array.prototype.map] with the index argument. *)
Fixpoint mapFrom {A B : Type} (f : A -> Z -> B) (index : Z) (l : list A) : list B :=
  match l with
  | [] => []
  | x :: l' => f x index :: mapFrom f (index + 1) l'
  end.

Definition mapi {A B : Type} (f : A -> Z -> B) (l : list A) : list B :=
  mapFrom f 0 l.

(** [Array.prototype.find]. *)
Definition find {A : Type} (p : A -> bool) (l : list A) : option A :=
  List.find p l.

(** An integer in a template literal. *)
Definition showZ (n : Z) : string := NilZero.string_of_int (Z.to_int n).

(** An opaque JSON value (the caller's [constraints]). *)
#[local] Unset Elimination Schemes.
Inductive json : Type :=
| JNull
| JBool (b : bool)
| JNum (q : Q)
| JStr (s : string)
| JArr (l : list json)
| JObj (fields : list (string * json)).
#[local] Set Elimination Schemes.

(** What the string conversions of the host give: they depend on the locale
    and on the time zone, and on the shortest decimal form of a double. *)
Class Host : Type := {
  toDateString : Z -> string;
  toLocaleString : Q -> string;
  numberToString : Q -> string
}.

End Js.

(** ** Data model *)

Module Fitness.
Record t : Type := {
  isValid : option bool;
  expiryDate : option Z  (* milliseconds since the epoch *)
}.
End Fitness.

Module Branding.
Record t : Type := {
  hasBranding : option bool;
  brandingPriority : option Q
}.
End Branding.

(** A train document as the optimizer reads it.  A field is [None] when the
    key is absent.  (The filter, the scorer and the alert generator read a
    [null] like an absent key; only the text of a template literal and the
    defaults of [formatTrainsForAI] tell the two apart.) *)
Module Train.
Record t : Type := {
  _id : string;  (* the ObjectId, by its hexadecimal string *)
  trainsetId : string;
  fitnessStatus : option Fitness.t;
  maintenanceStatus : option string;
  maintenanceDue : option bool;
  currentMileage : option Q;
  isAvailableForService : option bool;
  cleaningStatus : option string;
  branding : option Branding.t;
  performanceScore : option Q;
  reliabilityScore : option Q
}.
End Train.

Module Scored.
Record t : Type := {
  train : string;
  score : Z;
  reasoning : string
}.
End Scored.

Module Constraints.
Record t : Type := {
  fitnessValid : bool;
  maintenanceReady : bool;
  cleaningStatus : string;
  brandingPriority : option Q;  (* declared by the plan schema *)
  mileageBalance : option Q  (* declared by the plan schema *)
}.
End Constraints.

Module Ranked.
Record t : Type := {
  train : string;
  rank : Z;
  reasoning : string;
  confidenceScore : Z;
  constraints : Constraints.t
}.
End Ranked.

Module Alert.
Record t : Type := {
  type : string;
  message : string;
  trainId : string;
  severity : Z
}.
End Alert.

Module Metrics.
Record t : Type := {
  totalTrainsEvaluated : Z;
  constraintsSatisfied : Z;
  averageConfidence : Js.number;
  processingTimeMs : Z
}.
End Metrics.

Module ModelInfo.
Record t : Type := {
  version : option string;
  algorithm : option string;
  parameters : option Js.json
}.
End ModelInfo.

Module Result.
Record t : Type := {
  rankedTrains : list Ranked.t;
  alerts : list Alert.t;
  metrics : option Metrics.t;
  modelInfo : ModelInfo.t
}.
End Result.

(** The readings of [Date.now()] during one call of the optimizer: at its
    start, in the alert generator, and at its end. *)
Module Clock.
Record t : Type := {
  startTime : Z;
  now : Z;
  endTime : Z
}.
End Clock.

Definition msPerDay : Z := 1000 * 60 * 60 * 24.

(** ** The alert generator and the rule-based optimizer *)

Section Optimizer.

Context {host : Js.Host}.

(** The fitness branch of the loop body of [generateAlerts]. *)
Definition fitnessAlerts (now : Z) (train : Train.t) : list Alert.t :=
  match train.(Train.fitnessStatus) with
  | Some {| Fitness.expiryDate := Some expiryDate |} =>
      let daysUntilExpiry := Js.floorDiv (expiryDate - now) msPerDay in
      if (daysUntilExpiry <=? 3) && (daysUntilExpiry >=? 0) then
        [ {| Alert.type := "CRITICAL";
             Alert.message :=
               String.append train.(Train.trainsetId)
                 (String.append " fitness certificate expires in "
                    (String.append (Js.showZ daysUntilExpiry) " days"));
             Alert.trainId := train.(Train.trainsetId);
             Alert.severity := 5 |} ]
      else if (daysUntilExpiry <=? 7) && (daysUntilExpiry >? 3) then
        [ {| Alert.type := "WARNING";
             Alert.message :=
               String.append train.(Train.trainsetId)
                 (String.append " fitness certificate expires in "
                    (String.append (Js.showZ daysUntilExpiry) " days"));
             Alert.trainId := train.(Train.trainsetId);
             Alert.severity := 3 |} ]
      else if daysUntilExpiry <? 0 then
        [ {| Alert.type := "CRITICAL";
             Alert.message :=
               String.append train.(Train.trainsetId)
                 " fitness certificate has expired";
             Alert.trainId := train.(Train.trainsetId);
             Alert.severity := 5 |} ]
      else []
  | _ => []
  end.

(** The maintenance branch. *)
Definition maintenanceAlerts (train : Train.t) : list Alert.t :=
  if Js.truthy train.(Train.maintenanceDue) then
    [ {| Alert.type := "WARNING";
         Alert.message :=
           String.append train.(Train.trainsetId) " maintenance is due";
         Alert.trainId := train.(Train.trainsetId);
         Alert.severity := 4 |} ]
  else [].

(** The availability branch: [isAvailableForService === false]. *)
Definition availabilityAlerts (train : Train.t) : list Alert.t :=
  match train.(Train.isAvailableForService) with
  | Some false =>
      [ {| Alert.type := "INFO";
           Alert.message :=
             String.append train.(Train.trainsetId)
               " is not available for service";
           Alert.trainId := train.(Train.trainsetId);
           Alert.severity := 2 |} ]
  | _ => []
  end.

(** What one iteration of the [forEach] pushes, in order. *)
Definition trainAlerts (now : Z) (train : Train.t) : list Alert.t :=
  fitnessAlerts now train ++ maintenanceAlerts train
    ++ availabilityAlerts train.

Definition bySeverityDesc : Alert.t -> Alert.t -> Z :=
  Js.desc Alert.severity.

Definition generateAlerts (now : Z) (trains : list Train.t) : list Alert.t :=
  Js.sort bySeverityDesc (flat_map (trainAlerts now) trains).

(** [train.fitnessStatus?.isValid], as a condition. *)
Definition fitnessIsValid (train : Train.t) : bool :=
  match train.(Train.fitnessStatus) with
  | Some f => Js.truthy f.(Fitness.isValid)
  | None => false
  end.

(** [train.branding?.hasBranding], as a condition. *)
Definition hasBranding (train : Train.t) : bool :=
  match train.(Train.branding) with
  | Some b => Js.truthy b.(Branding.hasBranding)
  | None => false
  end.

(** [generateReasoning].  In the template literal a branding priority
    whose key is absent prints as [undefined]; a key that holds [null]
    would print as [null], which a field of this model does not tell from
    an absent key. *)
Definition generateReasoning (train : Train.t) (score : Q) : string :=
  let reasons : list string := [] in
  let reasons :=
    if fitnessIsValid train then
      let expiryDate :=
        match train.(Train.fitnessStatus) with
        | Some {| Fitness.expiryDate := Some d |} => Js.toDateString d
        | _ => "Unknown"%string
        end in
      reasons ++ [String.append "Valid fitness certificate until " expiryDate]
    else reasons in
  let reasons :=
    if Js.strictEq train.(Train.maintenanceStatus) "OPERATIONAL" then
      reasons ++ ["Maintenance status: Operational"%string]
    else reasons in
  let reasons :=
    match train.(Train.currentMileage) with
    | Some m =>
        if Js.truthyNum (Some m) then
          reasons ++ [String.append "Current mileage: "
                        (String.append (Js.toLocaleString m) "km")]
        else reasons
    | None => reasons
    end in
  let reasons :=
    if hasBranding train then
      let priority :=
        match train.(Train.branding) with
        | Some {| Branding.brandingPriority := Some p |} => Js.numberToString p
        | _ => "undefined"%string
        end in
      reasons ++ [String.append "Branding priority: "
                    (String.append priority "/5")]
    else reasons in
  let reasons :=
    match train.(Train.performanceScore) with
    | Some p =>
        if Js.truthyNum (Some p) then
          reasons ++ [String.append "Performance score: "
                        (String.append (Js.numberToString p) "/100")]
        else reasons
    | None => reasons
    end in
  let reasons :=
    reasons ++ [String.append "Overall optimization score: "
                  (Js.numberToString score)] in
  let joined := String.concat "; " reasons in
  if String.eqb joined "" then "Selected based on optimization criteria"%string
  else joined.

(** The predicate of the filter that opens [fallbackOptimization]. *)
Definition serviceReady (train : Train.t) : bool :=
  fitnessIsValid train
  && Js.strictEq train.(Train.maintenanceStatus) "OPERATIONAL"
  && match train.(Train.isAvailableForService) with
     | Some false => false
     | _ => true
     end.

(** [trains.reduce((sum, t) => sum + (t.currentMileage || 0), 0)
    / trains.length].  It is evaluated inside the callback of the map over
    the filtered trains only, hence with [trains] non-empty. *)
Definition avgMileage (trains : list Train.t) : Q :=
  (fold_left (fun sum t => sum + Js.orNum t.(Train.currentMileage) 0)
     trains 0
   / inject_Z (Z.of_nat (List.length trains)))%Q.

(** The value of [score] at the end of the callback, before rounding, in
    exact arithmetic; [rawScoreIn] is the same callback over an arithmetic,
    and [rawScoreIn doubleArith] is the double that the code computes. *)
Definition rawScore (trains : list Train.t) (train : Train.t) : Q :=
  (let score := 0 in
   let score := if fitnessIsValid train then score + 30 else score in
   let score :=
     if Js.strictEq train.(Train.maintenanceStatus) "OPERATIONAL"
     then score + 25 else score in
   let score :=
     if negb (Js.truthy train.(Train.maintenanceDue))
     then score + 10 else score in
   let mileageDiff :=
     Qabs (Js.orNum train.(Train.currentMileage) 0 - avgMileage trains) in
   let score := score + Qmax 0 (15 - mileageDiff / 1000) in
   let score :=
     if hasBranding train then
       match train.(Train.branding) with
       | Some b => score + Js.orNum b.(Branding.brandingPriority) 1 * 2
       | None => score
       end
     else score in
   let score := score + Js.orNum train.(Train.performanceScore) 0 * (1 # 10) in
   let score := score + Js.orNum train.(Train.reliabilityScore) 0 * (1 # 10) in
   let score :=
     if Js.strictEq train.(Train.cleaningStatus) "CLEAN"
     then score + 5 else score in
   score)%Q.

Definition scoreTrain (trains : list Train.t) (train : Train.t) : Scored.t :=
  {| Scored.train := train.(Train._id);
     Scored.score := Js.mathRound (rawScore trains train);
     Scored.reasoning := generateReasoning train (rawScore trains train) |}.

Definition byScoreDesc : Scored.t -> Scored.t -> Z :=
  Js.desc Scored.score.

(** [Math.min(100, Math.max(60, item.score))]. *)
Definition confidenceOf (score : Z) : Z := Z.min 100 (Z.max 60 score).

Definition rankEntry (item : Scored.t) (index : Z) : Ranked.t :=
  {| Ranked.train := item.(Scored.train);
     Ranked.rank := index + 1;
     Ranked.reasoning := item.(Scored.reasoning);
     Ranked.confidenceScore := confidenceOf item.(Scored.score);
     Ranked.constraints :=
       {| Constraints.fitnessValid := true;
          Constraints.maintenanceReady := true;
          Constraints.cleaningStatus := "CLEAN";
          Constraints.brandingPriority := None;
          Constraints.mileageBalance := None |} |}.

Definition scoredTrains (trains : list Train.t) : list Scored.t :=
  map (scoreTrain trains) (filter serviceReady trains).

Definition rankTrains (trains : list Train.t) : list Ranked.t :=
  Js.mapi rankEntry (Js.sort byScoreDesc (scoredTrains trains)).

Definition fallbackOptimization (clock : Clock.t) (trains : list Train.t)
    (constraints : Js.json) : Result.t :=
  let rankedTrains := rankTrains trains in
  let alerts := generateAlerts clock.(Clock.now) trains in
  {| Result.rankedTrains := rankedTrains;
     Result.alerts := alerts;
     Result.metrics :=
       Some
         {| Metrics.totalTrainsEvaluated := Z.of_nat (List.length trains);
            Metrics.constraintsSatisfied := Z.of_nat (List.length rankedTrains);
            Metrics.averageConfidence :=
              Js.divide
                (fold_left
                   (fun sum t => (sum + inject_Z t.(Ranked.confidenceScore))%Q)
                   rankedTrains 0%Q)
                (inject_Z (Z.of_nat (List.length rankedTrains)));
            Metrics.processingTimeMs :=
              clock.(Clock.endTime) - clock.(Clock.startTime) |};
     Result.modelInfo :=
       {| ModelInfo.version := Some "1.0-fallback"%string;
          ModelInfo.algorithm :=
            Some "Rule-Based Weighted Scoring (Fallback)"%string;
          ModelInfo.parameters := Some constraints |} |}.

End Optimizer.

(** ** The what-if simulation *)

(** [modifications]: a partial overlay; a field is [Some v] when the key is
    present in the request, and then replaces the train's whole field. *)
Module Modifications.
Record t : Type := {
  _id : option string;
  trainsetId : option string;
  fitnessStatus : option (option Fitness.t);
  maintenanceStatus : option (option string);
  maintenanceDue : option (option bool);
  currentMileage : option (option Q);
  isAvailableForService : option (option bool);
  cleaningStatus : option (option string);
  branding : option (option Branding.t);
  performanceScore : option (option Q);
  reliabilityScore : option (option Q)
}.
End Modifications.

Module Impact.
Record t : Type := {
  newRank : option Z;  (* [None] is [undefined] *)
  rankChange : string;
  affectedTrains : Z
}.
End Impact.

Module SimulationParams.
Record t : Type := {
  modifiedTrain : string;
  modifications : Modifications.t
}.
End SimulationParams.

Module Simulation.
Record t : Type := {
  result : Result.t;
  simulationParams : SimulationParams.t;
  impactAnalysis : Impact.t
}.
End Simulation.

Section Simulator.

Context {host : Js.Host}.

Definition override {A : Type} (o : option A) (v : A) : A :=
  match o with
  | Some x => x
  | None => v
  end.

(** [{ ...train, ...modifications }]. *)
Definition spread (train : Train.t) (m : Modifications.t) : Train.t :=
  {| Train._id := override m.(Modifications._id) train.(Train._id);
     Train.trainsetId :=
       override m.(Modifications.trainsetId) train.(Train.trainsetId);
     Train.fitnessStatus :=
       override m.(Modifications.fitnessStatus) train.(Train.fitnessStatus);
     Train.maintenanceStatus :=
       override m.(Modifications.maintenanceStatus)
         train.(Train.maintenanceStatus);
     Train.maintenanceDue :=
       override m.(Modifications.maintenanceDue) train.(Train.maintenanceDue);
     Train.currentMileage :=
       override m.(Modifications.currentMileage) train.(Train.currentMileage);
     Train.isAvailableForService :=
       override m.(Modifications.isAvailableForService)
         train.(Train.isAvailableForService);
     Train.cleaningStatus :=
       override m.(Modifications.cleaningStatus) train.(Train.cleaningStatus);
     Train.branding := override m.(Modifications.branding) train.(Train.branding);
     Train.performanceScore :=
       override m.(Modifications.performanceScore)
         train.(Train.performanceScore);
     Train.reliabilityScore :=
       override m.(Modifications.reliabilityScore)
         train.(Train.reliabilityScore) |}.

(** [train.trainsetId === trainId || train._id.toString() === trainId]. *)
Definition isTarget (trainId : string) (train : Train.t) : bool :=
  String.eqb train.(Train.trainsetId) trainId
  || String.eqb train.(Train._id) trainId.

(** [t.train === trainId || t.train.toString() === trainId]: [t.train] is
    the train's [_id], so both sides compare the id with the request's
    string (the first never holds for an ObjectId). *)
Definition isTargetEntry (trainId : string) (t : Ranked.t) : bool :=
  String.eqb t.(Ranked.train) trainId || String.eqb t.(Ranked.train) trainId.

Definition fallbackSimulation (clock : Clock.t) (trains : list Train.t)
    (trainId : string) (modifications : Modifications.t)
    (constraints : Js.json) : Simulation.t :=
  let modifiedTrains :=
    map (fun train =>
           if isTarget trainId train then spread train modifications
           else train) trains in
  let result := fallbackOptimization clock modifiedTrains constraints in
  let modifiedTrainRank :=
    option_map Ranked.rank
      (Js.find (isTargetEntry trainId) result.(Result.rankedTrains)) in
  {| Simulation.result := result;
     Simulation.simulationParams :=
       {| SimulationParams.modifiedTrain := trainId;
          SimulationParams.modifications := modifications |};
     Simulation.impactAnalysis :=
       {| Impact.newRank := modifiedTrainRank;
          Impact.rankChange :=
            match modifiedTrainRank with
            | Some r =>
                if r =? 0 then "Not in top rankings"%string
                else String.append "Moved to rank " (Js.showZ r)
            | None => "Not in top rankings"%string
            end;
          Impact.affectedTrains :=
            Z.of_nat (List.length result.(Result.rankedTrains)) |} |}.

End Simulator.

(** ** The plan service: [POST /generate] *)

Module Plan.
Record t : Type := {
  _id : string;
  planDate : Z;
  generatedAt : Z;
  rankedTrains : list Ranked.t;
  alerts : list Alert.t;
  status : string;
  optimizationMetrics : Metrics.t;
  generatedBy : string;
  aiModelInfo : ModelInfo.t
}.
End Plan.

(** The body of the optimizer service's response, field by field; a body
    that is not an optimizer output has none of them. *)
Module AiData.
Record t : Type := {
  rankedTrains : option (list Ranked.t);
  alerts : option (list Alert.t);
  metrics : option Metrics.t;
  modelInfo : option ModelInfo.t
}.
End AiData.

(** How [axios.post] settles: it resolves with [response.data] ([None] when
    falsy), or it rejects with an error that has a [code] and a [message]. *)
Inductive AxiosOutcome : Type :=
| Resolved (data : option AiData.t)
| Rejected (code : option string) (message : string).

(** A JavaScript [try] body: a value, or a thrown error by its message. *)
Inductive Outcome (A : Type) : Type :=
| Ok (value : A)
| Throw (message : string).
Arguments Ok {A} value.
Arguments Throw {A} message.

Module Request.
Record t : Type := {
  planDate : option Z;
  forceRegenerate : option bool;
  constraints : option Js.json
}.
End Request.

(** What the handler finds around it: the caller, the clock, the trains in
    the database, how the optimizer service answers, and the identifier of a
    document created now. *)
Module Env.
Record t : Type := {
  user : string;
  requestTime : Z;
  clock : Clock.t;
  trains : list Train.t;
  ai : AxiosOutcome;
  freshId : string
}.
End Env.

Inductive Response : Type :=
| Created (plan : Plan.t)  (* 201 *)
| BadRequest (code : string)  (* 400 *)
| Conflict (code : string) (existingPlan : string)  (* 409 *)
| ServerError (message : string).  (* 500 *)

Section PlanService.

Context {host : Js.Host}.

(** [formatTrainsForAI]: the spread of the document comes last, so a field
    of the document stands and an absent one gets its default.  (A key of
    the document that holds [null] would stand as [null]; a field of this
    model is [None] for an absent key.) *)
Definition formatTrain (train : Train.t) : Train.t :=
  {| Train._id := train.(Train._id);
     Train.trainsetId := train.(Train.trainsetId);
     Train.fitnessStatus :=
       match train.(Train.fitnessStatus) with
       | Some f => Some f
       | None =>
           Some {| Fitness.isValid := Some false; Fitness.expiryDate := None |}
       end;
     Train.maintenanceStatus :=
       match train.(Train.maintenanceStatus) with
       | Some s => Some s
       | None => Some "UNKNOWN"%string
       end;
     Train.maintenanceDue :=
       match train.(Train.maintenanceDue) with
       | Some b => Some b
       | None => Some false
       end;
     Train.currentMileage :=
       match train.(Train.currentMileage) with
       | Some m => Some m
       | None => Some 0%Q
       end;
     Train.isAvailableForService :=
       match train.(Train.isAvailableForService) with
       | Some b => Some b
       | None => Some true
       end;
     Train.cleaningStatus :=
       match train.(Train.cleaningStatus) with
       | Some s => Some s
       | None => Some "UNKNOWN"%string
       end;
     Train.branding :=
       match train.(Train.branding) with
       | Some b => Some b
       | None =>
           Some {| Branding.hasBranding := Some false;
                   Branding.brandingPriority := Some 1%Q |}
       end;
     Train.performanceScore :=
       match train.(Train.performanceScore) with
       | Some p => Some p
       | None => Some 0%Q
       end;
     Train.reliabilityScore :=
       match train.(Train.reliabilityScore) with
       | Some p => Some p
       | None => Some 0%Q
       end |}.

Definition formatTrainsForAI (trains : list Train.t) : list Train.t :=
  map formatTrain trains.

Definition callAIOptimizer (clock : Clock.t) (ai : AxiosOutcome)
    (trains : list Train.t) (constraints : option Js.json)
    : Outcome Result.t :=
  let constraints := override constraints (Js.JObj []) in
  let catch (code : option string) (message : string) : Outcome Result.t :=
    if Js.strictEq code "ECONNREFUSED" then
      Ok (fallbackOptimization clock trains constraints)
    else Throw (String.append "AI optimization failed: " message) in
  match ai with
  | Resolved (Some data) =>
      Ok {| Result.rankedTrains := override data.(AiData.rankedTrains) [];
            Result.alerts := override data.(AiData.alerts) [];
            Result.metrics := data.(AiData.metrics);
            Result.modelInfo :=
              override data.(AiData.modelInfo)
                {| ModelInfo.version := Some "unknown"%string;
                   ModelInfo.algorithm := None;
                   ModelInfo.parameters := None |} |}
  | Resolved None => catch None "Empty response from AI service"%string
  | Rejected code message => catch code message
  end.

(** The schema's defaults, applied by [new InductionPlan(...)]. *)
Definition newInductionPlan (env : Env.t) (planDate : Z) (r : Result.t)
    : Plan.t :=
  {| Plan._id := env.(Env.freshId);
     Plan.planDate := planDate;
     Plan.generatedAt := env.(Env.requestTime);
     Plan.rankedTrains := r.(Result.rankedTrains);
     Plan.alerts := r.(Result.alerts);
     Plan.status := "FINALIZED";
     Plan.optimizationMetrics :=
       override r.(Result.metrics)
         {| Metrics.totalTrainsEvaluated := 0;
            Metrics.constraintsSatisfied := 0;
            Metrics.averageConfidence := Js.Num 0;
            Metrics.processingTimeMs := 0 |};
     Plan.generatedBy := env.(Env.user);
     Plan.aiModelInfo :=
       {| ModelInfo.version :=
            Some (override r.(Result.modelInfo).(ModelInfo.version)
                    "1.0"%string);
          ModelInfo.algorithm :=
            Some (override r.(Result.modelInfo).(ModelInfo.algorithm)
                    "Multi-Objective Optimization"%string);
          ModelInfo.parameters :=
            Some (override r.(Result.modelInfo).(ModelInfo.parameters)
                    (Js.JObj [])) |} |}.

(** The validators that the plan schema declares on the fields of a plan:
    [required] (a string must be non-empty), [min], [max], [enum], and a
    Number field does not take [NaN]. *)
Definition validEntry (e : Ranked.t) : bool :=
  (1 <=? e.(Ranked.rank))
  && negb (String.eqb e.(Ranked.reasoning) "")
  && (0 <=? e.(Ranked.confidenceScore))
  && (e.(Ranked.confidenceScore) <=? 100).

Definition validAlert (a : Alert.t) : bool :=
  (String.eqb a.(Alert.type) "WARNING"
   || String.eqb a.(Alert.type) "CRITICAL"
   || String.eqb a.(Alert.type) "INFO")
  && negb (String.eqb a.(Alert.message) "")
  && (1 <=? a.(Alert.severity))
  && (a.(Alert.severity) <=? 5).

Definition validate (plan : Plan.t) : bool :=
  forallb validEntry plan.(Plan.rankedTrains)
  && forallb validAlert plan.(Plan.alerts)
  && match plan.(Plan.optimizationMetrics).(Metrics.averageConfidence) with
     | Js.NaN => false
     | _ => true
     end.

Definition Store : Type := list Plan.t.

(** [InductionPlan.findOne({ planDate, status: 'FINALIZED' })]. *)
Definition findFinalized (store : Store) (planDate : Z) : option Plan.t :=
  List.find
    (fun p => (p.(Plan.planDate) =? planDate)
              && String.eqb p.(Plan.status) "FINALIZED")
    store.

(** [plan.save()]: the document is validated, and the schema declares
    [planDate] [unique], so the index rejects a second document with a
    stored [planDate].  The texts of the two errors are shortened. *)
Definition save (store : Store) (plan : Plan.t) : Outcome Store :=
  if negb (validate plan) then
    Throw "InductionPlan validation failed"
  else if existsb (fun p => p.(Plan.planDate) =? plan.(Plan.planDate)) store
  then Throw "E11000 duplicate key error"
  else Ok (store ++ [plan]).

Definition generate (env : Env.t) (req : Request.t) (store : Store)
    : Response * Store :=
  let planDate := override req.(Request.planDate) env.(Env.requestTime) in
  let forceRegenerate := Js.truthy req.(Request.forceRegenerate) in
  let existingPlan := findFinalized store planDate in
  match existingPlan, forceRegenerate with
  | Some existing, false =>
      (Conflict "PLAN_EXISTS" existing.(Plan._id), store)
  | _, _ =>
      let trains := env.(Env.trains) in
      if (Z.of_nat (List.length trains) =? 0) then
        (BadRequest "NO_TRAINS_AVAILABLE", store)
      else
        let formattedTrains := formatTrainsForAI trains in
        match callAIOptimizer env.(Env.clock) env.(Env.ai) formattedTrains
                req.(Request.constraints) with
        | Throw message => (ServerError message, store)
        | Ok aiResult =>
            let plan := newInductionPlan env planDate aiResult in
            match save store plan with
            | Throw message => (ServerError message, store)
            | Ok store' => (Created plan, store')
            end
        end
  end.

Definition byPlanDateDesc : Plan.t -> Plan.t -> Z :=
  Js.desc Plan.planDate.

(** [InductionPlan.getHistory(limit)], for a limit that is a natural
    number: [find({ status: 'FINALIZED' }).sort({ planDate: -1 })
    .limit(limit)].  The finalized plans, newest plan date first, at most
    [limit] of them; for the database a limit of 0 is no limit. *)
Definition getHistory (store : Store) (limit : nat) : list Plan.t :=
  let sorted :=
    Js.sort byPlanDateDesc
      (filter (fun p => String.eqb p.(Plan.status) "FINALIZED") store) in
  match limit with
  | O => sorted
  | S _ => firstn limit sorted
  end.

End PlanService.

(** [isServiceReady] of the train model ([models/train.model.js]), at the
    instant [now]: the documents of the model have their defaults, so the
    flags are read by truthiness. *)
Definition isServiceReady (now : Z) (train : Train.t) : bool :=
  match train.(Train.fitnessStatus) with
  | Some f =>
      Js.truthy f.(Fitness.isValid)
      && Js.strictEq train.(Train.maintenanceStatus) "OPERATIONAL"
      && Js.truthy train.(Train.isAvailableForService)
      && match f.(Fitness.expiryDate) with
         | Some expiryDate => expiryDate >? now
         | None => false
         end
  | None => false
  end.

(** A host that prints a timestamp by its milliseconds and a rational by its
    numerator and denominator. *)
Definition showQ (q : Q) : string :=
  String.append (Js.showZ (Qnum q))
    (String.append "/" (Js.showZ (Z.pos (Qden q)))).

Definition exactHost : Js.Host :=
  {| Js.toDateString := Js.showZ;
     Js.toLocaleString := showQ;
     Js.numberToString := showQ |}.


(** ** The words of the specification *)

(** [fitnessValid := train.fitness.valid /\ train.fitness.expiry > now]. *)
Definition fitnessValid (now : Z) (train : Train.t) : bool :=
  match train.(Train.fitnessStatus) with
  | Some f =>
      Js.truthy f.(Fitness.isValid)
      && match f.(Fitness.expiryDate) with
         | Some expiryDate => expiryDate >? now
         | None => false
         end
  | None => false
  end.

(** [hardEligible := fitnessValid /\ status = OPERATIONAL /\
    availableForService]. *)
Definition hardEligible (now : Z) (train : Train.t) : bool :=
  fitnessValid now train
  && Js.strictEq train.(Train.maintenanceStatus) "OPERATIONAL"
  && Js.truthy train.(Train.isAvailableForService).

Definition indicator (b : bool) : Q := if b then 1%Q else 0%Q.

Definition mileage (train : Train.t) : Q :=
  Js.orNum train.(Train.currentMileage) 0.

(** The arithmetic mean of the current mileage over a pool of trains. *)
Definition meanMileage (pool : list Train.t) : Q :=
  (fold_right Qplus 0 (map mileage pool)
   / inject_Z (Z.of_nat (List.length pool)))%Q.

(** The branding priority, 1 when it is absent or zero. *)
Definition priority (train : Train.t) : Q :=
  match train.(Train.branding) with
  | Some b => Js.orNum b.(Branding.brandingPriority) 1
  | None => 1%Q
  end.

(** [clamp(x, lo, hi)]. *)
Definition clamp (x lo hi : Z) : Z := Z.max lo (Z.min x hi).

(** What the specification calls the constraints record of the fallback. *)
Definition constantConstraints : Constraints.t :=
  {| Constraints.fitnessValid := true;
     Constraints.maintenanceReady := true;
     Constraints.cleaningStatus := "CLEAN";
     Constraints.brandingPriority := None;
     Constraints.mileageBalance := None |}.

(** ** A small fleet *)

Definition t0 : Z := 1700000000000.

(** An operational, clean, available, unbranded train. *)
Definition plainTrain (id code : string) (km : Q) (valid : bool) (expiry : Z)
    : Train.t :=
  {| Train._id := id;
     Train.trainsetId := code;
     Train.fitnessStatus :=
       Some {| Fitness.isValid := Some valid; Fitness.expiryDate := Some expiry |};
     Train.maintenanceStatus := Some "OPERATIONAL"%string;
     Train.maintenanceDue := None;
     Train.currentMileage := Some km;
     Train.isAvailableForService := Some true;
     Train.cleaningStatus := Some "CLEAN"%string;
     Train.branding :=
       Some {| Branding.hasBranding := Some false;
               Branding.brandingPriority := Some 1%Q |};
     Train.performanceScore := None;
     Train.reliabilityScore := None |}.

Definition ts01 : Train.t :=
  plainTrain "65f000000000000000000001" "TS-01" 5000 true (t0 + 30 * msPerDay).

Definition ts02 : Train.t :=
  plainTrain "65f000000000000000000002" "TS-02" 5000 true (t0 + 30 * msPerDay).

(** Valid flag, certificate expired one day ago. *)
Definition ts06 : Train.t :=
  plainTrain "65f000000000000000000006" "TS-06" 5000 true (t0 - msPerDay).

(** Flagged invalid, far from the others in mileage. *)
Definition ts07 : Train.t :=
  plainTrain "65f000000000000000000007" "TS-07" 15000 false (t0 + 30 * msPerDay).

(** Certificates that expire in two and in six days. *)
Definition ts04 : Train.t :=
  plainTrain "65f000000000000000000004" "TS-04" 5000 true (t0 + 2 * msPerDay).

Definition ts05 : Train.t :=
  plainTrain "65f000000000000000000005" "TS-05" 5000 true (t0 + 6 * msPerDay).

(** Due for cleaning and for maintenance, still operational. *)
Definition ts08 : Train.t :=
  {| Train._id := "65f000000000000000000008";
     Train.trainsetId := "TS-08";
     Train.fitnessStatus :=
       Some {| Fitness.isValid := Some true;
               Fitness.expiryDate := Some (t0 + 30 * msPerDay) |};
     Train.maintenanceStatus := Some "OPERATIONAL"%string;
     Train.maintenanceDue := Some true;
     Train.currentMileage := Some 5000%Q;
     Train.isAvailableForService := Some true;
     Train.cleaningStatus := Some "CLEANING_DUE"%string;
     Train.branding := None;
     Train.performanceScore := None;
     Train.reliabilityScore := None |}.

(** Like TS-01, with a performance score of 2. *)
Definition ts09 : Train.t :=
  {| Train._id := "65f000000000000000000009";
     Train.trainsetId := "TS-09";
     Train.fitnessStatus :=
       Some {| Fitness.isValid := Some true;
               Fitness.expiryDate := Some (t0 + 30 * msPerDay) |};
     Train.maintenanceStatus := Some "OPERATIONAL"%string;
     Train.maintenanceDue := None;
     Train.currentMileage := Some 5000%Q;
     Train.isAvailableForService := Some true;
     Train.cleaningStatus := Some "CLEAN"%string;
     Train.branding := None;
     Train.performanceScore := Some 2%Q;
     Train.reliabilityScore := None |}.

Definition clock0 : Clock.t :=
  {| Clock.startTime := t0; Clock.now := t0; Clock.endTime := t0 + 2 |}.

Definition noModifications : Modifications.t :=
  {| Modifications._id := None;
     Modifications.trainsetId := None;
     Modifications.fitnessStatus := None;
     Modifications.maintenanceStatus := None;
     Modifications.maintenanceDue := None;
     Modifications.currentMileage := None;
     Modifications.isAvailableForService := None;
     Modifications.cleaningStatus := None;
     Modifications.branding := None;
     Modifications.performanceScore := None;
     Modifications.reliabilityScore := None |}.

(** [{ branding: { hasBranding: true, brandingPriority: 5 } }]. *)
Definition brandedFive : Modifications.t :=
  {| Modifications._id := None;
     Modifications.trainsetId := None;
     Modifications.fitnessStatus := None;
     Modifications.maintenanceStatus := None;
     Modifications.maintenanceDue := None;
     Modifications.currentMileage := None;
     Modifications.isAvailableForService := None;
     Modifications.cleaningStatus := None;
     Modifications.branding :=
       Some (Some {| Branding.hasBranding := Some true;
                     Branding.brandingPriority := Some 5%Q |});
     Modifications.performanceScore := None;
     Modifications.reliabilityScore := None |}.

Definition envWith (ai : AxiosOutcome) (trains : list Train.t) : Env.t :=
  {| Env.user := "65e0000000000000000000aa";
     Env.requestTime := t0;
     Env.clock := clock0;
     Env.trains := trains;
     Env.ai := ai;
     Env.freshId := "6600000000000000000000b2" |}.

Definition refused : AxiosOutcome :=
  Rejected (Some "ECONNREFUSED"%string) "connect ECONNREFUSED 127.0.0.1:5000".

Definition timedOut : AxiosOutcome :=
  Rejected (Some "ECONNABORTED"%string) "timeout of 60000ms exceeded".

(** A body that is not an optimizer output: none of the fields. *)
Definition malformedBody : AxiosOutcome :=
  Resolved (Some {| AiData.rankedTrains := None;
                    AiData.alerts := None;
                    AiData.metrics := None;
                    AiData.modelInfo := None |}).

Definition requestFor (planDate : Z) (force : bool) : Request.t :=
  {| Request.planDate := Some planDate;
     Request.forceRegenerate := Some force;
     Request.constraints := None |}.

(** The store after a first successful generation for [t0]. *)
Definition storeAfterFirst : list Plan.t :=
  snd (generate (host := exactHost)
         {| Env.user := "65e0000000000000000000aa";
            Env.requestTime := t0;
            Env.clock := clock0;
            Env.trains := [ts01; ts02];
            Env.ai := refused;
            Env.freshId := "6600000000000000000000b1" |}
         (requestFor t0 false) []).

(** ** The rest of the induction router, the plan model, the train model
       and the role check *)

(** A document of the train model: what the optimizer reads, and the other
    fields of the schema that the model's virtuals and the constraints
    route read. *)
Module TrainDoc.
Record t : Type := {
  train : Train.t;
  currentLocation : option string;
  lastMaintenanceDate : option Z;
  nextMaintenanceDue : option Z
}.
End TrainDoc.

(** The virtual [daysSinceLastMaintenance]; [None] is [null]. *)
Definition daysSinceLastMaintenance (now : Z) (doc : TrainDoc.t) : option Z :=
  match doc.(TrainDoc.lastMaintenanceDate) with
  | None => None
  | Some last =>
      let diffTime := now - last in
      Some (Js.floorDiv diffTime msPerDay)
  end.

(** The virtual [maintenanceUrgency]. *)
Definition maintenanceUrgency (now : Z) (doc : TrainDoc.t) : string :=
  match doc.(TrainDoc.nextMaintenanceDue) with
  | None => "LOW"
  | Some due =>
      let daysUntilDue := Js.floorDiv (due - now) msPerDay in
      if daysUntilDue <=? 0 then "CRITICAL"
      else if daysUntilDue <=? 3 then "HIGH"
      else if daysUntilDue <=? 7 then "MEDIUM"
      else "LOW"
  end.

(** [GET /api/trains/constraints]. *)
Module FitnessExpiring.
Record t : Type := {
  trainId : string;
  expiryDate : Z;
  daysRemaining : Z
}.
End FitnessExpiring.

Module MaintenanceDue.
Record t : Type := {
  trainId : string;
  urgency : string;
  daysSinceLast : option Z
}.
End MaintenanceDue.

Module CleaningDue.
Record t : Type := {
  trainId : string;
  location : option string
}.
End CleaningDue.

Module Unavailable.
Record t : Type := {
  trainId : string;
  reasons : list string
}.
End Unavailable.

Module Violations.
Record t : Type := {
  fitnessExpiring : list FitnessExpiring.t;
  maintenanceDue : list MaintenanceDue.t;
  cleaningDue : list CleaningDue.t;
  unavailable : list Unavailable.t
}.
End Violations.

Module ConstraintsSummary.
Record t : Type := {
  totalTrains : Z;
  serviceReady : Z;
  constraintViolations : Z
}.
End ConstraintsSummary.

Module ConstraintsReport.
Record t : Type := {
  summary : ConstraintsSummary.t;
  constraints : Violations.t
}.
End ConstraintsReport.

(** [[a && 'x', b && 'y', c && 'z'].filter(Boolean)]: an element is the
    string, or [false] (here [None]), which the filter drops. *)
Definition unavailableReasons (train : Train.t) : list string :=
  flat_map (fun r : option string =>
              match r with
              | Some reason => [reason]
              | None => []
              end)
    [ if negb (fitnessIsValid train) then Some "Invalid fitness"%string
      else None;
      if negb (Js.strictEq train.(Train.maintenanceStatus) "OPERATIONAL")
      then Some "Maintenance required"%string else None;
      if negb (Js.truthy train.(Train.isAvailableForService))
      then Some "Not available"%string else None ].

(** The clock of the host during one request: every [Date.now()] and
    every [new Date()] reads the next of its instants. *)
Module Ticks.
Record t : Type := {
  instants : nat -> Z;
  reads : nat
}.

(** A clock that shows one instant throughout. *)
Definition frozen (now : Z) : t :=
  {| instants := fun _ => now; reads := 0 |}.

(** A clock that never goes back. *)
Definition monotone (clock : t) : Prop :=
  forall i j : nat, (i <= j)%nat -> clock.(instants) i <= clock.(instants) j.

(** The same clock after some more readings. *)
Definition follows (before after : t) : Prop :=
  after.(instants) = before.(instants)
  /\ (before.(reads) <= after.(reads))%nat.
End Ticks.

(** [Date.now()], and the time of [new Date()]. *)
Definition dateNow (clock : Ticks.t) : Z * Ticks.t :=
  (clock.(Ticks.instants) clock.(Ticks.reads),
   {| Ticks.instants := clock.(Ticks.instants);
      Ticks.reads := S clock.(Ticks.reads) |}).

(** The virtuals and the method of the train model as the route calls
    them: each call that gets as far as the clock reads it once. *)
Definition readDaysSinceLastMaintenance (doc : TrainDoc.t) (clock : Ticks.t)
    : option Z * Ticks.t :=
  match doc.(TrainDoc.lastMaintenanceDate) with
  | None => (None, clock)
  | Some _ =>
      let (now, clock) := dateNow clock in
      (daysSinceLastMaintenance now doc, clock)
  end.

Definition readMaintenanceUrgency (doc : TrainDoc.t) (clock : Ticks.t)
    : string * Ticks.t :=
  match doc.(TrainDoc.nextMaintenanceDue) with
  | None => ("LOW"%string, clock)
  | Some _ =>
      let (now, clock) := dateNow clock in
      (maintenanceUrgency now doc, clock)
  end.

(** [train.isServiceReady()]: [&&] stops at the first falsy operand, so the
    clock is read only when the flag, the status and the availability are
    in order. *)
Definition readIsServiceReady (train : Train.t) (clock : Ticks.t)
    : bool * Ticks.t :=
  if fitnessIsValid train
     && Js.strictEq train.(Train.maintenanceStatus) "OPERATIONAL"
     && Js.truthy train.(Train.isAvailableForService)
  then
    let (now, clock) := dateNow clock in
    (isServiceReady now train, clock)
  else (false, clock).

(** One iteration of the [forEach] of the constraints route; reading
    [expiryDate.getTime()] of a document without the date throws. *)
Definition constraintsStep (acc : Violations.t) (doc : TrainDoc.t)
    (clock : Ticks.t) : Outcome Violations.t * Ticks.t :=
  let train := doc.(TrainDoc.train) in
  match train.(Train.fitnessStatus) with
  | Some {| Fitness.expiryDate := Some expiryDate |} =>
      let (now, clock) := dateNow clock in
      let daysUntilFitnessExpiry :=
        Js.floorDiv (expiryDate - now) msPerDay in
      let fitnessExpiring :=
        if daysUntilFitnessExpiry <=? 7 then
          acc.(Violations.fitnessExpiring)
          ++ [ {| FitnessExpiring.trainId := train.(Train.trainsetId);
                  FitnessExpiring.expiryDate := expiryDate;
                  FitnessExpiring.daysRemaining := daysUntilFitnessExpiry |} ]
        else acc.(Violations.fitnessExpiring) in
      let (maintenanceDue, clock) :=
        if Js.strictEq train.(Train.maintenanceStatus) "MAINTENANCE_DUE" then
          let (urgency, clock) := readMaintenanceUrgency doc clock in
          let (daysSinceLast, clock) :=
            readDaysSinceLastMaintenance doc clock in
          (acc.(Violations.maintenanceDue)
           ++ [ {| MaintenanceDue.trainId := train.(Train.trainsetId);
                   MaintenanceDue.urgency := urgency;
                   MaintenanceDue.daysSinceLast := daysSinceLast |} ],
           clock)
        else (acc.(Violations.maintenanceDue), clock) in
      let cleaningDue :=
        if Js.strictEq train.(Train.cleaningStatus) "CLEANING_DUE" then
          acc.(Violations.cleaningDue)
          ++ [ {| CleaningDue.trainId := train.(Train.trainsetId);
                  CleaningDue.location := doc.(TrainDoc.currentLocation) |} ]
        else acc.(Violations.cleaningDue) in
      let (ready, clock) := readIsServiceReady train clock in
      let unavailable :=
        if negb ready then
          acc.(Violations.unavailable)
          ++ [ {| Unavailable.trainId := train.(Train.trainsetId);
                  Unavailable.reasons := unavailableReasons train |} ]
        else acc.(Violations.unavailable) in
      (Ok {| Violations.fitnessExpiring := fitnessExpiring;
             Violations.maintenanceDue := maintenanceDue;
             Violations.cleaningDue := cleaningDue;
             Violations.unavailable := unavailable |},
       clock)
  | _ =>
      (Throw "Cannot read properties of undefined (reading 'getTime')", clock)
  end.

Fixpoint constraintsLoop (acc : Violations.t) (docs : list TrainDoc.t)
    (clock : Ticks.t) : Outcome Violations.t * Ticks.t :=
  match docs with
  | [] => (Ok acc, clock)
  | doc :: rest =>
      match constraintsStep acc doc clock with
      | (Ok acc', clock) => constraintsLoop acc' rest clock
      | (Throw message, clock) => (Throw message, clock)
      end
  end.

(** [trains.filter(t => t.isServiceReady())]. *)
Fixpoint filterServiceReady (docs : list TrainDoc.t) (clock : Ticks.t)
    : list TrainDoc.t * Ticks.t :=
  match docs with
  | [] => ([], clock)
  | doc :: rest =>
      let (ready, clock) :=
        readIsServiceReady doc.(TrainDoc.train) clock in
      let (kept, clock) := filterServiceReady rest clock in
      (if ready then doc :: kept else kept, clock)
  end.

(** The handler: the report (200), or the message of the error (500). *)
Definition getConstraints (docs : list TrainDoc.t) (clock : Ticks.t)
    : Outcome ConstraintsReport.t * Ticks.t :=
  match
    constraintsLoop
      {| Violations.fitnessExpiring := [];
         Violations.maintenanceDue := [];
         Violations.cleaningDue := [];
         Violations.unavailable := [] |} docs clock
  with
  | (Throw message, clock) => (Throw message, clock)
  | (Ok constraints, clock) =>
      let (ready, clock) := filterServiceReady docs clock in
      (Ok {| ConstraintsReport.summary :=
               {| ConstraintsSummary.totalTrains :=
                    Z.of_nat (List.length docs);
                  ConstraintsSummary.serviceReady :=
                    Z.of_nat (List.length ready);
                  ConstraintsSummary.constraintViolations :=
                    fold_left (fun sum len => sum + len)
                      [ Z.of_nat (List.length constraints.(Violations.fitnessExpiring));
                        Z.of_nat (List.length constraints.(Violations.maintenanceDue));
                        Z.of_nat (List.length constraints.(Violations.cleaningDue));
                        Z.of_nat (List.length constraints.(Violations.unavailable)) ]
                      0 |};
             ConstraintsReport.constraints := constraints |},
       clock)
  end.

(** The methods and statics of the plan model. *)
Module Summary.
Record t : Type := {
  totalTrains : Z;
  criticalAlerts : Z;
  averageConfidence : Js.number;
  status : string
}.
End Summary.

Definition getCriticalAlerts (plan : Plan.t) : list Alert.t :=
  filter (fun alert => String.eqb alert.(Alert.type) "CRITICAL")
    plan.(Plan.alerts).

Definition summary (plan : Plan.t) : Summary.t :=
  {| Summary.totalTrains := Z.of_nat (List.length plan.(Plan.rankedTrains));
     Summary.criticalAlerts :=
       Z.of_nat
         (List.length
            (filter (fun alert => String.eqb alert.(Alert.type) "CRITICAL")
               plan.(Plan.alerts)));
     Summary.averageConfidence :=
       plan.(Plan.optimizationMetrics).(Metrics.averageConfidence);
     Summary.status := plan.(Plan.status) |}.

(** [(a, b) => a.rank - b.rank]. *)
Definition byRankAsc (a b : Ranked.t) : Z :=
  a.(Ranked.rank) - b.(Ranked.rank).

(** [getTopTrains(n)]: [slice(0, n)] of the entries sorted by rank. *)
Definition getTopTrains (plan : Plan.t) (n : nat) : list Ranked.t :=
  firstn n (Js.sort byRankAsc plan.(Plan.rankedTrains)).

(** [getLatest]: the first finalized plan by plan date, newest first. *)
Definition getLatest (store : list Plan.t) : option Plan.t :=
  hd_error
    (Js.sort (Js.desc Plan.planDate)
       (filter (fun p => String.eqb p.(Plan.status) "FINALIZED") store)).

(** The role check of the auth middleware. *)
Module User.
Record t : Type := {
  _id : string;
  role : string
}.
End User.

(** What a middleware does: it calls [next], or it answers with a status
    and a code. *)
Inductive Gate : Type :=
| Next
| Deny (status : Z) (code : string).

(** The argument of [requireRole]: one role, or an array of roles. *)
Inductive Roles : Type :=
| OneRole (role : string)
| ManyRoles (roles : list string).

Definition requireRole (roles : Roles) (user : option User.t) : Gate :=
  match user with
  | None => Deny 401 "AUTH_REQUIRED"
  | Some u =>
      let allowedRoles :=
        match roles with
        | ManyRoles l => l
        | OneRole r => [r]
        end in
      if negb (existsb (String.eqb u.(User.role)) allowedRoles) then
        Deny 403 "INSUFFICIENT_PERMISSIONS"
      else Next
  end.

Definition requireAdmin : option User.t -> Gate :=
  requireRole (ManyRoles ["ADMIN"%string]).

Definition requireSupervisor : option User.t -> Gate :=
  requireRole (ManyRoles ["SUPERVISOR"%string; "ADMIN"%string]).

(** [POST /simulate] and [callAISimulator]. *)
Module SimData.
Record t : Type := {
  rankedTrains : option (list Ranked.t);
  alerts : option (list Alert.t);
  metrics : option Metrics.t;
  modelInfo : option ModelInfo.t;
  simulationParams : option SimulationParams.t;
  impactAnalysis : option Impact.t
}.
End SimData.

Inductive SimAxiosOutcome : Type :=
| SimResolved (data : option SimData.t)
| SimRejected (code : option string) (message : string).

(** What [callAISimulator] returns; an absent [simulationParams] or
    [impactAnalysis] is the empty object. *)
Module SimResult.
Record t : Type := {
  result : Result.t;
  simulationParams : option SimulationParams.t;
  impactAnalysis : option Impact.t
}.
End SimResult.

Module SimRequest.
Record t : Type := {
  trainId : option string;
  modifications : option Modifications.t;
  baseDate : option Z;
  constraints : option Js.json
}.
End SimRequest.

Module SimulationBody.
Record t : Type := {
  planDate : Z;
  rankedTrains : list Ranked.t;
  alerts : list Alert.t;
  optimizationMetrics : option Metrics.t;
  status : string;
  simulationParams : option SimulationParams.t;
  impactAnalysis : option Impact.t
}.
End SimulationBody.

Inductive SimResponse : Type :=
| SimOk (simulation : SimulationBody.t)  (* 200 *)
| SimBadRequest (code : string)  (* 400 *)
| SimNotFound (code : string)  (* 404 *)
| SimServerError (message : string).  (* 500 *)

Section SimulateRoute.

Context {host : Js.Host}.

Definition callAISimulator (clock : Clock.t) (ai : SimAxiosOutcome)
    (trains : list Train.t) (trainId : string)
    (modifications : Modifications.t) (constraints : option Js.json)
    : Outcome SimResult.t :=
  let constraints := override constraints (Js.JObj []) in
  let catch (code : option string) (message : string)
      : Outcome SimResult.t :=
    if Js.strictEq code "ECONNREFUSED" then
      let sim :=
        fallbackSimulation clock trains trainId modifications constraints in
      Ok {| SimResult.result := sim.(Simulation.result);
            SimResult.simulationParams :=
              Some sim.(Simulation.simulationParams);
            SimResult.impactAnalysis := Some sim.(Simulation.impactAnalysis) |}
    else Throw (String.append "AI simulation failed: " message) in
  match ai with
  | SimResolved (Some data) =>
      Ok {| SimResult.result :=
              {| Result.rankedTrains :=
                   override data.(SimData.rankedTrains) [];
                 Result.alerts := override data.(SimData.alerts) [];
                 Result.metrics := data.(SimData.metrics);
                 Result.modelInfo :=
                   override data.(SimData.modelInfo)
                     {| ModelInfo.version := Some "unknown"%string;
                        ModelInfo.algorithm := None;
                        ModelInfo.parameters := None |} |};
            SimResult.simulationParams := data.(SimData.simulationParams);
            SimResult.impactAnalysis := data.(SimData.impactAnalysis) |}
  | SimResolved None => catch None "Empty response from AI service"%string
  | SimRejected code message => catch code message
  end.

(** The handler of [POST /simulate]; an empty [trainId] is falsy. *)
Definition simulate (requestTime : Z) (clock : Clock.t)
    (trains : list Train.t) (ai : SimAxiosOutcome) (req : SimRequest.t)
    : SimResponse :=
  let baseDate := override req.(SimRequest.baseDate) requestTime in
  match req.(SimRequest.trainId), req.(SimRequest.modifications) with
  | Some trainId, Some modifications =>
      if String.eqb trainId "" then SimBadRequest "MISSING_SIMULATION_PARAMS"
      else
        match Js.find (isTarget trainId) trains with
        | None => SimNotFound "TRAIN_NOT_FOUND"
        | Some targetTrain =>
            let formattedTrains := formatTrainsForAI trains in
            match callAISimulator clock ai formattedTrains trainId
                    modifications req.(SimRequest.constraints) with
            | Throw message => SimServerError message
            | Ok aiResult =>
                SimOk
                  {| SimulationBody.planDate := baseDate;
                     SimulationBody.rankedTrains :=
                       aiResult.(SimResult.result).(Result.rankedTrains);
                     SimulationBody.alerts :=
                       aiResult.(SimResult.result).(Result.alerts);
                     SimulationBody.optimizationMetrics :=
                       aiResult.(SimResult.result).(Result.metrics);
                     SimulationBody.status := "SIMULATION";
                     SimulationBody.simulationParams :=
                       aiResult.(SimResult.simulationParams);
                     SimulationBody.impactAnalysis :=
                       aiResult.(SimResult.impactAnalysis) |}
            end
        end
  | _, _ => SimBadRequest "MISSING_SIMULATION_PARAMS"
  end.

(** [POST /generate] behind [requireSupervisor]: a denied caller does not
    reach the handler, and the handler signs the plan with the caller's id. *)
Definition postGenerate (caller : option User.t) (env : Env.t)
    (req : Request.t) (store : Store) : (Gate * option Response) * Store :=
  match requireSupervisor caller with
  | Next =>
      match caller with
      | Some u =>
          let env :=
            {| Env.user := u.(User._id);
               Env.requestTime := env.(Env.requestTime);
               Env.clock := env.(Env.clock);
               Env.trains := env.(Env.trains);
               Env.ai := env.(Env.ai);
               Env.freshId := env.(Env.freshId) |} in
          let '(response, store') := generate env req store in
          ((Next, Some response), store')
      | None =>
          ((Next,
            Some (ServerError
                    "Cannot read properties of undefined (reading '_id')")),
           store)
      end
  | Deny status code => ((Deny status code, None), store)
  end.

End SimulateRoute.

(** Documents for the constraints route. *)
Definition docOf (train : Train.t) : TrainDoc.t :=
  {| TrainDoc.train := train;
     TrainDoc.currentLocation := Some "Depot A"%string;
     TrainDoc.lastMaintenanceDate := None;
     TrainDoc.nextMaintenanceDue := None |}.

Definition supervisor : User.t :=
  {| User._id := "65e0000000000000000000aa"; User.role := "SUPERVISOR" |}.

Definition reader : User.t :=
  {| User._id := "65e0000000000000000000ab"; User.role := "READER" |}.

Definition simRefused : SimAxiosOutcome :=
  SimRejected (Some "ECONNREFUSED"%string) "connect ECONNREFUSED 127.0.0.1:5000".

(** Abbreviations for the statements about the plan store and the
    constraints route. *)
Definition isFinalized (p : Plan.t) : bool :=
  String.eqb p.(Plan.status) "FINALIZED".

(** [train.fitnessStatus.expiryDate] of a document, when it is there. *)
Definition expiryOf (doc : TrainDoc.t) : option Z :=
  match doc.(TrainDoc.train).(Train.fitnessStatus) with
  | Some f => f.(Fitness.expiryDate)
  | None => None
  end.

(** [!train.isServiceReady()]. *)
Definition notReady (now : Z) (doc : TrainDoc.t) : bool :=
  negb (isServiceReady now doc.(TrainDoc.train)).

(** [GET /explain/:planId]: the plan by its id, with the train of every
    ranked entry looked up among the documents ([populate] leaves [null],
    here [None], for a train that is gone). *)
Module DetailedAnalysis.
Record t : Type := {
  fitnessStatus : string;
  maintenanceUrgency : option string;
  mileageBalance : option Q;
  brandingPriority : option Q;
  locationAdvantage : option string
}.
End DetailedAnalysis.

Module Explanation.
Record t : Type := {
  rank : Z;
  train : option TrainDoc.t;
  reasoning : string;
  confidenceScore : Z;
  constraints : Constraints.t;
  detailedAnalysis : DetailedAnalysis.t
}.
End Explanation.

Module ExplainBody.
Record t : Type := {
  id : string;
  planDate : Z;
  generatedAt : Z;
  status : string;
  generatedBy : string;
  explanations : list Explanation.t;
  optimizationMetrics : Metrics.t;
  aiModelInfo : ModelInfo.t;
  alerts : list Alert.t
}.
End ExplainBody.

Inductive ExplainResponse : Type :=
| ExplainOk (body : ExplainBody.t)       (* 200 *)
| ExplainNotFound (code : string)        (* 404 *)
| ExplainServerError (message : string). (* 500 *)

(** The cast of a string to an [ObjectId], which [findById] makes before
    it asks the database: whether the string can be cast, and the message
    of the [CastError] when it cannot.  The [_id] of a stored plan is an
    [ObjectId], so its string can be cast. *)
Module Caster.
Record t : Type := {
  castable : string -> bool;
  message : string -> string
}.
End Caster.

Definition populate (docs : list TrainDoc.t) (id : string)
    : option TrainDoc.t :=
  List.find (fun doc => String.eqb doc.(TrainDoc.train).(Train._id) id) docs.

(** The callback of the map over the ranked entries;
    [entry.train?.maintenanceUrgency] calls the virtual, which reads the
    clock. *)
Definition explainEntry (docs : list TrainDoc.t) (entry : Ranked.t)
    (clock : Ticks.t) : Explanation.t * Ticks.t :=
  let train := populate docs entry.(Ranked.train) in
  let (urgency, clock) :=
    match train with
    | Some doc =>
        let (urgency, clock) := readMaintenanceUrgency doc clock in
        (Some urgency, clock)
    | None => (None, clock)
    end in
  ({| Explanation.rank := entry.(Ranked.rank);
      Explanation.train := train;
      Explanation.reasoning := entry.(Ranked.reasoning);
      Explanation.confidenceScore := entry.(Ranked.confidenceScore);
      Explanation.constraints := entry.(Ranked.constraints);
      Explanation.detailedAnalysis :=
        {| DetailedAnalysis.fitnessStatus :=
             match train with
             | Some doc =>
                 if fitnessIsValid doc.(TrainDoc.train) then "Valid"
                 else "Invalid"
             | None => "Invalid"
             end;
           DetailedAnalysis.maintenanceUrgency := urgency;
           DetailedAnalysis.mileageBalance :=
             match train with
             | Some doc => doc.(TrainDoc.train).(Train.currentMileage)
             | None => None
             end;
           DetailedAnalysis.brandingPriority :=
             match train with
             | Some doc =>
                 match doc.(TrainDoc.train).(Train.branding) with
                 | Some b => b.(Branding.brandingPriority)
                 | None => None
                 end
             | None => None
             end;
           DetailedAnalysis.locationAdvantage :=
             match train with
             | Some doc => doc.(TrainDoc.currentLocation)
             | None => None
             end |} |},
   clock).

(** [plan.rankedTrains.map(entry => ...)]. *)
Fixpoint explainEntries (docs : list TrainDoc.t) (entries : list Ranked.t)
    (clock : Ticks.t) : list Explanation.t * Ticks.t :=
  match entries with
  | [] => ([], clock)
  | entry :: rest =>
      let (explanation, clock) := explainEntry docs entry clock in
      let (explanations, clock) := explainEntries docs rest clock in
      (explanation :: explanations, clock)
  end.

(** The handler: [findById] rejects with a [CastError] for a string that
    is no [ObjectId], and the [catch] answers 500; it resolves to [null]
    when no plan has the id (404). *)
Definition explain (caster : Caster.t) (docs : list TrainDoc.t)
    (store : list Plan.t) (planId : string) (clock : Ticks.t)
    : ExplainResponse * Ticks.t :=
  if negb (caster.(Caster.castable) planId) then
    (ExplainServerError (caster.(Caster.message) planId), clock)
  else
    match List.find (fun p => String.eqb p.(Plan._id) planId) store with
    | None => (ExplainNotFound "PLAN_NOT_FOUND", clock)
    | Some plan =>
        let (explanations, clock) :=
          explainEntries docs plan.(Plan.rankedTrains) clock in
        (ExplainOk
           {| ExplainBody.id := plan.(Plan._id);
              ExplainBody.planDate := plan.(Plan.planDate);
              ExplainBody.generatedAt := plan.(Plan.generatedAt);
              ExplainBody.status := plan.(Plan.status);
              ExplainBody.generatedBy := plan.(Plan.generatedBy);
              ExplainBody.explanations := explanations;
              ExplainBody.optimizationMetrics :=
                plan.(Plan.optimizationMetrics);
              ExplainBody.aiModelInfo := plan.(Plan.aiModelInfo);
              ExplainBody.alerts := plan.(Plan.alerts) |},
         clock)
    end.



(** A caster that takes the strings of 24 hexadecimal digits; the text of
    its message is shortened. *)
Definition isHexDigit (ch : Ascii.ascii) : bool :=
  let n := Ascii.nat_of_ascii ch in
  ((48 <=? n) && (n <=? 57) || (97 <=? n) && (n <=? 102)
   || (65 <=? n) && (n <=? 70))%nat.

Definition hexCaster : Caster.t :=
  {| Caster.castable :=
       fun id =>
         (String.length id =? 24)%nat
         && forallb isHexDigit (list_ascii_of_string id);
     Caster.message :=
       fun id => String.append "Cast to ObjectId failed for value " id |}.

(** Sample requests and documents for the routes. *)
Definition simRequestFor (trainId : string) : SimRequest.t :=
  {| SimRequest.trainId := Some trainId;
     SimRequest.modifications := Some brandedFive;
     SimRequest.baseDate := None;
     SimRequest.constraints := None |}.

Definition dueIn (days : Z) : TrainDoc.t :=
  {| TrainDoc.train := ts01;
     TrainDoc.currentLocation := Some "Depot A"%string;
     TrainDoc.lastMaintenanceDate := None;
     TrainDoc.nextMaintenanceDue := Some (t0 + days * msPerDay) |}.

(** Available flag cleared, otherwise like TS-01. *)
Definition ts10 : Train.t :=
  {| Train._id := "65f000000000000000000010";
     Train.trainsetId := "TS-10";
     Train.fitnessStatus :=
       Some {| Fitness.isValid := Some true;
               Fitness.expiryDate := Some (t0 + 30 * msPerDay) |};
     Train.maintenanceStatus := Some "OPERATIONAL"%string;
     Train.maintenanceDue := None;
     Train.currentMileage := Some 5000%Q;
     Train.isAvailableForService := Some false;
     Train.cleaningStatus := Some "CLEAN"%string;
     Train.branding := None;
     Train.performanceScore := None;
     Train.reliabilityScore := None |}.

(** The first plan for [t0], a plan for the next day, and a plan that
    carries alerts. *)
Definition firstEnv : Env.t :=
  {| Env.user := "65e0000000000000000000aa";
     Env.requestTime := t0;
     Env.clock := clock0;
     Env.trains := [ts01; ts02];
     Env.ai := refused;
     Env.freshId := "6600000000000000000000b1" |}.

Definition firstPlan : Plan.t :=
  newInductionPlan firstEnv t0
    (fallbackOptimization (host := exactHost) clock0
       (formatTrainsForAI [ts01; ts02]) (Js.JObj [])).

Definition secondPlan : Plan.t :=
  newInductionPlan (envWith refused [ts01; ts02]) (t0 + msPerDay)
    (fallbackOptimization (host := exactHost) clock0
       (formatTrainsForAI [ts01; ts02]) (Js.JObj [])).

Definition alertPlan : Plan.t :=
  newInductionPlan firstEnv t0
    (fallbackOptimization (host := exactHost) clock0 [ts04; ts05; ts06]
       (Js.JObj [])).

(** ** The scorer in the arithmetic of the code *)

(** What the scorer needs of its numbers: the value of a literal or of a
    field, the four operations, [Math.abs] and [Math.max]. *)
Module Arith.
Record t : Type := {
  num : Type;
  ofQ : Q -> num;
  add : num -> num -> num;
  sub : num -> num -> num;
  mul : num -> num -> num;
  div : num -> num -> num;
  abs : num -> num;
  max : num -> num -> num
}.
End Arith.

(** IEEE binary64, on the kernel's floats. *)
Module Double.

Definition t : Type := PrimFloat.float.

(** The double nearest to an integer. *)
Definition ofZ (z : Z) : t :=
  FloatOps.SF2Prim
    (SpecFloat.binary_normalize FloatOps.prec FloatOps.emax z 0 false).

(** The double of a literal or of a field, for a numerator and a
    denominator below [2^53]: the division of two doubles is rounded to
    nearest, so this is the double nearest to [q].  A field holds the
    value of a double, [n / 2^k], which comes back exactly; the literal
    [0.1] is the double nearest to one tenth. *)
Definition ofQ (q : Q) : t :=
  PrimFloat.div (ofZ (Qnum q)) (ofZ (Z.pos (Qden q))).

(** The rational that a finite double is; [None] for [NaN] and the
    infinities. *)
Definition value (x : t) : option Q :=
  match FloatOps.Prim2SF x with
  | SpecFloat.S754_zero _ => Some 0%Q
  | SpecFloat.S754_finite s m e =>
      let magnitude :=
        if e <? 0 then Z.pos m # Z.to_pos (2 ^ (- e))
        else inject_Z (Z.pos m * 2 ^ e) in
      Some (if s then Qopp magnitude else magnitude)
  | _ => None
  end.

(** [Math.max(a, b)]: [NaN] if one of them is; of two zeros, the positive. *)
Definition max (a b : t) : t :=
  if PrimFloat.is_nan a || PrimFloat.is_nan b then PrimFloat.nan
  else if PrimFloat.ltb a b then b
  else if PrimFloat.ltb b a then a
  else if PrimFloat.get_sign a then b else a.

End Double.

Definition exactArith : Arith.t :=
  {| Arith.num := Q;
     Arith.ofQ := fun q => q;
     Arith.add := Qplus;
     Arith.sub := Qminus;
     Arith.mul := Qmult;
     Arith.div := Qdiv;
     Arith.abs := Qabs;
     Arith.max := Qmax |}.

Definition doubleArith : Arith.t :=
  {| Arith.num := Double.t;
     Arith.ofQ := Double.ofQ;
     Arith.add := PrimFloat.add;
     Arith.sub := PrimFloat.sub;
     Arith.mul := PrimFloat.mul;
     Arith.div := PrimFloat.div;
     Arith.abs := PrimFloat.abs;
     Arith.max := Double.max |}.

Section ScorerIn.

Variable A : Arith.t.

(** [trains.reduce((sum, t) => sum + (t.currentMileage || 0), 0)
    / trains.length]. *)
Definition avgMileageIn (trains : list Train.t) : Arith.num A :=
  Arith.div A
    (fold_left
       (fun sum t =>
          Arith.add A sum (Arith.ofQ A (Js.orNum t.(Train.currentMileage) 0)))
       trains (Arith.ofQ A 0))
    (Arith.ofQ A (inject_Z (Z.of_nat (List.length trains)))).

(** The callback of the map over the filtered trains, up to its [return]:
    the value of [score]. *)
Definition rawScoreIn (trains : list Train.t) (train : Train.t)
    : Arith.num A :=
  let score := Arith.ofQ A 0 in
  let score :=
    if fitnessIsValid train then Arith.add A score (Arith.ofQ A 30)
    else score in
  let score :=
    if Js.strictEq train.(Train.maintenanceStatus) "OPERATIONAL"
    then Arith.add A score (Arith.ofQ A 25) else score in
  let score :=
    if negb (Js.truthy train.(Train.maintenanceDue))
    then Arith.add A score (Arith.ofQ A 10) else score in
  let avgMileage := avgMileageIn trains in
  let mileageDiff :=
    Arith.abs A
      (Arith.sub A (Arith.ofQ A (Js.orNum train.(Train.currentMileage) 0))
         avgMileage) in
  let score :=
    Arith.add A score
      (Arith.max A (Arith.ofQ A 0)
         (Arith.sub A (Arith.ofQ A 15)
            (Arith.div A mileageDiff (Arith.ofQ A 1000)))) in
  let score :=
    if hasBranding train then
      match train.(Train.branding) with
      | Some b =>
          Arith.add A score
            (Arith.mul A (Arith.ofQ A (Js.orNum b.(Branding.brandingPriority) 1))
               (Arith.ofQ A 2))
      | None => score
      end
    else score in
  let score :=
    Arith.add A score
      (Arith.mul A (Arith.ofQ A (Js.orNum train.(Train.performanceScore) 0))
         (Arith.ofQ A (1 # 10))) in
  let score :=
    Arith.add A score
      (Arith.mul A (Arith.ofQ A (Js.orNum train.(Train.reliabilityScore) 0))
         (Arith.ofQ A (1 # 10))) in
  let score :=
    if Js.strictEq train.(Train.cleaningStatus) "CLEAN"
    then Arith.add A score (Arith.ofQ A 5) else score in
  score.

(** The amended words: the score as a sum of contributions. *)

(** A sum taken from the left, starting at 0. *)
Definition sumIn (terms : list (Arith.num A)) : Arith.num A :=
  fold_left (Arith.add A) terms (Arith.ofQ A 0).

(** The mean of the current mileage over a pool of trains. *)
Definition meanMileageIn (pool : list Train.t) : Arith.num A :=
  Arith.div A
    (sumIn (map (fun t => Arith.ofQ A (mileage t)) pool))
    (Arith.ofQ A (inject_Z (Z.of_nat (List.length pool)))).

(** The contributions to the score of a train, in their order, with the
    mean mileage of the given pool. *)
Definition contributionsIn (pool : list Train.t) (train : Train.t)
    : list (Arith.num A) :=
  (if fitnessIsValid train then [Arith.ofQ A 30] else [])
  ++ (if Js.strictEq train.(Train.maintenanceStatus) "OPERATIONAL"
      then [Arith.ofQ A 25] else [])
  ++ (if Js.truthy train.(Train.maintenanceDue) then []
      else [Arith.ofQ A 10])
  ++ [Arith.max A (Arith.ofQ A 0)
        (Arith.sub A (Arith.ofQ A 15)
           (Arith.div A
              (Arith.abs A
                 (Arith.sub A (Arith.ofQ A (mileage train))
                    (meanMileageIn pool)))
              (Arith.ofQ A 1000)))]
  ++ (if hasBranding train
      then [Arith.mul A (Arith.ofQ A (priority train)) (Arith.ofQ A 2)]
      else [])
  ++ [Arith.mul A (Arith.ofQ A (Js.orNum train.(Train.performanceScore) 0))
        (Arith.ofQ A (1 # 10));
      Arith.mul A (Arith.ofQ A (Js.orNum train.(Train.reliabilityScore) 0))
        (Arith.ofQ A (1 # 10))]
  ++ (if Js.strictEq train.(Train.cleaningStatus) "CLEAN"
      then [Arith.ofQ A 5] else []).

End ScorerIn.

(** The value of the double that the code computes for a train.  The
    ranking below is for scores that are finite; 0 stands in for a double
    that is not, which takes a field or a sum beyond the range of the
    doubles (about [1.8e308]). *)
Definition doubleScore (trains : list Train.t) (train : Train.t) : Q :=
  match Double.value (rawScoreIn doubleArith trains train) with
  | Some q => q
  | None => 0%Q
  end.

(** The ranking for any score: the map over the filtered trains with the
    value of [score] given by [scoreOf], the sort and the map to the
    entries. *)
Section RankWith.

Context {host : Js.Host}.

Variable scoreOf : list Train.t -> Train.t -> Q.

Definition scoreTrainWith (trains : list Train.t) (train : Train.t)
    : Scored.t :=
  {| Scored.train := train.(Train._id);
     Scored.score := Js.mathRound (scoreOf trains train);
     Scored.reasoning := generateReasoning train (scoreOf trains train) |}.

Definition rankTrainsWith (trains : list Train.t) : list Ranked.t :=
  Js.mapi rankEntry
    (Js.sort byScoreDesc
       (map (scoreTrainWith trains) (filter serviceReady trains))).

End RankWith.

(** The words of the claim and of its amendment, in exact arithmetic. *)

(** [maintenanceDue := nextMaintenanceDue <= now or status =
    MAINTENANCE_DUE], as the specification derives it. *)
Definition maintenanceDueSpec (now : Z) (doc : TrainDoc.t) : bool :=
  match doc.(TrainDoc.nextMaintenanceDue) with
  | Some due => due <=? now
  | None => false
  end
  || Js.strictEq doc.(TrainDoc.train).(Train.maintenanceStatus)
       "MAINTENANCE_DUE".

(** The score of the specification, for a given mean mileage. *)
Definition specScore (mean : Q) (now : Z) (doc : TrainDoc.t) : Q :=
  let train := doc.(TrainDoc.train) in
  (30 * indicator (fitnessValid now train)
   + 25 * indicator (Js.strictEq train.(Train.maintenanceStatus) "OPERATIONAL")
   + 10 * indicator (negb (maintenanceDueSpec now doc))
   + Qmax 0 (15 - Qabs (mileage train - mean) / 1000)
   + 2 * priority train * indicator (hasBranding train)
   + (1 # 10) * Js.orNum train.(Train.performanceScore) 0
   + (1 # 10) * Js.orNum train.(Train.reliabilityScore) 0
   + 5 * indicator (Js.strictEq train.(Train.cleaningStatus) "CLEAN"))%Q.

(** The same weighted sum with the flag that the code reads: the key
    [maintenanceDue] of the document. *)
Definition weightedSum (mean : Q) (now : Z) (train : Train.t) : Q :=
  (30 * indicator (fitnessValid now train)
   + 25 * indicator (Js.strictEq train.(Train.maintenanceStatus) "OPERATIONAL")
   + 10 * indicator (negb (Js.truthy train.(Train.maintenanceDue)))
   + Qmax 0 (15 - Qabs (mileage train - mean) / 1000)
   + 2 * priority train * indicator (hasBranding train)
   + (1 # 10) * Js.orNum train.(Train.performanceScore) 0
   + (1 # 10) * Js.orNum train.(Train.reliabilityScore) 0
   + 5 * indicator (Js.strictEq train.(Train.cleaningStatus) "CLEAN"))%Q.

(** Two trains whose score is 83.5 in exact arithmetic. *)
Definition ts32 : Train.t := plainTrain "65f000000000000000000032" "TS-32" 200 true (t0 + 30 * msPerDay).

Definition ts31 : Train.t :=
  {| Train._id := "65f000000000000000000031";
     Train.trainsetId := "TS-31";
     Train.fitnessStatus :=
       Some {| Fitness.isValid := Some true;
               Fitness.expiryDate := Some (t0 + 30 * msPerDay) |};
     Train.maintenanceStatus := Some "OPERATIONAL"%string;
     Train.maintenanceDue := None;
     Train.currentMileage := Some 5000%Q;
     Train.isAvailableForService := Some true;
     Train.cleaningStatus := Some "CLEAN"%string;
     Train.branding := None;
     Train.performanceScore := Some 1%Q;
     Train.reliabilityScore := Some 8%Q |}.

(** A certificate that runs out tomorrow. *)
Definition ts33 : Train.t :=
  plainTrain "65f000000000000000000033" "TS-33" 5000 true (t0 + msPerDay).

(** A clock that shows [t0] at its first two readings and is two days
    later from the third on. *)
Definition slowClock : Ticks.t :=
  {| Ticks.instants :=
       fun i => if (i <? 2)%nat then t0 else t0 + 2 * msPerDay;
     Ticks.reads := 0 |}.

(** * Properties *)

(** ** The stable sort by a descending key *)

Section SortDesc.

Context {A : Type} (key : A -> Z).

Lemma insertBy_perm (cmp : A -> A -> Z) (x : A) (l : list A) :
  Permutation (Js.insertBy cmp x l) (x :: l).
Proof.
  induction l as [|y l IH]; simpl.
  - apply Permutation_refl.
  - destruct (cmp x y <=? 0).
    + apply Permutation_refl.
    + eapply perm_trans; [apply perm_skip, IH | apply perm_swap].
Qed.

Lemma sort_perm (cmp : A -> A -> Z) (l : list A) :
  Permutation (Js.sort cmp l) l.
Proof.
  induction l as [|x l IH]; simpl.
  - apply perm_nil.
  - eapply perm_trans; [apply insertBy_perm | apply perm_skip, IH].
Qed.

Lemma insertBy_sorted (x : A) (l : list A) :
  StronglySorted (fun a b => key b <= key a) l ->
  StronglySorted (fun a b => key b <= key a) (Js.insertBy (Js.desc key) x l).
Proof.
  induction 1 as [|y l Hl IH Hy]; simpl.
  - repeat constructor.
  - unfold Js.desc at 1. destruct (Z.leb_spec (key y - key x) 0) as [Hle|Hgt].
    + constructor; [constructor; assumption|].
      constructor; [lia|].
      rewrite Forall_forall in *. intros z Hz. specialize (Hy z Hz). lia.
    + constructor; [exact IH|].
      rewrite Forall_forall in *. intros z Hz.
      apply (Permutation_in _ (insertBy_perm (Js.desc key) x l)) in Hz.
      destruct Hz as [<-|Hz]; [lia | auto].
Qed.

Lemma sort_sorted (l : list A) :
  StronglySorted (fun a b => key b <= key a) (Js.sort (Js.desc key) l).
Proof.
  induction l as [|x l IH]; simpl.
  - constructor.
  - apply insertBy_sorted, IH.
Qed.

(** Stability: the elements of one key keep their relative order. *)
Lemma insertBy_stable (v : Z) (x : A) (l : list A) :
  filter (fun a => key a =? v) (Js.insertBy (Js.desc key) x l)
  = filter (fun a => key a =? v) (x :: l).
Proof.
  induction l as [|y l IH]; [reflexivity|].
  cbn [Js.insertBy]. unfold Js.desc at 1.
  destruct (Z.leb_spec (key y - key x) 0) as [Hle|Hgt]; [reflexivity|].
  cbn [filter] in *. rewrite IH.
  destruct (Z.eqb_spec (key y) v), (Z.eqb_spec (key x) v);
    try reflexivity; lia.
Qed.

Lemma sort_stable (v : Z) (l : list A) :
  filter (fun a => key a =? v) (Js.sort (Js.desc key) l)
  = filter (fun a => key a =? v) l.
Proof.
  induction l as [|x l IH]; [reflexivity|].
  cbn [Js.sort fold_right]. fold (Js.sort (Js.desc key) l).
  rewrite insertBy_stable. cbn [filter]. rewrite IH. reflexivity.
Qed.

End SortDesc.

Lemma mapFrom_length {A B : Type} (f : A -> Z -> B) (i : Z) (l : list A) :
  List.length (Js.mapFrom f i l) = List.length l.
Proof.
  revert i. induction l as [|x l IH]; intros i; simpl; [reflexivity|].
  now rewrite IH.
Qed.

Lemma mapFrom_In {A B : Type} (f : A -> Z -> B) (l : list A) :
  forall (i : Z) (y : B),
    In y (Js.mapFrom f i l) ->
    exists x k, In x l /\ i <= k /\ y = f x k.
Proof.
  induction l as [|x l IH]; intros i y Hy; simpl in Hy; [contradiction|].
  destruct Hy as [<-|Hy].
  - exists x, i. repeat split; [now left | lia].
  - destruct (IH _ _ Hy) as (x' & k & Hx' & Hk & ->).
    exists x', k. repeat split; [now right | lia].
Qed.

Lemma mapFrom_ranks {A B : Type} (f : A -> Z -> B) (rank : B -> Z) (l : list A) :
  (forall x k, rank (f x k) = k + 1) ->
  forall i : Z,
    map rank (Js.mapFrom f i l)
    = map (fun n => i + Z.of_nat n) (seq 1 (List.length l)).
Proof.
  intros Hrank. induction l as [|x l IH]; intros i; simpl; [reflexivity|].
  rewrite Hrank, IH. apply f_equal2; [lia|].
  rewrite <- (seq_shift (List.length l) 1), map_map. apply map_ext. intros n. lia.
Qed.

(** ** The ranking of the rule-based optimizer *)

Section Ranking.

Context {host : Js.Host}.

(** Every ranked entry is built from a train that passed the filter. *)
Lemma rankTrains_In (trains : list Train.t) (e : Ranked.t) :
  In e (rankTrains trains) ->
  exists train k,
    In train trains /\ serviceReady train = true /\ 0 <= k
    /\ e = rankEntry (scoreTrain trains train) k.
Proof.
  unfold rankTrains, Js.mapi. intros He.
  destruct (mapFrom_In _ _ _ _ He) as (item & k & Hitem & Hk & ->).
  apply (Permutation_in _ (sort_perm _ _)) in Hitem.
  unfold scoredTrains in Hitem. apply in_map_iff in Hitem.
  destruct Hitem as (train & <- & Htrain). apply filter_In in Htrain.
  exists train, k. tauto.
Qed.

Lemma rankTrains_length (trains : list Train.t) :
  List.length (rankTrains trains) = List.length (filter serviceReady trains).
Proof.
  unfold rankTrains, Js.mapi. rewrite mapFrom_length.
  rewrite (Permutation_length (sort_perm _ _)).
  unfold scoredTrains. apply length_map.
Qed.

Lemma confidenceOf_clamp (s : Z) : confidenceOf s = clamp s 60 100.
Proof. unfold confidenceOf, clamp. lia. Qed.

Lemma mathRound_le (s1 s2 : Q) :
  (s1 <= s2)%Q -> Js.mathRound s1 <= Js.mathRound s2.
Proof.
  intros H. unfold Js.mathRound. apply Qfloor_resp_le.
  apply Qplus_le_compat; [exact H | apply Qle_refl].
Qed.

(** C10: in every output of the fallback optimizer, the constraints record
    of each ranked entry is the constant
    [{ fitnessValid: true, maintenanceReady: true, cleaningStatus: "CLEAN" }],
    whatever the state of the train, and it has no [brandingPriority] and
    no [mileageBalance]. *)
Theorem ranked_constraints_are_constant (clock : Clock.t)
    (trains : list Train.t) (constraints : Js.json) :
  Forall
    (fun e =>
       e.(Ranked.constraints) = constantConstraints
       /\ e.(Ranked.constraints).(Constraints.brandingPriority) = None
       /\ e.(Ranked.constraints).(Constraints.mileageBalance) = None)
    (fallbackOptimization clock trains constraints).(Result.rankedTrains).
Proof.
  apply Forall_forall. intros e He. cbn in He.
  destruct (rankTrains_In _ _ He) as (train & k & _ & _ & _ & ->).
  repeat split.
Qed.

(** The ranking of the optimizer is the ranking for the exact score. *)
Lemma rankTrains_rankTrainsWith (trains : list Train.t) :
  rankTrains trains = rankTrainsWith rawScore trains.
Proof. reflexivity. Qed.

Lemma rankTrainsWith_In (scoreOf : list Train.t -> Train.t -> Q)
    (trains : list Train.t) (e : Ranked.t) :
  In e (rankTrainsWith scoreOf trains) ->
  exists train k,
    In train trains /\ serviceReady train = true /\ 0 <= k
    /\ e = rankEntry (scoreTrainWith scoreOf trains train) k.
Proof.
  unfold rankTrainsWith, Js.mapi. intros He.
  destruct (mapFrom_In _ _ _ _ He) as (item & k & Hitem & Hk & ->).
  apply (Permutation_in _ (sort_perm _ _)) in Hitem.
  apply in_map_iff in Hitem.
  destruct Hitem as (train & <- & Htrain). apply filter_In in Htrain.
  exists train, k. tauto.
Qed.

(** [Math.round] gives the integer within one half of its argument, the
    upper one at a half. *)
Lemma mathRound_nearest (s : Q) :
  (inject_Z (Js.mathRound s) - (1 # 2) <= s
   /\ s < inject_Z (Js.mathRound s) + (1 # 2))%Q.
Proof.
  unfold Js.mathRound.
  pose proof (Qfloor_le (s + (1 # 2))) as Hlo.
  pose proof (Qlt_floor (s + (1 # 2))) as Hhi.
  rewrite inject_Z_plus in Hhi. change (inject_Z 1) with 1%Q in Hhi.
  split; lra.
Qed.

(** The integer within one half of a number is unique. *)
Lemma nearest_unique (s : Q) (n m : Z) :
  (inject_Z n - (1 # 2) <= s /\ s < inject_Z n + (1 # 2))%Q ->
  (inject_Z m - (1 # 2) <= s /\ s < inject_Z m + (1 # 2))%Q ->
  n = m.
Proof.
  intros [Hn1 Hn2] [Hm1 Hm2].
  assert (Hnm : (inject_Z n < inject_Z m + 1)%Q) by lra.
  assert (Hmn : (inject_Z m < inject_Z n + 1)%Q) by lra.
  change 1%Q with (inject_Z 1) in Hnm, Hmn.
  rewrite <- inject_Z_plus in Hnm, Hmn.
  rewrite <- Zlt_Qlt in Hnm, Hmn. lia.
Qed.

(** The confidence falls, or stays, down the ranking. *)
Lemma confidence_descends (scoreOf : list Train.t -> Train.t -> Q)
    (trains : list Train.t) :
  StronglySorted
    (fun a b => b.(Ranked.confidenceScore) <= a.(Ranked.confidenceScore))
    (rankTrainsWith scoreOf trains).
Proof.
  unfold rankTrainsWith, Js.mapi, byScoreDesc.
  pose proof (sort_sorted Scored.score
                (map (scoreTrainWith scoreOf trains)
                   (filter serviceReady trains))) as Hsorted.
  revert Hsorted.
  generalize (Js.sort (Js.desc Scored.score)
                (map (scoreTrainWith scoreOf trains)
                   (filter serviceReady trains))).
  intros sorted Hsorted. generalize 0.
  induction Hsorted as [|x l Hl IH Hx]; intros i; cbn [Js.mapFrom].
  - constructor.
  - constructor; [apply IH|].
    apply Forall_forall. intros e He.
    destruct (mapFrom_In _ _ _ _ He) as (y & k & Hy & _ & ->).
    rewrite Forall_forall in Hx. specialize (Hx y Hy).
    cbn [rankEntry Ranked.confidenceScore]. unfold confidenceOf. lia.
Qed.

(** C8: whatever finite number the scorer gives (the value of the double
    of the code, or the exact sum), every ranked entry ranks a train that
    passed the filter,
    and its confidence is [clamp(n, 60, 100)] for the integer [n] within
    one half of the score of that train, the upper one at a half: that is
    [clamp(round(score), 60, 100)].  It lies in [60, 100]; a score of zero
    or below gives 60; and against the entry of any train, the lower score
    never has the higher confidence. *)
Theorem confidence_is_clamped_round
    (scoreOf : list Train.t -> Train.t -> Q)
    (trains : list Train.t) (e : Ranked.t) :
  In e (rankTrainsWith scoreOf trains) ->
  exists (train : Train.t) (n : Z),
    In train trains /\ serviceReady train = true
    /\ e.(Ranked.train) = train.(Train._id)
    /\ (inject_Z n - (1 # 2) <= scoreOf trains train
        /\ scoreOf trains train < inject_Z n + (1 # 2))%Q
    /\ e.(Ranked.confidenceScore) = clamp n 60 100
    /\ 60 <= e.(Ranked.confidenceScore) <= 100
    /\ ((scoreOf trains train <= 0)%Q -> e.(Ranked.confidenceScore) = 60)
    /\ (forall (other : Train.t) (k : Z),
           let entry := rankEntry (scoreTrainWith scoreOf trains other) k in
           ((scoreOf trains other <= scoreOf trains train)%Q ->
            entry.(Ranked.confidenceScore) <= e.(Ranked.confidenceScore))
           /\ ((scoreOf trains train <= scoreOf trains other)%Q ->
               e.(Ranked.confidenceScore) <= entry.(Ranked.confidenceScore))).
Proof.
  intros He.
  destruct (rankTrainsWith_In _ _ _ He) as (train & k & Hin & Hready & _ & ->).
  exists train, (Js.mathRound (scoreOf trains train)).
  cbn [rankEntry scoreTrainWith Ranked.confidenceScore Ranked.train
       Scored.score Scored.train].
  split; [exact Hin|]. split; [exact Hready|]. split; [reflexivity|].
  split; [apply mathRound_nearest|].
  split; [apply confidenceOf_clamp|].
  split; [unfold confidenceOf; lia|].
  split.
  - intros H. apply mathRound_le in H.
    change (Js.mathRound 0) with 0 in H. unfold confidenceOf. lia.
  - intros other j. cbv zeta.
    cbn [rankEntry scoreTrainWith Ranked.confidenceScore Scored.score].
    split; intros H; apply mathRound_le in H; unfold confidenceOf; lia.
Qed.

(** C3, as the code has it: the scored candidates are sorted by rounded
    score, highest first, and candidates of equal score keep the order of
    the input (there is no tie-break on the trainset code); the ranked
    entries are the sorted candidates in that order, with ranks 1, 2, ... *)
Theorem ranking_is_stable_sort_by_score (clock : Clock.t)
    (trains : list Train.t) (constraints : Js.json) :
  let sorted := Js.sort byScoreDesc (scoredTrains trains) in
  let ranked :=
    (fallbackOptimization clock trains constraints).(Result.rankedTrains) in
  Permutation sorted (scoredTrains trains)
  /\ StronglySorted (fun a b => b.(Scored.score) <= a.(Scored.score)) sorted
  /\ (forall v : Z,
         filter (fun a => a.(Scored.score) =? v) sorted
         = filter (fun a => a.(Scored.score) =? v) (scoredTrains trains))
  /\ map Ranked.train ranked = map Scored.train sorted
  /\ map Ranked.confidenceScore ranked
     = map (fun a => confidenceOf a.(Scored.score)) sorted
  /\ map Ranked.rank ranked
     = map Z.of_nat (seq 1 (List.length (filter serviceReady trains))).
Proof.
  cbn zeta. unfold byScoreDesc.
  split; [apply sort_perm|].
  split; [apply sort_sorted|].
  split; [intros v; apply sort_stable|].
  cbn [fallbackOptimization Result.rankedTrains].
  unfold rankTrains, Js.mapi, byScoreDesc.
  generalize (Js.sort (Js.desc Scored.score) (scoredTrains trains)) at 1 2 3 4.
  intros sorted.
  assert (Hmap : forall (B : Type) (g : Ranked.t -> B) (h : Scored.t -> B),
             (forall x k, g (rankEntry x k) = h x) ->
             forall i, map g (Js.mapFrom rankEntry i sorted) = map h sorted).
  { intros B g h Hgh. induction sorted as [|x l IH]; intros i; simpl;
      [reflexivity|]. now rewrite Hgh, IH. }
  split; [apply Hmap; reflexivity|].
  split; [apply Hmap; reflexivity|].
  rewrite <- rankTrains_length. unfold rankTrains, Js.mapi, byScoreDesc.
  rewrite mapFrom_length.
  rewrite (mapFrom_ranks rankEntry Ranked.rank) by reflexivity.
  reflexivity.
Qed.

(** C6, as the code has it: when no train passes the filter, the ranking
    is empty, [totalTrainsEvaluated] is the size of the input,
    [constraintsSatisfied] is 0, and [averageConfidence] is [0 / 0], that
    is [NaN]. *)
Theorem empty_pool_average_is_NaN (clock : Clock.t)
    (trains : list Train.t) (constraints : Js.json) :
  filter serviceReady trains = [] ->
  let r := fallbackOptimization clock trains constraints in
  r.(Result.rankedTrains) = []
  /\ option_map Metrics.totalTrainsEvaluated r.(Result.metrics)
     = Some (Z.of_nat (List.length trains))
  /\ option_map Metrics.constraintsSatisfied r.(Result.metrics) = Some 0
  /\ option_map Metrics.averageConfidence r.(Result.metrics) = Some Js.NaN.
Proof.
  intros Hnone. cbn zeta.
  assert (Hranked : rankTrains trains = []).
  { unfold rankTrains, scoredTrains. rewrite Hnone. reflexivity. }
  cbn. rewrite Hranked. repeat split.
Qed.

End Ranking.

(** ** The score *)

Section Score.

Context {host : Js.Host}.

Lemma fold_left_sum (f : Train.t -> Q) (l : list Train.t) :
  forall a : Q,
    (fold_left (fun sum t => sum + f t) l a
     == a + fold_right Qplus 0 (map f l))%Q.
Proof.
  induction l as [|x l IH]; intros a; simpl.
  - ring.
  - rewrite IH. ring.
Qed.

(** The mean that the scorer uses is the mean over all the input trains. *)
Lemma avgMileage_meanMileage (trains : list Train.t) :
  (avgMileage trains == meanMileage trains)%Q.
Proof.
  unfold avgMileage, meanMileage.
  rewrite (fold_left_sum (fun t => Js.orNum t.(Train.currentMileage) 0)).
  unfold mileage. rewrite Qplus_0_l. reflexivity.
Qed.

Lemma hardEligible_serviceReady (now : Z) (train : Train.t) :
  hardEligible now train = true ->
  serviceReady train = true /\ fitnessValid now train = true.
Proof.
  unfold hardEligible, serviceReady, fitnessValid, fitnessIsValid.
  destruct (Train.fitnessStatus train) as [f|]; [|discriminate].
  destruct (Js.truthy (Fitness.isValid f)); [|discriminate].
  destruct (Fitness.expiryDate f) as [d|]; [|discriminate].
  destruct (d >? now); [|discriminate].
  destruct (Js.strictEq (Train.maintenanceStatus train) "OPERATIONAL");
    [|discriminate].
  destruct (Train.isAvailableForService train) as [[|]|];
    try discriminate. auto.
Qed.

Lemma fold_left_add_map (A : Arith.t) (f : Train.t -> Arith.num A)
    (l : list Train.t) :
  forall a : Arith.num A,
    fold_left (fun sum t => Arith.add A sum (f t)) l a
    = fold_left (Arith.add A) (map f l) a.
Proof.
  induction l as [|x l IH]; intros a; simpl; [reflexivity | apply IH].
Qed.

(** In any arithmetic, the mean that the scorer uses is the mean over all
    the input trains, summed from the left. *)
Lemma avgMileageIn_meanMileageIn (A : Arith.t) (trains : list Train.t) :
  avgMileageIn A trains = meanMileageIn A trains.
Proof.
  unfold avgMileageIn, meanMileageIn, sumIn.
  rewrite (fold_left_add_map A
             (fun t => Arith.ofQ A (Js.orNum t.(Train.currentMileage) 0))).
  reflexivity.
Qed.

(** In any arithmetic, the score is the sum of the contributions, taken
    from the left. *)
Lemma rawScoreIn_sum (A : Arith.t) (trains : list Train.t) (train : Train.t) :
  rawScoreIn A trains train = sumIn A (contributionsIn A trains train).
Proof.
  unfold rawScoreIn, contributionsIn, sumIn. cbv zeta.
  rewrite avgMileageIn_meanMileageIn.
  unfold hasBranding, priority, mileage.
  destruct (fitnessIsValid train);
    destruct (Js.strictEq (Train.maintenanceStatus train) "OPERATIONAL");
    destruct (Js.truthy (Train.maintenanceDue train));
    (destruct (Train.branding train) as [b|];
       [destruct (Js.truthy (Branding.hasBranding b))|]);
    destruct (Js.strictEq (Train.cleaningStatus train) "CLEAN");
    reflexivity.
Qed.

(** The exact reading of the scorer is the scorer over the rationals. *)
Lemma rawScore_rawScoreIn (trains : list Train.t) (train : Train.t) :
  rawScore trains train = rawScoreIn exactArith trains train.
Proof. reflexivity. Qed.

Lemma rawScore_weightedSum (now : Z) (trains : list Train.t)
    (train : Train.t) :
  hardEligible now train = true ->
  (rawScore trains train == weightedSum (meanMileage trains) now train)%Q.
Proof.
  intros Helig.
  destruct (hardEligible_serviceReady _ _ Helig) as [Hready Hvalid].
  unfold serviceReady in Hready.
  apply andb_prop in Hready. destruct Hready as [Hready _].
  apply andb_prop in Hready. destruct Hready as [Hfit Hop].
  unfold rawScore, weightedSum. cbv zeta. rewrite Hvalid, Hfit, Hop.
  unfold priority, mileage, hasBranding, indicator.
  destruct (Train.branding train) as [b|];
    [destruct (Js.truthy (Branding.hasBranding b))|];
    destruct (Js.truthy (Train.maintenanceDue train));
    destruct (Js.strictEq (Train.cleaningStatus train) "CLEAN");
    cbn [negb]; rewrite avgMileage_meanMileage; unfold mileage; ring.
Qed.

(** C2, as the code has it.  In the arithmetic of the code (doubles) as in
    any other, the score of a train before [Math.round] is the sum, taken
    from the left starting at 0, of its contributions: 30 if the validity
    flag of the certificate is set, 25 if the status is [OPERATIONAL], 10
    unless the key [maintenanceDue] of the document is truthy, the mileage
    term [max(0, 15 - |mileage - mean| / 1000)] with the mean over ALL the
    input trains, twice the branding priority (1 when absent or zero) if
    the train has branding, a tenth of the performance score, a tenth of
    the reliability score, and 5 if the cleaning status is [CLEAN].  For a
    hard-eligible train and in exact arithmetic this sum is the weighted
    sum of the specification, read with that mean and that flag. *)
Theorem score_is_sum_of_contributions (A : Arith.t) (now : Z)
    (trains : list Train.t) (train : Train.t) :
  rawScoreIn A trains train = sumIn A (contributionsIn A trains train)
  /\ (hardEligible now train = true ->
      (rawScoreIn exactArith trains train
       == weightedSum (meanMileage trains) now train)%Q).
Proof.
  split; [apply rawScoreIn_sum|].
  intros Helig. rewrite <- rawScore_rawScoreIn.
  apply rawScore_weightedSum, Helig.
Qed.

End Score.

(** ** The alert generator *)

Lemma generateAlerts_perm (now : Z) (trains : list Train.t) :
  Permutation (generateAlerts now trains) (flat_map (trainAlerts now) trains).
Proof. apply sort_perm. Qed.

Lemma generateAlerts_sorted (now : Z) (trains : list Train.t) :
  StronglySorted (fun a b => b.(Alert.severity) <= a.(Alert.severity))
    (generateAlerts now trains).
Proof. apply (sort_sorted Alert.severity). Qed.

(** C7: a train with a fitness expiry date gets at most one fitness alert,
    decided by [daysToExpiry = floor((expiry - now) / 1 day)]: below 0 a
    CRITICAL alert of severity 5 that says the certificate has expired; from
    0 to 3 a CRITICAL alert of severity 5 that says in how many days it
    expires; from 4 to 7 a WARNING of severity 3; above 7 none.  The alerts
    of the train are in the returned list, which is sorted by severity,
    highest first. *)
Theorem fitness_alert_rules (now : Z) (trains : list Train.t)
    (train : Train.t) (f : Fitness.t) (expiry : Z) :
  In train trains ->
  train.(Train.fitnessStatus) = Some f ->
  f.(Fitness.expiryDate) = Some expiry ->
  let daysToExpiry := (expiry - now) / msPerDay in
  let code := train.(Train.trainsetId) in
  let expiresIn :=
    String.append code
      (String.append " fitness certificate expires in "
         (String.append (Js.showZ daysToExpiry) " days")) in
  daysToExpiry * msPerDay <= expiry - now < (daysToExpiry + 1) * msPerDay
  /\ ((daysToExpiry < 0
       /\ fitnessAlerts now train
          = [ {| Alert.type := "CRITICAL";
                 Alert.message :=
                   String.append code " fitness certificate has expired";
                 Alert.trainId := code;
                 Alert.severity := 5 |} ])
      \/ (0 <= daysToExpiry <= 3
          /\ fitnessAlerts now train
             = [ {| Alert.type := "CRITICAL";
                    Alert.message := expiresIn;
                    Alert.trainId := code;
                    Alert.severity := 5 |} ])
      \/ (4 <= daysToExpiry <= 7
          /\ fitnessAlerts now train
             = [ {| Alert.type := "WARNING";
                    Alert.message := expiresIn;
                    Alert.trainId := code;
                    Alert.severity := 3 |} ])
      \/ (7 < daysToExpiry /\ fitnessAlerts now train = []))
  /\ (List.length (fitnessAlerts now train) <= 1)%nat
  /\ incl (fitnessAlerts now train) (generateAlerts now trains)
  /\ Permutation (generateAlerts now trains)
       (flat_map (trainAlerts now) trains)
  /\ StronglySorted (fun a b => b.(Alert.severity) <= a.(Alert.severity))
       (generateAlerts now trains).
Proof.
  intros Hin Hf He. cbv zeta.
  split.
  { unfold msPerDay.
    pose proof (Z.div_mod (expiry - now) (1000 * 60 * 60 * 24) ltac:(lia)).
    pose proof (Z.mod_pos_bound (expiry - now) (1000 * 60 * 60 * 24)
                  ltac:(lia)).
    lia. }
  assert (Hcases :
    fitnessAlerts now train
    = let d := (expiry - now) / msPerDay in
      if (d <=? 3) && (d >=? 0) then
        [ {| Alert.type := "CRITICAL";
             Alert.message :=
               String.append train.(Train.trainsetId)
                 (String.append " fitness certificate expires in "
                    (String.append (Js.showZ d) " days"));
             Alert.trainId := train.(Train.trainsetId);
             Alert.severity := 5 |} ]
      else if (d <=? 7) && (d >? 3) then
        [ {| Alert.type := "WARNING";
             Alert.message :=
               String.append train.(Train.trainsetId)
                 (String.append " fitness certificate expires in "
                    (String.append (Js.showZ d) " days"));
             Alert.trainId := train.(Train.trainsetId);
             Alert.severity := 3 |} ]
      else if d <? 0 then
        [ {| Alert.type := "CRITICAL";
             Alert.message :=
               String.append train.(Train.trainsetId)
                 " fitness certificate has expired";
             Alert.trainId := train.(Train.trainsetId);
             Alert.severity := 5 |} ]
      else []).
  { unfold fitnessAlerts. rewrite Hf. destruct f as [valid ex].
    cbn in He. subst ex. reflexivity. }
  cbv zeta in Hcases. unfold Js.floorDiv in *.
  set (d := (expiry - now) / msPerDay) in *.
  split; [|split; [|split; [|split]]].
  - rewrite Hcases.
    destruct (Z.leb_spec d 3), (Z.geb_spec d 0), (Z.leb_spec d 7),
      (Z.gtb_spec d 3), (Z.ltb_spec d 0); cbn [andb];
      first [ left; split; [lia | reflexivity]
            | right; left; split; [lia | reflexivity]
            | right; right; left; split; [lia | reflexivity]
            | right; right; right; split; [lia | reflexivity]
            | lia ].
  - rewrite Hcases.
    destruct ((d <=? 3) && (d >=? 0)), ((d <=? 7) && (d >? 3)), (d <? 0);
      cbn; lia.
  - intros a Ha.
    apply (Permutation_in a (Permutation_sym (generateAlerts_perm now trains))).
    apply in_flat_map. exists train. split; [exact Hin|].
    unfold trainAlerts. apply in_or_app. now left.
  - apply generateAlerts_perm.
  - apply generateAlerts_sorted.
Qed.

(** ** The plan service *)

Section Generate.

Context {host : Js.Host}.

Lemma append_nonempty (s t : string) :
  t <> EmptyString -> String.eqb (String.append s t) "" = false.
Proof.
  intros Ht. destruct s as [|c s]; [|reflexivity].
  cbn. now apply String.eqb_neq.
Qed.

Lemma generateReasoning_nonempty (train : Train.t) (score : Q) :
  String.eqb (generateReasoning train score) "" = false.
Proof.
  unfold generateReasoning. cbv zeta.
  match goal with
  | |- context [if String.eqb ?j "" then _ else _] =>
      destruct (String.eqb j "") eqn:E; [reflexivity | exact E]
  end.
Qed.

(** What the optimizer ranks passes the validators of the plan schema. *)
Lemma rankTrains_valid (trains : list Train.t) :
  forallb validEntry (rankTrains trains) = true.
Proof.
  apply forallb_forall. intros e He.
  destruct (rankTrains_In _ _ He) as (train & k & _ & _ & Hk & ->).
  unfold validEntry, rankEntry, scoreTrain, confidenceOf.
  cbn [Ranked.rank Ranked.reasoning Ranked.confidenceScore
       Scored.score Scored.reasoning].
  rewrite generateReasoning_nonempty. cbn [negb].
  rewrite !andb_true_iff, !Z.leb_le. repeat split; first [reflexivity | lia].
Qed.

Lemma trainAlerts_valid (now : Z) (train : Train.t) (a : Alert.t) :
  In a (trainAlerts now train) -> validAlert a = true.
Proof.
  unfold trainAlerts. intros Ha.
  apply in_app_or in Ha. destruct Ha as [Ha|Ha];
    [|apply in_app_or in Ha; destruct Ha as [Ha|Ha]].
  - unfold fitnessAlerts in Ha.
    destruct (Train.fitnessStatus train) as [[valid [d|]]|];
      try contradiction.
    cbv zeta in Ha.
    repeat match type of Ha with
           | In _ (if ?c then _ else _) => destruct c
           end;
      cbn [In] in Ha; try contradiction;
      (destruct Ha as [<-|Ha]; [|contradiction]); unfold validAlert;
      cbn [Alert.type Alert.message Alert.severity];
      rewrite append_nonempty by discriminate; reflexivity.
  - unfold maintenanceAlerts in Ha.
    destruct (Js.truthy (Train.maintenanceDue train)); [|contradiction].
    destruct Ha as [<-|[]]. unfold validAlert.
    cbn [Alert.type Alert.message Alert.severity].
    rewrite append_nonempty by discriminate. reflexivity.
  - unfold availabilityAlerts in Ha.
    destruct (Train.isAvailableForService train) as [[|]|];
      try contradiction.
    destruct Ha as [<-|[]]. unfold validAlert.
    cbn [Alert.type Alert.message Alert.severity].
    rewrite append_nonempty by discriminate. reflexivity.
Qed.

Lemma generateAlerts_valid (now : Z) (trains : list Train.t) :
  forallb validAlert (generateAlerts now trains) = true.
Proof.
  apply forallb_forall. intros a Ha.
  apply (Permutation_in a (generateAlerts_perm now trains)) in Ha.
  apply in_flat_map in Ha. destruct Ha as (train & _ & Ha).
  exact (trainAlerts_valid _ _ _ Ha).
Qed.

Lemma divide_by_length (a : Q) (n : nat) :
  n <> 0%nat ->
  Js.divide a (inject_Z (Z.of_nat n))
  = Js.Num (a / inject_Z (Z.of_nat n)).
Proof.
  intros Hn. unfold Js.divide.
  destruct (Qeq_bool (inject_Z (Z.of_nat n)) 0) eqn:E; [|reflexivity].
  apply Qeq_bool_iff in E. unfold Qeq in E. cbn in E. lia.
Qed.

(** A plan made from the local optimizer's output is valid as soon as
    one train is ranked. *)
Lemma fallback_plan_valid (env : Env.t) (planDate : Z) (clock : Clock.t)
    (trains : list Train.t) (constraints : Js.json) :
  existsb serviceReady trains = true ->
  validate
    (newInductionPlan env planDate
       (fallbackOptimization clock trains constraints)) = true.
Proof.
  intros Hsome. unfold validate.
  cbn [newInductionPlan fallbackOptimization Plan.rankedTrains Plan.alerts
       Plan.optimizationMetrics Result.rankedTrains Result.alerts
       Result.metrics override Metrics.averageConfidence].
  rewrite rankTrains_valid, generateAlerts_valid.
  rewrite divide_by_length; [reflexivity|].
  rewrite rankTrains_length.
  apply existsb_exists in Hsome. destruct Hsome as (t & Hin & Hready).
  assert (Hf : In t (filter serviceReady trains))
    by (apply filter_In; auto).
  destruct (filter serviceReady trains); [contradiction | discriminate].
Qed.

(** C5, as the code has it: when the call to the external optimizer fails
    by connection refusal, and only then, the local rule-based optimizer
    runs on the same formatted trains and constraints; the plan that is
    persisted has the algorithm
    ["Rule-Based Weighted Scoring (Fallback)"] and the ranking of the
    local optimizer on those inputs.  (The plan date is free and one train
    passes the filter, so that the plan can be saved.)  A failure with any
    other error code, such as the [ECONNABORTED] of a timeout, is thrown
    on as ["AI optimization failed: ..."]. *)
Theorem refused_connection_falls_back (env : Env.t) (req : Request.t)
    (store : Store) (message : string) :
  env.(Env.ai) = Rejected (Some "ECONNREFUSED"%string) message ->
  existsb serviceReady (formatTrainsForAI env.(Env.trains)) = true ->
  existsb
    (fun p => p.(Plan.planDate)
              =? override req.(Request.planDate) env.(Env.requestTime))
    store = false ->
  let trains := formatTrainsForAI env.(Env.trains) in
  let constraints := override req.(Request.constraints) (Js.JObj []) in
  let local := fallbackOptimization env.(Env.clock) trains constraints in
  (callAIOptimizer env.(Env.clock) env.(Env.ai) trains
     req.(Request.constraints) = Ok local
   /\ exists plan,
      generate env req store = (Created plan, store ++ [plan])
      /\ plan.(Plan.status) = "FINALIZED"%string
      /\ plan.(Plan.aiModelInfo).(ModelInfo.algorithm)
         = Some "Rule-Based Weighted Scoring (Fallback)"%string
      /\ plan.(Plan.rankedTrains) = rankTrains trains
      /\ plan.(Plan.rankedTrains) = local.(Result.rankedTrains))
  /\ (forall (code : option string) (msg : string),
         Js.strictEq code "ECONNREFUSED" = false ->
         callAIOptimizer env.(Env.clock) (Rejected code msg) trains
           req.(Request.constraints)
         = Throw (String.append "AI optimization failed: " msg)).
Proof.
  intros Hai Hsome Hfree. cbv zeta.
  split; [|intros code msg Hcode; cbn; rewrite Hcode; reflexivity].
  assert (Hcall :
    callAIOptimizer env.(Env.clock) env.(Env.ai)
      (formatTrainsForAI env.(Env.trains)) req.(Request.constraints)
    = Ok (fallbackOptimization env.(Env.clock)
            (formatTrainsForAI env.(Env.trains))
            (override req.(Request.constraints) (Js.JObj [])))).
  { rewrite Hai. reflexivity. }
  split; [exact Hcall|].
  eexists. split.
  - unfold generate. cbv zeta.
    assert (Hnone :
      findFinalized store
        (override req.(Request.planDate) env.(Env.requestTime)) = None).
    { unfold findFinalized.
      match goal with
      | |- List.find ?g store = None =>
          destruct (List.find g store) as [p|] eqn:E; [|reflexivity]
      end.
      apply find_some in E. destruct E as [Hp Hmatch].
      apply andb_prop in Hmatch. destruct Hmatch as [Hdate _].
      assert (Htrue : existsb
                (fun p => p.(Plan.planDate)
                          =? override req.(Request.planDate)
                               env.(Env.requestTime)) store = true)
        by (apply existsb_exists; exists p; auto).
      congruence. }
    rewrite Hnone.
    assert (Hlen : (Z.of_nat (List.length env.(Env.trains)) =? 0) = false).
    { destruct env.(Env.trains) as [|t l]; [discriminate Hsome|].
      apply Z.eqb_neq. cbn [List.length]. lia. }
    rewrite Hlen, Hcall. unfold save.
    rewrite fallback_plan_valid by exact Hsome. cbn [negb].
    cbn [newInductionPlan Plan.planDate]. rewrite Hfree. reflexivity.
  - repeat split.
Qed.

(** Without [forceRegenerate], a finalized plan for the date is a conflict
    that names it, and nothing is stored. *)
Lemma generate_conflict (env : Env.t) (req : Request.t) (store : Store)
    (existing : Plan.t) :
  findFinalized store (override req.(Request.planDate) env.(Env.requestTime))
  = Some existing ->
  Js.truthy req.(Request.forceRegenerate) = false ->
  generate env req store
  = (Conflict "PLAN_EXISTS" existing.(Plan._id), store).
Proof.
  intros Hfound Hforce. unfold generate. cbv zeta.
  rewrite Hfound, Hforce. reflexivity.
Qed.

(** Once a plan is stored for a date, no request for that date stores
    another one, forced or not. *)
Lemma generate_taken_date_keeps_store (env : Env.t) (req : Request.t)
    (store : Store) :
  existsb
    (fun p => p.(Plan.planDate)
              =? override req.(Request.planDate) env.(Env.requestTime))
    store = true ->
  snd (generate env req store) = store.
Proof.
  intros Htaken. unfold generate. cbv zeta.
  destruct (findFinalized store _) as [existing|];
    destruct (Js.truthy req.(Request.forceRegenerate));
    try reflexivity;
    (destruct (Z.of_nat (List.length env.(Env.trains)) =? 0);
     [reflexivity|];
     destruct (callAIOptimizer _ _ _ _) as [aiResult|message];
     [|reflexivity];
     unfold save; destruct (negb (validate _)); [reflexivity|];
     cbn [newInductionPlan Plan.planDate]; rewrite Htaken; reflexivity).
Qed.

End Generate.

(** ** The code on the small fleet *)

Section Fleet.

#[local] Existing Instance exactHost.

(** C1, where the code departs from it: the filter of the optimizer reads
    the validity flag only, unlike [isServiceReady] of the train model, so
    a train whose certificate expired yesterday is ranked first while the
    alert generator reports the expiry. *)
Example expired_certificate_is_ranked :
  let r := fallbackOptimization clock0 [ts06] (Js.JObj []) in
  fitnessValid t0 ts06 = false
  /\ hardEligible t0 ts06 = false
  /\ isServiceReady t0 ts06 = false
  /\ serviceReady ts06 = true
  /\ map (fun e => (e.(Ranked.train), e.(Ranked.rank))) r.(Result.rankedTrains)
     = [("65f000000000000000000006"%string, 1)]
  /\ r.(Result.alerts)
     = [ {| Alert.type := "CRITICAL";
            Alert.message := "TS-06 fitness certificate has expired";
            Alert.trainId := "TS-06";
            Alert.severity := 5 |} ].
Proof. vm_compute. repeat split. Qed.

(** C2 fails as stated.  With one candidate at 5000 km and one
    filtered-out train at 15000 km, the mean of the candidate pool is 5000
    and gives a mileage term of 15 and a score of 85, while the code takes
    the mean 10000 of the whole input and computes 80.  A train whose next
    maintenance was due yesterday, with no [maintenanceDue] key in its
    document, gets the 10 points in the code and not in the formula: 85
    against 75.  And the score kept for a train whose sum is 85.2 is 85. *)
Lemma pool_mean_is_not_used :
  hardEligible t0 ts01 = true
  /\ filter (hardEligible t0) [ts01; ts07] = [ts01]
  /\ option_map Qred (Double.value (rawScoreIn doubleArith [ts01; ts07] ts01))
     = Some 80%Q
  /\ (rawScore [ts01; ts07] ts01 == 80)%Q
  /\ (specScore (meanMileage (filter (hardEligible t0) [ts01; ts07]))
        t0 (docOf ts01) == 85)%Q
  /\ (dueIn (-1)).(TrainDoc.train) = ts01
  /\ maintenanceDueSpec t0 (dueIn (-1)) = true
  /\ option_map Qred (Double.value (rawScoreIn doubleArith [ts01] ts01))
     = Some 85%Q
  /\ (specScore (meanMileage (filter (hardEligible t0) [ts01]))
        t0 (dueIn (-1)) == 75)%Q
  /\ hardEligible t0 ts09 = true
  /\ (scoreTrainWith doubleScore [ts09] ts09).(Scored.score) = 85
  /\ (specScore (meanMileage (filter (hardEligible t0) [ts09]))
        t0 (docOf ts09) == 426 # 5)%Q.
Proof.
  repeat (split; [vm_compute; reflexivity|]). vm_compute. reflexivity.
Qed.

(** The doubles of the code and the exact sum can round apart: with TS-32
    at 200 km and TS-31 at 5000 km, the exact score of TS-31 is 83.5 and
    rounds to 84; the double is just below 83.5, and the code keeps 83. *)
Lemma double_score_rounds_apart :
  (rawScore [ts32; ts31] ts31 == 167 # 2)%Q
  /\ (scoreTrain [ts32; ts31] ts31).(Scored.score) = 84
  /\ option_map Qred (Double.value (rawScoreIn doubleArith [ts32; ts31] ts31))
     = Some (5875790138834943 # 70368744177664)%Q
  /\ (doubleScore [ts32; ts31] ts31 < 167 # 2)%Q
  /\ (scoreTrainWith doubleScore [ts32; ts31] ts31).(Scored.score) = 83.
Proof.
  repeat (split; [vm_compute; reflexivity|]). vm_compute. reflexivity.
Qed.

Lemma score_is_sum_of_contributions_witness :
  hardEligible t0 ts31 = true
  /\ rawScoreIn doubleArith [ts32; ts31] ts31
     = sumIn doubleArith (contributionsIn doubleArith [ts32; ts31] ts31)
  /\ (rawScoreIn exactArith [ts32; ts31] ts31
      == weightedSum (meanMileage [ts32; ts31]) t0 ts31)%Q
  /\ (weightedSum (meanMileage [ts32; ts31]) t0 ts31 == 167 # 2)%Q.
Proof.
  split; [reflexivity|].
  split; [apply (proj1 (score_is_sum_of_contributions doubleArith t0
                          [ts32; ts31] ts31))|].
  split; [|vm_compute; reflexivity].
  apply (proj2 (score_is_sum_of_contributions exactArith t0
                  [ts32; ts31] ts31)).
  reflexivity.
Defined.

(** C3 fails as stated: two trains of equal score are ranked in the order
    of the input, so the same fleet in another order gives another
    ranking, and TS-02 can come before TS-01. *)
Lemma equal_scores_keep_input_order :
  Permutation [ts01; ts02] [ts02; ts01]
  /\ map Scored.score (scoredTrains [ts01; ts02]) = [85; 85]
  /\ String.ltb ts01.(Train.trainsetId) ts02.(Train.trainsetId) = true
  /\ map Ranked.train (rankTrains [ts01; ts02])
     = [ts01.(Train._id); ts02.(Train._id)]
  /\ map Ranked.train (rankTrains [ts02; ts01])
     = [ts02.(Train._id); ts01.(Train._id)]
  /\ (fallbackOptimization clock0 [ts01; ts02] (Js.JObj [])).(Result.rankedTrains)
     <> (fallbackOptimization clock0 [ts02; ts01] (Js.JObj [])).(Result.rankedTrains).
Proof.
  split; [apply perm_swap|].
  repeat (split; [vm_compute; reflexivity|]).
  vm_compute. discriminate.
Qed.

(** C4, where the code departs from it: after a first plan for a date, a
    request without [forceRegenerate] gets the conflict with the first
    plan's id and nothing is stored; a request with [forceRegenerate] gets
    past the check, and the unique index on [planDate] rejects the save:
    the answer is an internal error, and the store and the history are
    what they were. *)
Example force_regenerate_hits_unique_index :
  let again := generate (envWith refused [ts01; ts02]) (requestFor t0 false)
                 storeAfterFirst in
  let forced := generate (envWith refused [ts01; ts02]) (requestFor t0 true)
                  storeAfterFirst in
  map (fun p => (p.(Plan._id), p.(Plan.planDate), p.(Plan.status)))
    storeAfterFirst
  = [("6600000000000000000000b1"%string, t0, "FINALIZED"%string)]
  /\ again = (Conflict "PLAN_EXISTS" "6600000000000000000000b1",
              storeAfterFirst)
  /\ forced = (ServerError "E11000 duplicate key error", storeAfterFirst)
  /\ getHistory (snd forced) 10 = storeAfterFirst.
Proof. vm_compute. repeat split. Qed.

(** C5 fails as stated: a timeout is not answered by the local optimizer
    but by an internal error, with nothing stored; a body that is not an
    optimizer output is taken as an empty result; and after a refused
    connection the algorithm is not named
    ["Rule-Based Weighted Scoring"]. *)
Lemma only_refusal_falls_back :
  generate (envWith timedOut [ts01; ts02]) (requestFor t0 false) []
  = (ServerError "AI optimization failed: timeout of 60000ms exceeded", [])
  /\ (exists plan,
        generate (envWith malformedBody [ts01; ts02]) (requestFor t0 false) []
        = (Created plan, [plan])
        /\ plan.(Plan.rankedTrains) = []
        /\ rankTrains (formatTrainsForAI [ts01; ts02]) <> []
        /\ plan.(Plan.aiModelInfo).(ModelInfo.algorithm)
           = Some "Multi-Objective Optimization"%string)
  /\ (exists plan,
        generate (envWith refused [ts01; ts02]) (requestFor t0 false) []
        = (Created plan, [plan])
        /\ plan.(Plan.aiModelInfo).(ModelInfo.algorithm)
           <> Some "Rule-Based Weighted Scoring"%string).
Proof.
  split; [vm_compute; reflexivity|]. split.
  - eexists. split; [vm_compute; reflexivity|].
    repeat split; vm_compute; discriminate.
  - eexists. split; [vm_compute; reflexivity|].
    vm_compute. discriminate.
Qed.

Lemma refused_connection_falls_back_witness :
  existsb serviceReady (formatTrainsForAI [ts01; ts02]) = true
  /\ exists plan,
      generate (envWith refused [ts01; ts02]) (requestFor t0 false) []
      = (Created plan, [plan])
      /\ plan.(Plan.aiModelInfo).(ModelInfo.algorithm)
         = Some "Rule-Based Weighted Scoring (Fallback)"%string
      /\ plan.(Plan.rankedTrains)
         = rankTrains (formatTrainsForAI [ts01; ts02]).
Proof.
  split; [reflexivity|].
  destruct (refused_connection_falls_back
              (envWith refused [ts01; ts02]) (requestFor t0 false) []
              "connect ECONNREFUSED 127.0.0.1:5000"
              eq_refl eq_refl eq_refl)
    as [[_ (plan & Hgen & _ & Halg & Hrank & _)] _].
  exists plan. repeat split; assumption.
Defined.

Lemma empty_pool_average_is_NaN_witness :
  let r := fallbackOptimization clock0 [ts07] (Js.JObj []) in
  filter serviceReady [ts07] = []
  /\ r.(Result.rankedTrains) = []
  /\ option_map Metrics.totalTrainsEvaluated r.(Result.metrics) = Some 1
  /\ option_map Metrics.constraintsSatisfied r.(Result.metrics) = Some 0
  /\ option_map Metrics.averageConfidence r.(Result.metrics) = Some Js.NaN.
Proof.
  split; [reflexivity|].
  apply (empty_pool_average_is_NaN clock0 [ts07] (Js.JObj [])). reflexivity.
Defined.

Lemma fitness_alert_rules_witness :
  In ts04 [ts04; ts05; ts06]
  /\ fitnessAlerts t0 ts04
     = [ {| Alert.type := "CRITICAL";
            Alert.message := "TS-04 fitness certificate expires in 2 days";
            Alert.trainId := "TS-04";
            Alert.severity := 5 |} ]
  /\ incl (fitnessAlerts t0 ts04) (generateAlerts t0 [ts04; ts05; ts06])
  /\ StronglySorted (fun a b => b.(Alert.severity) <= a.(Alert.severity))
       (generateAlerts t0 [ts04; ts05; ts06]).
Proof.
  split; [now left|].
  destruct (fitness_alert_rules t0 [ts04; ts05; ts06] ts04
              {| Fitness.isValid := Some true;
                 Fitness.expiryDate := Some (t0 + 2 * msPerDay) |}
              (t0 + 2 * msPerDay) (or_introl eq_refl) eq_refl eq_refl)
    as (_ & _ & _ & Hincl & _ & Hsorted).
  split; [reflexivity|]. split; assumption.
Defined.

Lemma confidence_is_clamped_round_witness :
  map (fun e => (e.(Ranked.train), e.(Ranked.confidenceScore)))
    (rankTrainsWith doubleScore [ts32; ts31])
  = [("65f000000000000000000032"%string, 83);
     ("65f000000000000000000031"%string, 83)]
  /\ map (fun e => (e.(Ranked.train), e.(Ranked.confidenceScore)))
       (rankTrainsWith rawScore [ts32; ts31])
     = [("65f000000000000000000031"%string, 84);
        ("65f000000000000000000032"%string, 83)]
  /\ exists e train n,
       In e (rankTrainsWith doubleScore [ts32; ts31])
       /\ In train [ts32; ts31]
       /\ e.(Ranked.train) = train.(Train._id)
       /\ (inject_Z n - (1 # 2) <= doubleScore [ts32; ts31] train
           /\ doubleScore [ts32; ts31] train < inject_Z n + (1 # 2))%Q
       /\ e.(Ranked.confidenceScore) = clamp n 60 100
       /\ 60 <= e.(Ranked.confidenceScore) <= 100.
Proof.
  split; [vm_compute; reflexivity|]. split; [vm_compute; reflexivity|].
  exists (rankEntry (scoreTrainWith doubleScore [ts32; ts31] ts31) 1).
  assert (Hin : In (rankEntry (scoreTrainWith doubleScore [ts32; ts31] ts31) 1)
                  (rankTrainsWith doubleScore [ts32; ts31]))
    by (vm_compute; right; left; reflexivity).
  destruct (confidence_is_clamped_round doubleScore [ts32; ts31] _ Hin)
    as (train & n & Htrain & _ & Hid & Hnear & Hconf & Hband & _).
  exists train, n.
  exact (conj Hin (conj Htrain (conj Hid (conj Hnear (conj Hconf Hband))))).
Defined.

(** C9, where the code departs from it: the modification is applied to
    the train named by its trainset code and moves it to rank 1, but the
    rank is looked up by opaque id only, so [newRank] is undefined; named
    by its id, the same train gets [newRank = 1]. *)
Example simulation_by_code_loses_rank :
  let byCode := fallbackSimulation clock0 [ts01; ts02] "TS-02" brandedFive
                  (Js.JObj []) in
  let byId := fallbackSimulation clock0 [ts01; ts02]
                "65f000000000000000000002" brandedFive (Js.JObj []) in
  map (fun e => (e.(Ranked.train), e.(Ranked.rank)))
    byCode.(Simulation.result).(Result.rankedTrains)
  = [("65f000000000000000000002"%string, 1);
     ("65f000000000000000000001"%string, 2)]
  /\ byCode.(Simulation.impactAnalysis).(Impact.newRank) = None
  /\ byCode.(Simulation.impactAnalysis).(Impact.rankChange)
     = "Not in top rankings"%string
  /\ byId.(Simulation.result).(Result.rankedTrains)
     = byCode.(Simulation.result).(Result.rankedTrains)
  /\ byId.(Simulation.impactAnalysis).(Impact.newRank) = Some 1.
Proof. vm_compute. repeat split. Qed.

(** The constant constraints record on a train that is due for cleaning
    and for maintenance. *)
Example constraints_ignore_the_train :
  map Ranked.constraints
    (fallbackOptimization clock0 [ts08] (Js.JObj [])).(Result.rankedTrains)
  = [constantConstraints].
Proof. reflexivity. Qed.

End Fleet.

(** * Further properties of the code *)

(** ** The optimizer beyond the ranking order *)

Lemma mapFrom_In_of {A B : Type} (f : A -> Z -> B) (l : list A) (x : A) :
  In x l ->
  forall i : Z,
    exists k, i <= k < i + Z.of_nat (List.length l)
              /\ In (f x k) (Js.mapFrom f i l).
Proof.
  induction l as [|y l IH]; intros Hx i; [contradiction|].
  destruct Hx as [->|Hx].
  - exists i. split; [cbn [List.length]; lia | now left].
  - destruct (IH Hx (i + 1)) as (k & Hk & Hin).
    exists k. split; [cbn [List.length]; lia | now right].
Qed.

Lemma mapFrom_In_bound {A B : Type} (f : A -> Z -> B) (l : list A) :
  forall (i : Z) (y : B),
    In y (Js.mapFrom f i l) ->
    exists x k, In x l /\ i <= k < i + Z.of_nat (List.length l) /\ y = f x k.
Proof.
  induction l as [|x l IH]; intros i y Hy; simpl in Hy; [contradiction|].
  destruct Hy as [<-|Hy].
  - exists x, i. repeat split; [now left | lia | cbn [List.length]; lia].
  - destruct (IH _ _ Hy) as (x' & k & Hx' & Hk & ->).
    exists x', k. repeat split; [now right | lia | cbn [List.length]; lia].
Qed.

Lemma NoDup_map_injective {A B : Type} (f : A -> B) (l : list A) :
  NoDup (map f l) ->
  forall x y, In x l -> In y l -> f x = f y -> x = y.
Proof.
  induction l as [|a l IH]; intros Hnd x y Hx Hy Hxy; [contradiction|].
  cbn in Hnd. apply NoDup_cons_iff in Hnd. destruct Hnd as [Hnotin Hnd].
  destruct Hx as [->|Hx], Hy as [->|Hy].
  - reflexivity.
  - exfalso. apply Hnotin. rewrite Hxy. now apply in_map.
  - exfalso. apply Hnotin. rewrite <- Hxy. now apply in_map.
  - now apply IH.
Qed.

Section OptimizerMore.

Context {host : Js.Host}.

(** X1: every input train that passes the filter of the optimizer is ranked:
    the ranking has an entry with its id, and the rank of that entry lies
    between 1 and the length of the ranking. *)
Theorem every_ready_train_is_ranked (clock : Clock.t) (trains : list Train.t)
    (constraints : Js.json) (train : Train.t) :
  In train trains ->
  serviceReady train = true ->
  let ranked :=
    (fallbackOptimization clock trains constraints).(Result.rankedTrains) in
  exists e,
    In e ranked
    /\ e.(Ranked.train) = train.(Train._id)
    /\ e.(Ranked.confidenceScore)
       = confidenceOf (Js.mathRound (rawScore trains train))
    /\ 1 <= e.(Ranked.rank) <= Z.of_nat (List.length ranked).
Proof.
  intros Hin Hready. cbv zeta. cbn [fallbackOptimization Result.rankedTrains].
  assert (Hscored : In (scoreTrain trains train) (scoredTrains trains)).
  { unfold scoredTrains. apply in_map. apply filter_In. auto. }
  apply (Permutation_in _ (Permutation_sym (sort_perm byScoreDesc _)))
    in Hscored.
  destruct (mapFrom_In_of rankEntry _ _ Hscored 0) as (k & Hk & He).
  exists (rankEntry (scoreTrain trains train) k).
  split; [exact He|]. split; [reflexivity|]. split; [reflexivity|].
  cbn [rankEntry Ranked.rank].
  unfold rankTrains, Js.mapi. rewrite mapFrom_length. lia.
Qed.

Lemma confidence_sum_bounds (l : list Ranked.t) :
  Forall (fun e => 60 <= e.(Ranked.confidenceScore) <= 100) l ->
  forall a : Q,
    (a + inject_Z (60 * Z.of_nat (List.length l))
     <= fold_left (fun sum t => sum + inject_Z t.(Ranked.confidenceScore)) l a
     <= a + inject_Z (100 * Z.of_nat (List.length l)))%Q.
Proof.
  induction 1 as [|e l He Hl IH]; intros a.
  - cbn. split; rewrite Qplus_0_r; apply Qle_refl.
  - cbn [fold_left List.length].
    destruct (IH (a + inject_Z e.(Ranked.confidenceScore))%Q) as [Hlo Hhi].
    assert (H60 : (inject_Z 60 <= inject_Z e.(Ranked.confidenceScore))%Q)
      by (rewrite <- Zle_Qle; lia).
    assert (H100 : (inject_Z e.(Ranked.confidenceScore) <= inject_Z 100)%Q)
      by (rewrite <- Zle_Qle; lia).
    replace (60 * Z.of_nat (S (List.length l)))
      with (60 + 60 * Z.of_nat (List.length l)) by lia.
    replace (100 * Z.of_nat (S (List.length l)))
      with (100 + 100 * Z.of_nat (List.length l)) by lia.
    rewrite !inject_Z_plus. split.
    + eapply Qle_trans; [|exact Hlo].
      rewrite Qplus_assoc. apply Qplus_le_compat; [|apply Qle_refl].
      apply Qplus_le_compat; [apply Qle_refl | exact H60].
    + eapply Qle_trans; [exact Hhi|].
      rewrite Qplus_assoc. apply Qplus_le_compat; [|apply Qle_refl].
      apply Qplus_le_compat; [apply Qle_refl | exact H100].
Qed.

Lemma rankTrains_band (trains : list Train.t) :
  Forall (fun e => 60 <= e.(Ranked.confidenceScore) <= 100) (rankTrains trains).
Proof.
  apply Forall_forall. intros e He.
  destruct (rankTrains_In _ _ He) as (train & k & _ & _ & _ & ->).
  cbn. unfold confidenceOf. lia.
Qed.

(** X2: as soon as one train passes the filter, the metrics are those of
    the ranking: [constraintsSatisfied] counts the trains that pass the
    filter and is between 1 and [totalTrainsEvaluated], and
    [averageConfidence] is a number between 60 and 100. *)
Theorem metrics_of_nonempty_ranking (clock : Clock.t) (trains : list Train.t)
    (constraints : Js.json) :
  existsb serviceReady trains = true ->
  exists m q,
    (fallbackOptimization clock trains constraints).(Result.metrics) = Some m
    /\ m.(Metrics.totalTrainsEvaluated) = Z.of_nat (List.length trains)
    /\ m.(Metrics.constraintsSatisfied)
       = Z.of_nat (List.length (filter serviceReady trains))
    /\ 1 <= m.(Metrics.constraintsSatisfied) <= m.(Metrics.totalTrainsEvaluated)
    /\ m.(Metrics.averageConfidence) = Js.Num q
    /\ (60 <= q <= 100)%Q.
Proof.
  intros Hsome.
  assert (Hpos : (0 < List.length (filter serviceReady trains))%nat).
  { apply existsb_exists in Hsome. destruct Hsome as (t & Hin & Hready).
    assert (Hf : In t (filter serviceReady trains)) by (apply filter_In; auto).
    destruct (filter serviceReady trains); [contradiction | cbn; lia]. }
  pose proof (filter_length_le serviceReady trains) as Hle.
  cbn [fallbackOptimization Result.metrics].
  eexists. eexists. split; [reflexivity|].
  cbn [Metrics.totalTrainsEvaluated Metrics.constraintsSatisfied
       Metrics.averageConfidence].
  rewrite rankTrains_length.
  split; [reflexivity|]. split; [reflexivity|]. split; [lia|].
  split.
  - rewrite divide_by_length by lia. reflexivity.
  - destruct (confidence_sum_bounds _ (rankTrains_band trains) 0%Q)
      as [Hlo Hhi].
    rewrite Qplus_0_l in Hlo, Hhi. rewrite rankTrains_length in Hlo, Hhi.
    set (n := List.length (filter serviceReady trains)) in *.
    set (sum := fold_left _ (rankTrains trains) 0%Q) in *.
    assert (Hn : (0 < inject_Z (Z.of_nat n))%Q)
      by (rewrite <- (Zlt_Qlt 0); lia).
    rewrite inject_Z_mult in Hlo, Hhi.
    split.
    + apply Qle_shift_div_l; [exact Hn | exact Hlo].
    + apply Qle_shift_div_r; [exact Hn | exact Hhi].
Qed.

End OptimizerMore.

(** ** Formatting the trains for the optimizer *)

Section Formatting.

Context {host : Js.Host}.

Lemma formatTrain_mileage (train : Train.t) :
  Js.orNum (formatTrain train).(Train.currentMileage) 0
  = Js.orNum train.(Train.currentMileage) 0.
Proof. destruct train as [? ? ? ? ? [m|] ? ? ? ? ?]; reflexivity. Qed.

Lemma formatTrain_serviceReady (train : Train.t) :
  serviceReady (formatTrain train) = serviceReady train.
Proof.
  destruct train as [? ? [f|] [st|] ? ? [[|]|] ? ? ? ?]; reflexivity.
Qed.

Lemma formatTrain_alerts (now : Z) (train : Train.t) :
  trainAlerts now (formatTrain train) = trainAlerts now train.
Proof.
  destruct train as [? ? [f|] ? [[|]|] ? [[|]|] ? ? ? ?]; reflexivity.
Qed.

Lemma formatTrains_avgMileage (trains : list Train.t) :
  avgMileage (formatTrainsForAI trains) = avgMileage trains.
Proof.
  assert (Hsum : forall (l : list Train.t) (a : Q),
    fold_left (fun sum t => (sum + Js.orNum t.(Train.currentMileage) 0)%Q)
      (map formatTrain l) a
    = fold_left (fun sum t => (sum + Js.orNum t.(Train.currentMileage) 0)%Q)
        l a).
  { induction l as [|t l IH]; intros a; [reflexivity|].
    cbn [map fold_left]. rewrite formatTrain_mileage. apply IH. }
  unfold avgMileage, formatTrainsForAI. rewrite length_map, Hsum.
  reflexivity.
Qed.

Lemma formatTrain_rawScore (trains : list Train.t) (train : Train.t) :
  rawScore (formatTrainsForAI trains) (formatTrain train)
  = rawScore trains train.
Proof.
  unfold rawScore. rewrite formatTrains_avgMileage, formatTrain_mileage.
  generalize (avgMileage trains). intros avg.
  destruct train as [? ? [f|] [st|] [[|]|] m ? [cs|] [b|] [p|] [r|]];
    reflexivity.
Qed.

Lemma formatTrain_reasoning (train : Train.t) (score : Q) :
  generateReasoning (formatTrain train) score = generateReasoning train score.
Proof.
  destruct train as [? ? [f|] [st|] ? [m|] ? ? [b|] [p|] ?]; reflexivity.
Qed.

Lemma formatTrains_scored (trains : list Train.t) :
  scoredTrains (formatTrainsForAI trains) = scoredTrains trains.
Proof.
  unfold scoredTrains.
  assert (Hfilter : forall l,
    map (scoreTrain (formatTrainsForAI trains))
      (filter serviceReady (map formatTrain l))
    = map (scoreTrain trains) (filter serviceReady l)).
  { induction l as [|t l IH]; [reflexivity|].
    cbn [map filter]. rewrite formatTrain_serviceReady.
    destruct (serviceReady t); [|exact IH].
    cbn [map]. rewrite IH. f_equal.
    unfold scoreTrain. rewrite formatTrain_rawScore, formatTrain_reasoning.
    destruct t; reflexivity. }
  apply Hfilter.
Qed.

(** X3: formatting the documents for the optimizer service changes nothing
    for the local optimizer: the result on the formatted trains is the
    result on the documents themselves, and formatting twice is formatting
    once. *)
Theorem formatting_is_transparent (clock : Clock.t) (trains : list Train.t)
    (constraints : Js.json) :
  fallbackOptimization clock (formatTrainsForAI trains) constraints
  = fallbackOptimization clock trains constraints
  /\ formatTrainsForAI (formatTrainsForAI trains) = formatTrainsForAI trains.
Proof.
  split.
  - unfold fallbackOptimization, rankTrains, generateAlerts.
    rewrite formatTrains_scored.
    assert (Halerts : flat_map (trainAlerts (Clock.now clock))
                        (formatTrainsForAI trains)
                      = flat_map (trainAlerts (Clock.now clock)) trains).
    { unfold formatTrainsForAI.
      induction trains as [|t l IH]; [reflexivity|].
      cbn [map flat_map]. now rewrite formatTrain_alerts, IH. }
    rewrite Halerts. unfold formatTrainsForAI. rewrite length_map.
    reflexivity.
  - unfold formatTrainsForAI. rewrite map_map. apply map_ext.
    intros [? ? [f|] [st|] [md|] [m|] [av|] [cs|] [b|] [p|] [r|]];
      reflexivity.
Qed.

End Formatting.

(** ** Bounds on the score, and the trains that are left out *)

Section ScoreBounds.

Context {host : Js.Host}.



(** X5: a train with [isAvailableForService === false] is reported and left
    out: the result carries its INFO alert of severity 2, and, the ids being
    distinct, no ranked entry carries its id. *)
Theorem unavailable_train_is_reported_not_ranked (clock : Clock.t)
    (trains : list Train.t) (constraints : Js.json) (train : Train.t) :
  NoDup (map Train._id trains) ->
  In train trains ->
  train.(Train.isAvailableForService) = Some false ->
  let r := fallbackOptimization clock trains constraints in
  In {| Alert.type := "INFO";
        Alert.message :=
          String.append train.(Train.trainsetId) " is not available for service";
        Alert.trainId := train.(Train.trainsetId);
        Alert.severity := 2 |} r.(Result.alerts)
  /\ forall e, In e r.(Result.rankedTrains) ->
               e.(Ranked.train) <> train.(Train._id).
Proof.
  intros Hnd Hin Hav. cbv zeta. cbn [fallbackOptimization Result.alerts
                                     Result.rankedTrains].
  split.
  - apply (Permutation_in _ (Permutation_sym (generateAlerts_perm _ _))).
    apply in_flat_map. exists train. split; [exact Hin|].
    unfold trainAlerts. apply in_or_app. right. apply in_or_app. right.
    unfold availabilityAlerts. rewrite Hav. now left.
  - intros e He Hid.
    destruct (rankTrains_In _ _ He) as (t' & k & Hin' & Hready' & _ & ->).
    cbn in Hid.
    assert (t' = train)
      by (apply (NoDup_map_injective Train._id trains); assumption).
    subst t'. unfold serviceReady in Hready'. rewrite Hav in Hready'.
    rewrite andb_false_r in Hready'. discriminate.
Qed.

(** X6: whatever the train model's [isServiceReady] accepts at an instant
    is hard-eligible in the words of the specification and passes the
    filter of the optimizer, so it is ranked. *)
Theorem model_ready_trains_are_ranked (now : Z) (clock : Clock.t)
    (trains : list Train.t) (constraints : Js.json) (train : Train.t) :
  In train trains ->
  isServiceReady now train = true ->
  hardEligible now train = true
  /\ serviceReady train = true
  /\ exists e,
      In e (fallbackOptimization clock trains constraints).(Result.rankedTrains)
      /\ e.(Ranked.train) = train.(Train._id).
Proof.
  intros Hin Hmodel.
  assert (Helig : hardEligible now train = true).
  { unfold isServiceReady in Hmodel. unfold hardEligible, fitnessValid.
    destruct (Train.fitnessStatus train) as [f|]; [|discriminate].
    destruct (Js.truthy (Fitness.isValid f)); [|discriminate].
    destruct (Js.strictEq (Train.maintenanceStatus train) "OPERATIONAL");
      [|discriminate].
    destruct (Js.truthy (Train.isAvailableForService train));
      [|discriminate].
    destruct (Fitness.expiryDate f) as [d|]; [|discriminate].
    cbn [andb] in *. rewrite Hmodel. reflexivity. }
  destruct (hardEligible_serviceReady _ _ Helig) as [Hready _].
  split; [exact Helig|]. split; [exact Hready|].
  destruct (every_ready_train_is_ranked clock trains constraints train
              Hin Hready) as (e & He & Hid & _).
  exists e. auto.
Qed.

End ScoreBounds.

(** ** The shape and the order of the alerts *)

Lemma trainAlerts_shape (now : Z) (train : Train.t) (a : Alert.t) :
  In a (trainAlerts now train) ->
  a.(Alert.trainId) = train.(Train.trainsetId)
  /\ ((a.(Alert.severity) = 5 /\ a.(Alert.type) = "CRITICAL"%string)
      \/ (a.(Alert.severity) = 4 /\ a.(Alert.type) = "WARNING"%string)
      \/ (a.(Alert.severity) = 3 /\ a.(Alert.type) = "WARNING"%string)
      \/ (a.(Alert.severity) = 2 /\ a.(Alert.type) = "INFO"%string)).
Proof.
  unfold trainAlerts. intros Ha.
  apply in_app_or in Ha. destruct Ha as [Ha|Ha];
    [|apply in_app_or in Ha; destruct Ha as [Ha|Ha]].
  - unfold fitnessAlerts in Ha.
    destruct (Train.fitnessStatus train) as [[valid [d|]]|];
      try contradiction.
    cbv zeta in Ha.
    repeat match type of Ha with
           | In _ (if ?c then _ else _) => destruct c
           end;
      cbn [In] in Ha; try contradiction;
      (destruct Ha as [<-|Ha]; [|contradiction]); cbn; tauto.
  - unfold maintenanceAlerts in Ha.
    destruct (Js.truthy (Train.maintenanceDue train)); [|contradiction].
    destruct Ha as [<-|[]]. cbn. tauto.
  - unfold availabilityAlerts in Ha.
    destruct (Train.isAvailableForService train) as [[|]|];
      try contradiction.
    destruct Ha as [<-|[]]. cbn. tauto.
Qed.

Lemma trainAlerts_length (now : Z) (train : Train.t) :
  (List.length (trainAlerts now train) <= 3)%nat.
Proof.
  unfold trainAlerts. rewrite !length_app.
  assert (List.length (fitnessAlerts now train) <= 1)%nat.
  { unfold fitnessAlerts.
    destruct (Train.fitnessStatus train) as [[valid [d|]]|]; cbn; try lia.
    repeat match goal with
           | |- context [if ?c then _ else _] => destruct c
           end; cbn; lia. }
  assert (List.length (maintenanceAlerts train) <= 1)%nat
    by (unfold maintenanceAlerts;
        destruct (Js.truthy (Train.maintenanceDue train)); cbn; lia).
  assert (List.length (availabilityAlerts train) <= 1)%nat
    by (unfold availabilityAlerts;
        destruct (Train.isAvailableForService train) as [[|]|]; cbn; lia).
  lia.
Qed.

(** X7: every alert of the alert generator names the trainset code of an
    input train and has one of four shapes: severity 5 and CRITICAL,
    severity 4 or 3 and WARNING, severity 2 and INFO; a fleet of [n] trains
    gets at most [3 n] alerts. *)
Theorem alerts_shape_and_count (now : Z) (trains : list Train.t) :
  Forall
    (fun a =>
       (exists train,
           In train trains /\ a.(Alert.trainId) = train.(Train.trainsetId))
       /\ ((a.(Alert.severity) = 5 /\ a.(Alert.type) = "CRITICAL"%string)
           \/ (a.(Alert.severity) = 4 /\ a.(Alert.type) = "WARNING"%string)
           \/ (a.(Alert.severity) = 3 /\ a.(Alert.type) = "WARNING"%string)
           \/ (a.(Alert.severity) = 2 /\ a.(Alert.type) = "INFO"%string)))
    (generateAlerts now trains)
  /\ (List.length (generateAlerts now trains) <= 3 * List.length trains)%nat.
Proof.
  split.
  - apply Forall_forall. intros a Ha.
    apply (Permutation_in a (generateAlerts_perm now trains)) in Ha.
    apply in_flat_map in Ha. destruct Ha as (train & Hin & Ha).
    destruct (trainAlerts_shape _ _ _ Ha) as [Hid Hshape].
    split; [exists train; auto | exact Hshape].
  - rewrite (Permutation_length (generateAlerts_perm now trains)).
    induction trains as [|t l IH]; [cbn; lia|].
    cbn [flat_map List.length]. rewrite length_app.
    pose proof (trainAlerts_length now t). lia.
Qed.

Lemma sorted_top_first {A : Type} (key : A -> Z) (top : Z) (l : list A) :
  StronglySorted (fun a b => key b <= key a) l ->
  Forall (fun a => key a <= top) l ->
  l = filter (fun a => key a =? top) l
      ++ filter (fun a => negb (key a =? top)) l.
Proof.
  induction 1 as [|x l Hl IH Hx]; intros Htop; [reflexivity|].
  apply Forall_cons_iff in Htop. destruct Htop as [Hxtop Htop].
  cbn [filter]. destruct (Z.eqb_spec (key x) top) as [Heq|Hne]; cbn [negb].
  - cbn [app]. f_equal. apply IH, Htop.
  - assert (Hnone : filter (fun a => key a =? top) l = []).
    { clear IH Hl Htop.
      induction Hx as [|y l Hy Hx IHl]; [reflexivity|].
      cbn [filter]. destruct (Z.eqb_spec (key y) top); [lia | exact IHl]. }
    rewrite Hnone. cbn [app]. f_equal.
    rewrite (IH Htop) at 1. rewrite Hnone. reflexivity.
Qed.

(** X8: the critical alerts come first: the alerts of a plan made from the
    alert generator are [getCriticalAlerts] followed by the others, the
    critical alerts are in the order of the trains, and the summary counts
    them; within every severity the alerts keep the order of the trains. *)
Theorem critical_alerts_come_first (now : Z) (trains : list Train.t)
    (plan : Plan.t) :
  plan.(Plan.alerts) = generateAlerts now trains ->
  plan.(Plan.alerts)
  = getCriticalAlerts plan
    ++ filter (fun a => negb (String.eqb a.(Alert.type) "CRITICAL"))
         plan.(Plan.alerts)
  /\ getCriticalAlerts plan
     = filter (fun a => String.eqb a.(Alert.type) "CRITICAL")
         (flat_map (trainAlerts now) trains)
  /\ (summary plan).(Summary.criticalAlerts)
     = Z.of_nat (List.length (getCriticalAlerts plan))
  /\ forall v : Z,
      filter (fun a => a.(Alert.severity) =? v) plan.(Plan.alerts)
      = filter (fun a => a.(Alert.severity) =? v)
          (flat_map (trainAlerts now) trains).
Proof.
  intros Halerts. unfold getCriticalAlerts, summary.
  cbn [Summary.criticalAlerts]. rewrite Halerts.
  assert (Hcrit : forall l : list Alert.t,
    (forall a, In a l -> exists train, In a (trainAlerts now train)) ->
    forall a, In a l ->
      String.eqb a.(Alert.type) "CRITICAL" = (a.(Alert.severity) =? 5)).
  { intros l Hl a Ha. destruct (Hl a Ha) as (train & Htrain).
    destruct (trainAlerts_shape _ _ _ Htrain)
      as [_ [[-> ->]|[[-> ->]|[[-> ->]|[-> ->]]]]]; reflexivity. }
  assert (Hflat : forall a, In a (flat_map (trainAlerts now) trains) ->
                            exists train, In a (trainAlerts now train)).
  { intros a Ha. apply in_flat_map in Ha. destruct Ha as (t & _ & Ha).
    exists t. exact Ha. }
  assert (Hgen : forall a, In a (generateAlerts now trains) ->
                           exists train, In a (trainAlerts now train)).
  { intros a Ha. apply Hflat.
    exact (Permutation_in a (generateAlerts_perm now trains) Ha). }
  split; [|split; [|split]].
  - rewrite (filter_ext_in _ (fun a => a.(Alert.severity) =? 5) _
               (Hcrit _ Hgen)).
    rewrite (filter_ext_in
               (fun a => negb (String.eqb a.(Alert.type) "CRITICAL"))
               (fun a => negb (a.(Alert.severity) =? 5)) _
               (fun a Ha => f_equal negb (Hcrit _ Hgen a Ha))).
    apply (sorted_top_first Alert.severity 5).
    + apply generateAlerts_sorted.
    + apply Forall_forall. intros a Ha. destruct (Hgen a Ha) as (t & Ht).
      destruct (trainAlerts_shape _ _ _ Ht) as [_ H]. intuition lia.
  - rewrite (filter_ext_in _ (fun a => a.(Alert.severity) =? 5) _
               (Hcrit _ Hgen)).
    rewrite (filter_ext_in _ (fun a => a.(Alert.severity) =? 5) _
               (Hcrit _ Hflat)).
    apply (sort_stable Alert.severity).
  - reflexivity.
  - intros v. apply (sort_stable Alert.severity).
Qed.

(** ** The simulation *)

Lemma find_none_of {A : Type} (f : A -> bool) (l : list A) :
  (forall x, In x l -> f x = false) -> List.find f l = None.
Proof.
  intros Hall. destruct (List.find f l) as [x|] eqn:E; [|reflexivity].
  apply find_some in E. destruct E as [Hin Hfx].
  rewrite (Hall x Hin) in Hfx. discriminate.
Qed.

Section SimulationMore.

Context {host : Js.Host}.

(** X9: [newRank] is undefined exactly when no train of the modified fleet
    that passes the filter has the requested string as its id; when it is
    defined it is the rank, between 1 and [affectedTrains], of a ranked
    entry with that id. *)
Theorem newRank_defined_iff (clock : Clock.t) (trains : list Train.t)
    (trainId : string) (modifications : Modifications.t)
    (constraints : Js.json) :
  let sim :=
    fallbackSimulation clock trains trainId modifications constraints in
  let modifiedTrains :=
    map (fun train =>
           if isTarget trainId train then spread train modifications
           else train) trains in
  (sim.(Simulation.impactAnalysis).(Impact.newRank) = None
   <-> forall train,
       In train modifiedTrains -> serviceReady train = true ->
       train.(Train._id) <> trainId)
  /\ (forall r,
         sim.(Simulation.impactAnalysis).(Impact.newRank) = Some r ->
         1 <= r <= sim.(Simulation.impactAnalysis).(Impact.affectedTrains)
         /\ exists e,
             In e sim.(Simulation.result).(Result.rankedTrains)
             /\ e.(Ranked.rank) = r /\ e.(Ranked.train) = trainId)
  /\ sim.(Simulation.impactAnalysis).(Impact.affectedTrains)
     = Z.of_nat (List.length (filter serviceReady modifiedTrains)).
Proof.
  cbv zeta.
  cbn [fallbackSimulation Simulation.impactAnalysis Simulation.result
       Impact.newRank Impact.affectedTrains fallbackOptimization
       Result.rankedTrains].
  set (modified := map _ trains).
  unfold Js.find.
  split; [|split].
  - split.
    + intros Hnone train Hin Hready Hid.
      destruct (List.find (isTargetEntry trainId) (rankTrains modified))
        as [e|] eqn:E; [discriminate|].
      destruct (every_ready_train_is_ranked clock modified constraints train
                  Hin Hready) as (e & He & Heid & _).
      cbn [fallbackOptimization Result.rankedTrains] in He.
      pose proof (find_none _ _ E e He) as Hfalse.
      unfold isTargetEntry in Hfalse. rewrite Heid, Hid in Hfalse.
      rewrite String.eqb_refl in Hfalse. discriminate.
    + intros Hall. rewrite find_none_of; [reflexivity|].
      intros e He.
      destruct (rankTrains_In _ _ He) as (t & k & Hin & Hready & _ & ->).
      unfold isTargetEntry. cbn [rankEntry scoreTrain Ranked.train Scored.train].
      pose proof (Hall t Hin Hready) as Hne.
      apply String.eqb_neq in Hne. rewrite Hne. reflexivity.
  - intros r Hr.
    destruct (List.find (isTargetEntry trainId) (rankTrains modified))
      as [e|] eqn:E; [|discriminate].
    cbn in Hr. injection Hr as <-.
    apply find_some in E. destruct E as [He Htarget].
    split.
    + unfold rankTrains, Js.mapi in He |- *.
      destruct (mapFrom_In_bound _ _ _ _ He) as (x & k & _ & Hk & ->).
      rewrite mapFrom_length. cbn [rankEntry Ranked.rank]. lia.
    + exists e. split; [exact He|]. split; [reflexivity|].
      unfold isTargetEntry in Htarget. rewrite orb_diag in Htarget.
      now apply String.eqb_eq.
  - now rewrite rankTrains_length.
Qed.

(** X10: when no train has the requested string as its code or as its id,
    the simulation is the plain optimization of the fleet, and [newRank] is
    undefined. *)
Theorem simulation_without_target (clock : Clock.t) (trains : list Train.t)
    (trainId : string) (modifications : Modifications.t)
    (constraints : Js.json) :
  (forall train, In train trains -> isTarget trainId train = false) ->
  let sim :=
    fallbackSimulation clock trains trainId modifications constraints in
  sim.(Simulation.result) = fallbackOptimization clock trains constraints
  /\ sim.(Simulation.impactAnalysis).(Impact.newRank) = None
  /\ sim.(Simulation.impactAnalysis).(Impact.rankChange)
     = "Not in top rankings"%string.
Proof.
  intros Hnone. cbv zeta.
  assert (Hsame :
    map (fun train =>
           if isTarget trainId train then spread train modifications
           else train) trains = trains).
  { rewrite <- (map_id trains) at 2. apply map_ext_in.
    intros t Ht. now rewrite (Hnone t Ht). }
  assert (Hrank :
    (fallbackSimulation clock trains trainId modifications
       constraints).(Simulation.impactAnalysis).(Impact.newRank) = None).
  { apply (proj1 (newRank_defined_iff clock trains trainId modifications
                    constraints)).
    rewrite Hsame. intros t Ht _ Hid.
    pose proof (Hnone t Ht) as Hfalse. unfold isTarget in Hfalse.
    rewrite Hid, String.eqb_refl, orb_true_r in Hfalse. discriminate. }
  split; [|split].
  - cbn [fallbackSimulation Simulation.result]. now rewrite Hsame.
  - exact Hrank.
  - cbn [fallbackSimulation Simulation.impactAnalysis Impact.newRank
         Impact.rankChange] in Hrank |- *.
    now rewrite Hrank.
Qed.

Lemma spread_nothing (train : Train.t) (m : Modifications.t) :
  m.(Modifications._id) = None ->
  m.(Modifications.trainsetId) = None ->
  m.(Modifications.fitnessStatus) = None ->
  m.(Modifications.maintenanceStatus) = None ->
  m.(Modifications.maintenanceDue) = None ->
  m.(Modifications.currentMileage) = None ->
  m.(Modifications.isAvailableForService) = None ->
  m.(Modifications.cleaningStatus) = None ->
  m.(Modifications.branding) = None ->
  m.(Modifications.performanceScore) = None ->
  m.(Modifications.reliabilityScore) = None ->
  spread train m = train.
Proof.
  intros. unfold spread.
  repeat match goal with H : _ = None |- _ => rewrite H; clear H end.
  destruct train; reflexivity.
Qed.

Lemma isTarget_formatTrain (trainId : string) (train : Train.t) :
  isTarget trainId (formatTrain train) = isTarget trainId train.
Proof. destruct train; reflexivity. Qed.

Lemma formatTrain_idem (train : Train.t) :
  formatTrain (formatTrain train) = formatTrain train.
Proof.
  destruct train. unfold formatTrain. cbn.
  f_equal;
    repeat match goal with
           | |- context [match ?x with _ => _ end] => is_var x; destruct x
           end; reflexivity.
Qed.

Lemma formatTrain_spread (train : Train.t) (m : Modifications.t) :
  formatTrain (spread (formatTrain train) m) = formatTrain (spread train m).
Proof.
  destruct m, train. unfold formatTrain, spread, override. cbn.
  f_equal;
    repeat match goal with
           | |- context [match ?x with _ => _ end] => is_var x; destruct x
           end; reflexivity.
Qed.

(** X11: the simulation does not see the formatting either: on the
    formatted trains it gives the result and the impact analysis that it
    gives on the documents. *)
Theorem simulation_formatting_is_transparent (clock : Clock.t)
    (trains : list Train.t) (trainId : string)
    (modifications : Modifications.t) (constraints : Js.json) :
  fallbackSimulation clock (formatTrainsForAI trains) trainId modifications
    constraints
  = fallbackSimulation clock trains trainId modifications constraints.
Proof.
  unfold fallbackSimulation. cbv zeta.
  assert (Hres :
    fallbackOptimization clock
      (map (fun train =>
              if isTarget trainId train then spread train modifications
              else train) (formatTrainsForAI trains)) constraints
    = fallbackOptimization clock
        (map (fun train =>
                if isTarget trainId train then spread train modifications
                else train) trains) constraints).
  { rewrite <- (proj1 (formatting_is_transparent clock
                         (map _ (formatTrainsForAI trains)) constraints)).
    rewrite <- (proj1 (formatting_is_transparent clock
                         (map _ trains) constraints)).
    f_equal. unfold formatTrainsForAI. rewrite !map_map.
    apply map_ext. intros t. rewrite isTarget_formatTrain.
    destruct (isTarget trainId t).
    - apply formatTrain_spread.
    - apply formatTrain_idem. }
  rewrite Hres. reflexivity.
Qed.

End SimulationMore.

Section SimulateRouteMore.

Context {host : Js.Host}.

(** X12: [POST /simulate] answers 400 exactly when [trainId] is missing or
    empty or [modifications] is missing, whatever the fleet; with both
    present it answers 404 exactly when no train has the string as its code
    or as its id. *)
Theorem simulate_bad_request_and_not_found (requestTime : Z) (clock : Clock.t)
    (trains : list Train.t) (ai : SimAxiosOutcome) (req : SimRequest.t) :
  (simulate requestTime clock trains ai req
   = SimBadRequest "MISSING_SIMULATION_PARAMS"
   <-> (req.(SimRequest.trainId) = None
        \/ req.(SimRequest.trainId) = Some ""%string
        \/ req.(SimRequest.modifications) = None))
  /\ (forall trainId modifications,
         req.(SimRequest.trainId) = Some trainId ->
         trainId <> ""%string ->
         req.(SimRequest.modifications) = Some modifications ->
         (simulate requestTime clock trains ai req
          = SimNotFound "TRAIN_NOT_FOUND"
          <-> forall train, In train trains -> isTarget trainId train = false)).
Proof.
  unfold simulate. cbv zeta. split.
  - destruct (SimRequest.trainId req) as [id|];
      destruct (SimRequest.modifications req) as [m|].
    + destruct (String.eqb_spec id "") as [->|Hid].
      * split; auto.
      * split.
        -- intros H. exfalso.
           destruct (Js.find (isTarget id) trains); [|discriminate].
           destruct (callAISimulator _ _ _ _ _ _); discriminate.
        -- intros [H|[H|H]]; try discriminate. congruence.
    + split; auto.
    + split; auto.
    + split; auto.
  - intros id m -> Hid ->.
    apply String.eqb_neq in Hid. rewrite Hid. unfold Js.find. split.
    + intros H train Hin.
      destruct (List.find (isTarget id) trains) as [t|] eqn:E.
      * destruct (callAISimulator _ _ _ _ _ _); discriminate.
      * exact (find_none _ _ E train Hin).
    + intros Hnone. now rewrite (find_none_of _ _ Hnone).
Qed.

(** X13: when the simulation service refuses the connection and a train has
    the requested string as its code or id, [POST /simulate] answers 200
    with status SIMULATION, the base date (the time of the request when
    none is given), and the ranking, alerts, metrics and impact analysis of
    the local simulation of the stored documents. *)
Theorem simulate_falls_back_on_refusal (requestTime : Z) (clock : Clock.t)
    (trains : list Train.t) (req : SimRequest.t) (message trainId : string)
    (modifications : Modifications.t) (target : Train.t) :
  req.(SimRequest.trainId) = Some trainId ->
  trainId <> ""%string ->
  req.(SimRequest.modifications) = Some modifications ->
  In target trains ->
  isTarget trainId target = true ->
  let sim :=
    fallbackSimulation clock trains trainId modifications
      (override req.(SimRequest.constraints) (Js.JObj [])) in
  simulate requestTime clock trains
    (SimRejected (Some "ECONNREFUSED"%string) message) req
  = SimOk
      {| SimulationBody.planDate :=
           override req.(SimRequest.baseDate) requestTime;
         SimulationBody.rankedTrains :=
           sim.(Simulation.result).(Result.rankedTrains);
         SimulationBody.alerts := sim.(Simulation.result).(Result.alerts);
         SimulationBody.optimizationMetrics :=
           sim.(Simulation.result).(Result.metrics);
         SimulationBody.status := "SIMULATION";
         SimulationBody.simulationParams :=
           Some {| SimulationParams.modifiedTrain := trainId;
                   SimulationParams.modifications := modifications |};
         SimulationBody.impactAnalysis :=
           Some sim.(Simulation.impactAnalysis) |}.
Proof.
  intros Hid Hne Hm Hin Htarget. cbv zeta. unfold simulate. cbv zeta.
  rewrite Hid, Hm. apply String.eqb_neq in Hne. rewrite Hne.
  unfold Js.find.
  destruct (List.find (isTarget trainId) trains) as [t|] eqn:E.
  - unfold callAISimulator. cbv zeta. cbn [Js.strictEq].
    rewrite String.eqb_refl.
    rewrite simulation_formatting_is_transparent. reflexivity.
  - rewrite (find_none _ _ E target Hin) in Htarget. discriminate.
Qed.

End SimulateRouteMore.

(** ** The plan store under [POST /generate] *)

Lemma find_app_none {A : Type} (f : A -> bool) (l1 l2 : list A) :
  List.find f l1 = None -> List.find f (l1 ++ l2) = List.find f l2.
Proof.
  induction l1 as [|x l1 IH]; intros H; [reflexivity|].
  cbn in H |- *. destruct (f x); [discriminate | now apply IH].
Qed.

Section GenerateMore.

Context {host : Js.Host}.

(** What a 201 tells about the plan and the store. *)
Lemma generate_created_inv (env : Env.t) (req : Request.t) (store store' : Store)
    (plan : Plan.t) :
  generate env req store = (Created plan, store') ->
  store' = store ++ [plan]
  /\ plan.(Plan.status) = "FINALIZED"%string
  /\ plan.(Plan.planDate)
     = override req.(Request.planDate) env.(Env.requestTime)
  /\ plan.(Plan.generatedBy) = env.(Env.user)
  /\ plan.(Plan._id) = env.(Env.freshId)
  /\ validate plan = true
  /\ existsb (fun p => p.(Plan.planDate) =? plan.(Plan.planDate)) store
     = false
  /\ env.(Env.trains) <> [].
Proof.
  unfold generate. cbv zeta. intros H.
  assert (Hcont :
    (if Z.of_nat (List.length env.(Env.trains)) =? 0
     then (BadRequest "NO_TRAINS_AVAILABLE", store)
     else
       match callAIOptimizer env.(Env.clock) env.(Env.ai)
               (formatTrainsForAI env.(Env.trains)) req.(Request.constraints)
       with
       | Ok aiResult =>
           match
             save store
               (newInductionPlan env
                  (override req.(Request.planDate) env.(Env.requestTime))
                  aiResult)
           with
           | Ok store'0 =>
               (Created
                  (newInductionPlan env
                     (override req.(Request.planDate) env.(Env.requestTime))
                     aiResult), store'0)
           | Throw message => (ServerError message, store)
           end
       | Throw message => (ServerError message, store)
       end) = (Created plan, store')).
  { destruct (findFinalized store _) as [existing|];
      destruct (Js.truthy req.(Request.forceRegenerate));
      try exact H; discriminate. }
  clear H.
  destruct env.(Env.trains) as [|t l] eqn:Etrains; [discriminate|].
  cbn [List.length] in Hcont.
  destruct (Z.of_nat (S (List.length l)) =? 0); [discriminate|].
  destruct (callAIOptimizer _ _ _ _) as [aiResult|message]; [|discriminate].
  unfold save in Hcont.
  destruct (validate _) eqn:Hvalid; cbn [negb] in Hcont; [|discriminate].
  destruct (existsb _ store) eqn:Hfree; [discriminate|].
  injection Hcont as <- <-.
  repeat split; try reflexivity; try assumption. discriminate.
Qed.

(** X14: generation is idempotent per plan date: after a 201, any request
    for the date of the created plan without [forceRegenerate] gets the
    conflict that names the created plan, and stores nothing; the created
    plan is the one that the lookup by date finds. *)
Theorem generate_then_conflict (env env2 : Env.t) (req req2 : Request.t)
    (store store' : Store) (plan : Plan.t) :
  generate env req store = (Created plan, store') ->
  override req2.(Request.planDate) env2.(Env.requestTime)
  = plan.(Plan.planDate) ->
  Js.truthy req2.(Request.forceRegenerate) = false ->
  findFinalized store' plan.(Plan.planDate) = Some plan
  /\ generate env2 req2 store'
     = (Conflict "PLAN_EXISTS" plan.(Plan._id), store').
Proof.
  intros Hgen Hdate Hforce.
  destruct (generate_created_inv _ _ _ _ _ Hgen)
    as (-> & Hstatus & _ & _ & _ & _ & Hfree & _).
  assert (Hfound :
    findFinalized (store ++ [plan]) plan.(Plan.planDate) = Some plan).
  { unfold findFinalized. rewrite find_app_none.
    - cbn. rewrite Z.eqb_refl, Hstatus. reflexivity.
    - apply find_none_of. intros p Hp.
      destruct (Plan.planDate p =? Plan.planDate plan) eqn:E;
        [|reflexivity].
      assert (existsb (fun p => p.(Plan.planDate) =? plan.(Plan.planDate))
                store = true)
        by (apply existsb_exists; exists p; auto).
      congruence. }
  split; [exact Hfound|].
  apply generate_conflict; [rewrite Hdate; exact Hfound | exact Hforce].
Qed.

Lemma generate_store_unchanged (env : Env.t) (req : Request.t)
    (store : Store) :
  (forall plan, fst (generate env req store) <> Created plan) ->
  snd (generate env req store) = store.
Proof.
  unfold generate. cbv zeta.
  destruct (findFinalized store _) as [existing|];
    destruct (Js.truthy req.(Request.forceRegenerate));
    try (intros _; reflexivity);
    (destruct (Z.of_nat (List.length env.(Env.trains)) =? 0);
     [intros _; reflexivity|];
     destruct (callAIOptimizer _ _ _ _) as [aiResult|message];
     [|intros _; reflexivity];
     destruct (save store _) as [store'|message];
     [|intros _; reflexivity];
     intros H; exfalso; exact (H _ eq_refl)).
Qed.

(** X15: the store only grows by the plan of a 201, appended at its end, and
    it keeps its invariants: the plan dates stay pairwise distinct, and
    every stored plan is FINALIZED and passes the validators. *)
Theorem generate_keeps_store_invariants (env : Env.t) (req : Request.t)
    (store : Store) :
  NoDup (map Plan.planDate store) ->
  Forall (fun p => p.(Plan.status) = "FINALIZED"%string
                   /\ validate p = true) store ->
  let response := fst (generate env req store) in
  let store' := snd (generate env req store) in
  NoDup (map Plan.planDate store')
  /\ Forall (fun p => p.(Plan.status) = "FINALIZED"%string
                      /\ validate p = true) store'
  /\ ((exists plan, response = Created plan /\ store' = store ++ [plan])
      \/ ((forall plan, response <> Created plan) /\ store' = store)).
Proof.
  intros Hnd Hall. cbv zeta.
  assert (Hcases :
    (exists plan, generate env req store = (Created plan, store ++ [plan])
                  /\ plan.(Plan.status) = "FINALIZED"%string
                  /\ validate plan = true
                  /\ existsb (fun p => p.(Plan.planDate)
                                       =? plan.(Plan.planDate)) store = false)
    \/ ((forall plan, fst (generate env req store) <> Created plan)
        /\ snd (generate env req store) = store)).
  { destruct (generate env req store) as [response store'] eqn:Hgen.
    destruct response as [plan|code|code existing|message].
    - left. exists plan.
      destruct (generate_created_inv _ _ _ _ _ Hgen)
        as (-> & Hstatus & _ & _ & _ & Hvalid & Hfree & _). auto.
    - right. split; [intros plan; discriminate|].
      rewrite <- Hgen. apply generate_store_unchanged.
      rewrite Hgen. intros plan; discriminate.
    - right. split; [intros plan; discriminate|].
      rewrite <- Hgen. apply generate_store_unchanged.
      rewrite Hgen. intros plan; discriminate.
    - right. split; [intros plan; discriminate|].
      rewrite <- Hgen. apply generate_store_unchanged.
      rewrite Hgen. intros plan; discriminate. }
  destruct Hcases as [(plan & Hgen & Hstatus & Hvalid & Hfree)|[Hnot Hsame]].
  - rewrite Hgen. cbn [fst snd]. split; [|split].
    + apply (Permutation_NoDup
               (l := plan.(Plan.planDate) :: map Plan.planDate store)).
      * rewrite map_app. cbn [map]. apply Permutation_cons_append.
      * constructor; [|exact Hnd].
        intros Hin. apply in_map_iff in Hin.
        destruct Hin as (p & Hdate & Hp).
        assert (existsb (fun p => p.(Plan.planDate) =? plan.(Plan.planDate))
                  store = true).
        { apply existsb_exists. exists p. split; [exact Hp|].
          apply Z.eqb_eq. exact Hdate. }
        congruence.
    + apply Forall_app. split; [exact Hall|].
      constructor; [auto | constructor].
    + left. exists plan. auto.
  - rewrite Hsame. split; [exact Hnd|]. split; [exact Hall|].
    right. auto.
Qed.

End GenerateMore.

(** ** The role check in front of [POST /generate] *)

Section Guard.

Context {host : Js.Host}.

Lemma requireSupervisor_next (caller : option User.t) :
  requireSupervisor caller = Next
  <-> exists u,
      caller = Some u
      /\ (u.(User.role) = "SUPERVISOR"%string
          \/ u.(User.role) = "ADMIN"%string).
Proof.
  unfold requireSupervisor, requireRole. destruct caller as [u|].
  - cbn [existsb].
    destruct (String.eqb_spec u.(User.role) "SUPERVISOR") as [Hs|Hs];
      destruct (String.eqb_spec u.(User.role) "ADMIN") as [Ha|Ha];
      cbn [orb negb]; split; intros H;
      try (exists u; tauto); try reflexivity; try discriminate.
    destruct H as (u' & Hu & [H|H]); injection Hu as <-; contradiction.
  - split; [discriminate|]. intros (u & H & _). discriminate.
Qed.

(** X16: only a caller whose role is SUPERVISOR or ADMIN reaches the handler
    of [POST /generate]; any other caller is denied (401 without a user,
    403 with another role), gets no answer from the handler and leaves the
    store as it is; an admin passes; and a plan that is created carries the
    caller's id and is appended to the store. *)
Theorem only_supervisors_generate (caller : option User.t) (env : Env.t)
    (req : Request.t) (store : Store) :
  let gate := fst (fst (postGenerate caller env req store)) in
  let response := snd (fst (postGenerate caller env req store)) in
  let store' := snd (postGenerate caller env req store) in
  (gate = Next
   <-> exists u,
       caller = Some u
       /\ (u.(User.role) = "SUPERVISOR"%string
           \/ u.(User.role) = "ADMIN"%string))
  /\ (requireAdmin caller = Next -> gate = Next)
  /\ (gate = Next
      \/ (response = None /\ store' = store
          /\ ((caller = None /\ gate = Deny 401 "AUTH_REQUIRED")
              \/ (caller <> None
                  /\ gate = Deny 403 "INSUFFICIENT_PERMISSIONS"))))
  /\ (forall plan,
         response = Some (Created plan) ->
         exists u,
           caller = Some u
           /\ plan.(Plan.generatedBy) = u.(User._id)
           /\ store' = store ++ [plan]).
Proof.
  cbv zeta.
  assert (Hgate : fst (fst (postGenerate caller env req store))
                  = requireSupervisor caller).
  { unfold postGenerate.
    destruct (requireSupervisor caller) as [|st code] eqn:E; [|reflexivity].
    destruct caller as [u|]; [|reflexivity].
    destruct (generate _ req store); reflexivity. }
  rewrite Hgate. split; [apply requireSupervisor_next|].
  split.
  { unfold requireAdmin, requireSupervisor, requireRole.
    destruct caller as [u|]; [|discriminate]. cbn [existsb].
    destruct (String.eqb u.(User.role) "ADMIN");
      [rewrite !orb_true_r; reflexivity | discriminate]. }
  split.
  - unfold postGenerate.
    destruct (requireSupervisor caller) as [|st code] eqn:E; [now left|].
    right. cbn [fst snd]. split; [reflexivity|]. split; [reflexivity|].
    unfold requireSupervisor, requireRole in E.
    destruct caller as [u|].
    + right. split; [discriminate|].
      destruct (negb _); [now injection E as <- <- | discriminate].
    + left. split; [reflexivity|]. now injection E as <- <-.
  - intros plan. unfold postGenerate.
    destruct (requireSupervisor caller) as [|st code];
      [|cbn; discriminate].
    destruct caller as [u|]; [|cbn; discriminate].
    destruct (generate _ req store) as [response store'] eqn:Hgen.
    cbn [fst snd]. intros Hplan. injection Hplan as ->.
    destruct (generate_created_inv _ _ _ _ _ Hgen)
      as (-> & _ & _ & Hby & _).
    exists u. auto.
Qed.

End Guard.

(** ** The train model *)

(** X17: the urgency of the train model by the time left until the next
    maintenance is due: CRITICAL below one day (already before the due
    date), HIGH from one day to below four, MEDIUM from four days to below
    eight, LOW from eight days on. *)
Theorem maintenance_urgency_by_time_left (now : Z) (doc : TrainDoc.t)
    (due : Z) :
  doc.(TrainDoc.nextMaintenanceDue) = Some due ->
  let timeLeft := due - now in
  (timeLeft < msPerDay /\ maintenanceUrgency now doc = "CRITICAL"%string)
  \/ (msPerDay <= timeLeft < 4 * msPerDay
      /\ maintenanceUrgency now doc = "HIGH"%string)
  \/ (4 * msPerDay <= timeLeft < 8 * msPerDay
      /\ maintenanceUrgency now doc = "MEDIUM"%string)
  \/ (8 * msPerDay <= timeLeft
      /\ maintenanceUrgency now doc = "LOW"%string).
Proof.
  intros Hdue. cbv zeta. unfold maintenanceUrgency. rewrite Hdue.
  cbv zeta. unfold Js.floorDiv, msPerDay.
  pose proof (Z.div_mod (due - now) (1000 * 60 * 60 * 24) ltac:(lia)) as Hdiv.
  pose proof (Z.mod_pos_bound (due - now) (1000 * 60 * 60 * 24) ltac:(lia))
    as Hmod.
  destruct (Z.leb_spec ((due - now) / (1000 * 60 * 60 * 24)) 0);
    [left; split; [lia | reflexivity]|].
  destruct (Z.leb_spec ((due - now) / (1000 * 60 * 60 * 24)) 3);
    [right; left; split; [lia | reflexivity]|].
  destruct (Z.leb_spec ((due - now) / (1000 * 60 * 60 * 24)) 7);
    [right; right; left; split; [lia | reflexivity]|].
  right; right; right; split; [lia | reflexivity].
Qed.

(** ** The plan model: top trains, latest plan, history *)

Lemma sort_asc_sorted_id {A : Type} (key : A -> Z) (l : list A) :
  StronglySorted (fun a b => key a <= key b) l ->
  Js.sort (fun a b => key a - key b) l = l.
Proof.
  induction 1 as [|x l Hl IH Hx]; [reflexivity|].
  cbn [Js.sort fold_right]. fold (Js.sort (fun a b => key a - key b) l).
  rewrite IH. destruct l as [|y l']; [reflexivity|].
  cbn [Js.insertBy]. apply Forall_cons_iff in Hx. destruct Hx as [Hy _].
  destruct (Z.leb_spec (key x - key y) 0); [reflexivity | lia].
Qed.

Lemma mapFrom_rank_sorted (l : list Scored.t) :
  forall i : Z,
    StronglySorted (fun a b => a.(Ranked.rank) <= b.(Ranked.rank))
      (Js.mapFrom rankEntry i l).
Proof.
  induction l as [|x l IH]; intros i; cbn [Js.mapFrom]; constructor.
  - apply IH.
  - apply Forall_forall. intros e He.
    destruct (mapFrom_In_bound _ _ _ _ He) as (y & k & _ & Hk & ->).
    cbn. lia.
Qed.

Lemma firstn_seq_min (n a m : nat) :
  firstn n (seq a m) = seq a (Nat.min n m).
Proof.
  revert a m. induction n as [|n IH]; intros a m; [reflexivity|].
  destruct m as [|m]; [reflexivity|]. cbn. now rewrite IH.
Qed.

Lemma In_firstn {A : Type} (n : nat) (l : list A) (x : A) :
  In x (firstn n l) -> In x l.
Proof.
  intros H. rewrite <- (firstn_skipn n l). apply in_or_app. now left.
Qed.

Section PlanModel.

Context {host : Js.Host}.

(** X18: [getTopTrains(n)] never returns more than [n] entries, and only
    entries of the plan; on a plan whose ranking comes from the local
    optimizer it returns the first [n] entries of the ranking as they are
    stored, with ranks 1, 2, ... *)
Theorem top_trains_of_a_ranking (plan : Plan.t) (trains : list Train.t)
    (n : nat) :
  plan.(Plan.rankedTrains) = rankTrains trains ->
  getTopTrains plan n = firstn n plan.(Plan.rankedTrains)
  /\ map Ranked.rank (getTopTrains plan n)
     = map Z.of_nat
         (seq 1 (Nat.min n (List.length plan.(Plan.rankedTrains))))
  /\ (List.length (getTopTrains plan n) <= n)%nat
  /\ incl (getTopTrains plan n) plan.(Plan.rankedTrains).
Proof.
  intros Hplan.
  assert (Htop : getTopTrains plan n = firstn n plan.(Plan.rankedTrains)).
  { unfold getTopTrains, byRankAsc. rewrite Hplan.
    rewrite (sort_asc_sorted_id Ranked.rank); [reflexivity|].
    apply mapFrom_rank_sorted. }
  rewrite Htop. split; [reflexivity|]. split; [|split].
  - rewrite Hplan. unfold rankTrains, Js.mapi.
    rewrite <- firstn_map, mapFrom_length.
    rewrite (mapFrom_ranks rankEntry Ranked.rank) by reflexivity.
    rewrite firstn_map, firstn_seq_min. reflexivity.
  - apply firstn_le_length.
  - intros e He. exact (In_firstn _ _ _ He).
Qed.

End PlanModel.

Lemma StronglySorted_firstn {A : Type} (R : A -> A -> Prop) (n : nat)
    (l : list A) :
  StronglySorted R l -> StronglySorted R (firstn n l).
Proof.
  intros H. revert n. induction H as [|x l Hl IH Hx]; intros n.
  - rewrite firstn_nil. constructor.
  - destruct n as [|n]; cbn [firstn]; constructor; [apply IH|].
    apply Forall_forall. intros y Hy. rewrite Forall_forall in Hx.
    apply Hx. exact (In_firstn _ _ _ Hy).
Qed.

Lemma getLatest_some (store : list Plan.t) (p : Plan.t) :
  getLatest store = Some p ->
  In p store /\ p.(Plan.status) = "FINALIZED"%string
  /\ forall q, In q store -> q.(Plan.status) = "FINALIZED"%string ->
               q.(Plan.planDate) <= p.(Plan.planDate).
Proof.
  unfold getLatest. fold isFinalized.
  pose proof (sort_perm (Js.desc Plan.planDate) (filter isFinalized store))
    as Hperm.
  pose proof (sort_sorted Plan.planDate (filter isFinalized store)) as Hsorted.
  destruct (Js.sort (Js.desc Plan.planDate) (filter isFinalized store))
    as [|x l] eqn:E; [discriminate|].
  cbn [hd_error]. intros Hp. injection Hp as ->.
  assert (Hin : In p (filter isFinalized store))
    by (apply (Permutation_in _ Hperm); now left).
  apply filter_In in Hin. destruct Hin as [Hin Hfin].
  split; [exact Hin|]. split; [now apply String.eqb_eq|].
  intros q Hq Hqfin.
  assert (Hq' : In q (p :: l)).
  { apply (Permutation_in _ (Permutation_sym Hperm)).
    apply filter_In. split; [exact Hq|]. unfold isFinalized.
    rewrite Hqfin. reflexivity. }
  destruct Hq' as [->|Hq']; [lia|].
  apply StronglySorted_inv in Hsorted. destruct Hsorted as [_ Hall].
  rewrite Forall_forall in Hall. exact (Hall q Hq').
Qed.

Lemma getLatest_none (store : list Plan.t) :
  getLatest store = None
  <-> forall p, In p store -> p.(Plan.status) <> "FINALIZED"%string.
Proof.
  unfold getLatest. fold isFinalized.
  pose proof (sort_perm (Js.desc Plan.planDate) (filter isFinalized store))
    as Hperm.
  split.
  - intros Hnone p Hp Hfin.
    destruct (Js.sort (Js.desc Plan.planDate) (filter isFinalized store))
      as [|x l]; [|discriminate].
    apply Permutation_nil in Hperm.
    assert (Hin : In p (filter isFinalized store)).
    { apply filter_In. split; [exact Hp|]. unfold isFinalized.
      rewrite Hfin. reflexivity. }
    rewrite Hperm in Hin. contradiction.
  - intros Hall.
    assert (Hempty : filter isFinalized store = []).
    { destruct (filter isFinalized store) as [|x l] eqn:E; [reflexivity|].
      assert (Hx : In x (filter isFinalized store))
        by (rewrite E; now left).
      apply filter_In in Hx. destruct Hx as [Hx Hfin].
      exfalso. apply (Hall x Hx). now apply String.eqb_eq. }
    rewrite Hempty. reflexivity.
Qed.

(** X19: [getLatest] finds nothing exactly when no stored plan is FINALIZED;
    what it finds is a stored FINALIZED plan whose plan date no other
    FINALIZED plan exceeds, and it is the first plan of the history. *)
Theorem latest_is_newest_finalized (store : list Plan.t) :
  (getLatest store = None
   <-> forall p, In p store -> p.(Plan.status) <> "FINALIZED"%string)
  /\ (forall p,
         getLatest store = Some p ->
         In p store /\ p.(Plan.status) = "FINALIZED"%string
         /\ forall q, In q store -> q.(Plan.status) = "FINALIZED"%string ->
                      q.(Plan.planDate) <= p.(Plan.planDate))
  /\ (forall limit : nat,
         hd_error (getHistory store (S limit)) = getLatest store).
Proof.
  split; [apply getLatest_none|]. split; [apply getLatest_some|].
  intros limit. unfold getHistory, getLatest, byPlanDateDesc.
  destruct (Js.sort _ _); reflexivity.
Qed.

(** X20: for a limit that is a natural number, the history holds stored
    FINALIZED plans only, newest plan date first.  With a limit of 0 (no
    limit for the database) it has every FINALIZED plan once, however
    many there are; with a positive limit it has at most [limit] plans,
    the first ones of the unlimited history, and all the FINALIZED plans
    if the limit reaches their number. *)
Theorem history_is_bounded_and_sorted (store : list Plan.t) (limit : nat) :
  (forall p, In p (getHistory store limit) ->
             In p store /\ p.(Plan.status) = "FINALIZED"%string)
  /\ StronglySorted (fun a b => b.(Plan.planDate) <= a.(Plan.planDate))
       (getHistory store limit)
  /\ Permutation (getHistory store 0) (filter isFinalized store)
  /\ (limit <> 0%nat ->
      (List.length (getHistory store limit) <= limit)%nat
      /\ getHistory store limit = firstn limit (getHistory store 0))
  /\ ((List.length (filter isFinalized store) <= limit)%nat ->
      Permutation (getHistory store limit) (filter isFinalized store)).
Proof.
  unfold getHistory, byPlanDateDesc. fold isFinalized. cbv zeta.
  pose proof (sort_perm (Js.desc Plan.planDate) (filter isFinalized store))
    as Hperm.
  pose proof (sort_sorted Plan.planDate (filter isFinalized store))
    as Hsorted.
  assert (Hin : forall p,
             In p (Js.sort (Js.desc Plan.planDate) (filter isFinalized store)) ->
             In p store /\ p.(Plan.status) = "FINALIZED"%string).
  { intros p Hp. apply (Permutation_in _ Hperm) in Hp.
    apply filter_In in Hp. destruct Hp as [Hp Hfin].
    split; [exact Hp|]. now apply String.eqb_eq. }
  split; [|split; [|split; [exact Hperm|split]]].
  - intros p Hp. destruct limit as [|n]; [now apply Hin|].
    apply In_firstn in Hp. now apply Hin.
  - destruct limit as [|n]; [exact Hsorted|].
    apply StronglySorted_firstn, Hsorted.
  - intros Hlimit. destruct limit as [|n]; [contradiction|].
    split; [apply firstn_le_length | reflexivity].
  - intros Hlimit. destruct limit as [|n]; [exact Hperm|].
    rewrite firstn_all2; [exact Hperm|].
    now rewrite (Permutation_length Hperm).
Qed.

Section LatestAfterGenerate.

Context {host : Js.Host}.

(** X21: after a 201 for a plan date later than the dates of the stored
    FINALIZED plans, the created plan is the latest plan. *)
Theorem created_plan_becomes_latest (env : Env.t) (req : Request.t)
    (store store' : Store) (plan : Plan.t) :
  generate env req store = (Created plan, store') ->
  (forall q, In q store -> q.(Plan.status) = "FINALIZED"%string ->
             q.(Plan.planDate) < plan.(Plan.planDate)) ->
  getLatest store' = Some plan.
Proof.
  intros Hgen Hnewer.
  destruct (generate_created_inv _ _ _ _ _ Hgen)
    as (-> & Hstatus & _).
  destruct (getLatest (store ++ [plan])) as [p|] eqn:E.
  - destruct (getLatest_some _ _ E) as (Hin & Hfin & Hmax).
    apply in_app_or in Hin. destruct Hin as [Hin|[->|[]]]; [|reflexivity].
    exfalso. pose proof (Hnewer p Hin Hfin) as Hlt.
    assert (Hle : plan.(Plan.planDate) <= p.(Plan.planDate)).
    { apply Hmax; [|exact Hstatus]. apply in_or_app. right. now left. }
    lia.
  - exfalso. apply (proj1 (getLatest_none _) E plan); [|exact Hstatus].
    apply in_or_app. right. now left.
Qed.

End LatestAfterGenerate.

(** ** The constraints route *)

Lemma follows_refl (c : Ticks.t) : Ticks.follows c c.
Proof. split; [reflexivity | lia]. Qed.

Lemma follows_trans (a b c : Ticks.t) :
  Ticks.follows a b -> Ticks.follows b c -> Ticks.follows a c.
Proof. intros [Hi Hr] [Hi' Hr']. split; [congruence | lia]. Qed.

Lemma dateNow_follows (c : Ticks.t) : Ticks.follows c (snd (dateNow c)).
Proof. split; [reflexivity | cbn; lia]. Qed.

Lemma readMaintenanceUrgency_follows (doc : TrainDoc.t) (c : Ticks.t) :
  Ticks.follows c (snd (readMaintenanceUrgency doc c)).
Proof.
  unfold readMaintenanceUrgency.
  destruct (TrainDoc.nextMaintenanceDue doc);
    [apply dateNow_follows | apply follows_refl].
Qed.

Lemma readDaysSinceLastMaintenance_follows (doc : TrainDoc.t) (c : Ticks.t) :
  Ticks.follows c (snd (readDaysSinceLastMaintenance doc c)).
Proof.
  unfold readDaysSinceLastMaintenance.
  destruct (TrainDoc.lastMaintenanceDate doc);
    [apply dateNow_follows | apply follows_refl].
Qed.

(** A train that is not ready stays so: readiness can only be lost as time
    goes by. *)
Lemma isServiceReady_earlier (t T : Z) (train : Train.t) :
  t <= T ->
  isServiceReady T train = true -> isServiceReady t train = true.
Proof.
  unfold isServiceReady. intros Hle.
  destruct (Train.fitnessStatus train) as [f|]; [|discriminate].
  destruct (Fitness.expiryDate f) as [e|];
    [|rewrite !andb_false_r; discriminate].
  rewrite !andb_true_iff, !Z.gtb_lt. intros (H & He). split; [exact H | lia].
Qed.

(** What a call of [isServiceReady] gives: without a reading, [false], and
    then the train is ready at no instant; with one, the readiness at the
    instant read. *)
Lemma readIsServiceReady_spec (train : Train.t) (c : Ticks.t) :
  (readIsServiceReady train c = (false, c)
   /\ forall t, isServiceReady t train = false)
  \/ readIsServiceReady train c
     = (isServiceReady (c.(Ticks.instants) c.(Ticks.reads)) train,
        snd (dateNow c)).
Proof.
  unfold readIsServiceReady, isServiceReady, fitnessIsValid.
  destruct (Train.fitnessStatus train) as [f|].
  - destruct (Js.truthy (Fitness.isValid f)
              && Js.strictEq (Train.maintenanceStatus train) "OPERATIONAL"
              && Js.truthy (Train.isAvailableForService train));
      [right; reflexivity | left; split; reflexivity].
  - left. split; reflexivity.
Qed.

(** One iteration on a document with an expiry date: the entries it adds,
    and the readings [i] (for the days) and [j] (for the readiness) that
    they depend on. *)
Lemma constraintsStep_ok (acc : Violations.t) (doc : TrainDoc.t)
    (c : Ticks.t) (e : Z) :
  expiryOf doc = Some e ->
  exists acc' c' j,
    constraintsStep acc doc c = (Ok acc', c')
    /\ Ticks.follows c c'
    /\ (c.(Ticks.reads) <= j < c'.(Ticks.reads))%nat
    /\ (c.(Ticks.reads) < c'.(Ticks.reads))%nat
    /\ acc'.(Violations.fitnessExpiring)
       = acc.(Violations.fitnessExpiring)
         ++ (let now := c.(Ticks.instants) c.(Ticks.reads) in
             if (e - now) / msPerDay <=? 7
             then [ {| FitnessExpiring.trainId :=
                         doc.(TrainDoc.train).(Train.trainsetId);
                       FitnessExpiring.expiryDate := e;
                       FitnessExpiring.daysRemaining :=
                         (e - now) / msPerDay |} ]
             else [])
    /\ acc'.(Violations.unavailable)
       = acc.(Violations.unavailable)
         ++ (if notReady (c.(Ticks.instants) j) doc
             then [ {| Unavailable.trainId :=
                         doc.(TrainDoc.train).(Train.trainsetId);
                       Unavailable.reasons :=
                         unavailableReasons doc.(TrainDoc.train) |} ]
             else [])
    /\ (List.length acc'.(Violations.maintenanceDue)
        <= List.length acc.(Violations.maintenanceDue) + 1)%nat
    /\ (List.length acc'.(Violations.cleaningDue)
        <= List.length acc.(Violations.cleaningDue) + 1)%nat.
Proof.
  unfold expiryOf, constraintsStep, notReady. cbv zeta.
  destruct (Train.fitnessStatus (TrainDoc.train doc)) as [[valid ex]|] eqn:Hf;
    [|discriminate].
  cbn [Fitness.expiryDate]. intros ->. unfold Js.floorDiv.
  cbn [dateNow fst snd].
  set (c1 := {| Ticks.instants := Ticks.instants c;
                Ticks.reads := S (Ticks.reads c) |}).
  assert (H1 : Ticks.follows c c1 /\ Ticks.reads c1 = S (Ticks.reads c))
    by (split; [apply (dateNow_follows c) | reflexivity]).
  set (md := if Js.strictEq _ "MAINTENANCE_DUE" then _ else _).
  assert (Hmd : Ticks.follows c1 (snd md)
                /\ (List.length (fst md)
                    <= List.length acc.(Violations.maintenanceDue) + 1)%nat).
  { subst md. destruct (Js.strictEq _ "MAINTENANCE_DUE").
    - pose proof (readMaintenanceUrgency_follows doc c1) as Hu.
      destruct (readMaintenanceUrgency doc c1) as [u c2]. cbn [snd] in Hu.
      pose proof (readDaysSinceLastMaintenance_follows doc c2) as Hd.
      destruct (readDaysSinceLastMaintenance doc c2) as [d c3].
      cbn [snd fst] in *. split; [eapply follows_trans; eassumption|].
      rewrite length_app. cbn. lia.
    - cbn [fst snd]. split; [apply follows_refl | lia]. }
  destruct md as [maintenanceDue c2]. cbn [fst snd] in Hmd.
  destruct Hmd as [H2 Hlmd]. destruct H1 as [H1 Hr1].
  assert (H12 : Ticks.follows c c2) by (eapply follows_trans; eassumption).
  destruct H12 as [Hi12 Hr12]. destruct H2 as [_ Hr2].
  assert (Hcd : forall l : list CleaningDue.t,
             (List.length
                (if Js.strictEq (Train.cleaningStatus (TrainDoc.train doc))
                      "CLEANING_DUE"
                 then acc.(Violations.cleaningDue) ++ l
                 else acc.(Violations.cleaningDue))
              <= List.length acc.(Violations.cleaningDue) + List.length l)%nat).
  { intros l. destruct (Js.strictEq _ "CLEANING_DUE");
      [rewrite length_app; lia | lia]. }
  assert (Hfe : forall (b : bool) (x : FitnessExpiring.t),
             (if b then acc.(Violations.fitnessExpiring) ++ [x]
              else acc.(Violations.fitnessExpiring))
             = acc.(Violations.fitnessExpiring) ++ (if b then [x] else []))
    by (intros [|] x; [reflexivity | now rewrite app_nil_r]).
  assert (Hun : forall (b : bool) (x : Unavailable.t),
             (if b then acc.(Violations.unavailable) ++ [x]
              else acc.(Violations.unavailable))
             = acc.(Violations.unavailable) ++ (if b then [x] else []))
    by (intros [|] x; [reflexivity | now rewrite app_nil_r]).
  destruct (readIsServiceReady_spec (TrainDoc.train doc) c2)
    as [[Hread Hnever]|Hread]; rewrite Hread.
  - eexists _, c2, (Ticks.reads c).
    split; [reflexivity|].
    cbn [Violations.fitnessExpiring Violations.unavailable
         Violations.maintenanceDue Violations.cleaningDue].
    split; [split; [exact Hi12 | lia]|].
    split; [lia|]. split; [lia|].
    split; [apply Hfe|].
    split; [rewrite Hnever; apply Hun|].
    split; [exact Hlmd | apply (Hcd [_])].
  - eexists _, (snd (dateNow c2)), (Ticks.reads c2).
    split; [reflexivity|].
    cbn [Violations.fitnessExpiring Violations.unavailable
         Violations.maintenanceDue Violations.cleaningDue dateNow snd
         Ticks.reads Ticks.instants].
    split; [split; [exact Hi12 | cbn; lia]|].
    split; [lia|]. split; [lia|].
    split; [apply Hfe|].
    split; [rewrite <- Hi12; apply Hun|].
    split; [exact Hlmd | apply (Hcd [_])].
Qed.

Lemma constraintsStep_throw (acc : Violations.t) (doc : TrainDoc.t)
    (c : Ticks.t) :
  expiryOf doc = None ->
  exists message, constraintsStep acc doc c = (Throw message, c).
Proof.
  unfold expiryOf, constraintsStep.
  destruct (Train.fitnessStatus (TrainDoc.train doc)) as [[valid [e|]]|];
    try discriminate; intros _; eexists; reflexivity.
Qed.

Lemma notReady_later (t T : Z) (doc : TrainDoc.t) :
  t <= T -> notReady t doc = true -> notReady T doc = true.
Proof.
  unfold notReady. intros Hle Hnot.
  destruct (isServiceReady T (TrainDoc.train doc)) eqn:E; [|reflexivity].
  rewrite (isServiceReady_earlier _ _ _ Hle E) in Hnot. discriminate.
Qed.

Lemma constraintsLoop_ok (docs : list TrainDoc.t) :
  forall acc v c c',
    constraintsLoop acc docs c = (Ok v, c') ->
    (forall doc, In doc docs -> expiryOf doc <> None)
    /\ Ticks.follows c c'
    /\ (List.length v.(Violations.fitnessExpiring)
        <= List.length acc.(Violations.fitnessExpiring) + List.length docs)%nat
    /\ (List.length v.(Violations.maintenanceDue)
        <= List.length acc.(Violations.maintenanceDue) + List.length docs)%nat
    /\ (List.length v.(Violations.cleaningDue)
        <= List.length acc.(Violations.cleaningDue) + List.length docs)%nat
    /\ (List.length v.(Violations.unavailable)
        <= List.length acc.(Violations.unavailable) + List.length docs)%nat
    /\ incl acc.(Violations.fitnessExpiring) v.(Violations.fitnessExpiring)
    /\ incl acc.(Violations.unavailable) v.(Violations.unavailable)
    /\ (forall doc e,
           In doc docs -> expiryOf doc = Some e ->
           exists i j,
             (c.(Ticks.reads) <= i < c'.(Ticks.reads))%nat
             /\ (c.(Ticks.reads) <= j < c'.(Ticks.reads))%nat
             /\ ((e - c.(Ticks.instants) i) / msPerDay <= 7 ->
                 In {| FitnessExpiring.trainId :=
                         doc.(TrainDoc.train).(Train.trainsetId);
                       FitnessExpiring.expiryDate := e;
                       FitnessExpiring.daysRemaining :=
                         (e - c.(Ticks.instants) i) / msPerDay |}
                   v.(Violations.fitnessExpiring))
             /\ (notReady (c.(Ticks.instants) j) doc = true ->
                 In {| Unavailable.trainId :=
                         doc.(TrainDoc.train).(Train.trainsetId);
                       Unavailable.reasons :=
                         unavailableReasons doc.(TrainDoc.train) |}
                   v.(Violations.unavailable)))
    /\ (forall T,
           (forall i, (c.(Ticks.reads) <= i < c'.(Ticks.reads))%nat ->
                      c.(Ticks.instants) i <= T) ->
           (List.length v.(Violations.unavailable)
            <= List.length acc.(Violations.unavailable)
               + List.length (filter (notReady T) docs))%nat)
    /\ (forall T,
           (forall i, (c.(Ticks.reads) <= i < c'.(Ticks.reads))%nat ->
                      c.(Ticks.instants) i = T) ->
           List.length v.(Violations.unavailable)
           = (List.length acc.(Violations.unavailable)
              + List.length (filter (notReady T) docs))%nat).
Proof.
  induction docs as [|doc docs IH]; intros acc v c c' Hloop.
  - cbn in Hloop. injection Hloop as <- <-.
    split; [intros ? []|]. split; [apply follows_refl|].
    repeat (split; [cbn; lia|]).
    split; [apply incl_refl|]. split; [apply incl_refl|].
    split; [intros ? ? []|]. split; intros; cbn; lia.
  - cbn [constraintsLoop] in Hloop.
    destruct (expiryOf doc) as [e|] eqn:He.
    + destruct (constraintsStep_ok acc doc c e He)
        as (acc' & c1 & j & Hstep & [Hi1 Hr1] & Hj & Hlt & Hfe & Hun
            & Hmd & Hcd).
      rewrite Hstep in Hloop.
      destruct (IH _ _ _ _ Hloop)
        as (Hall & [Hi2 Hr2] & Hlfe & Hlmd & Hlcd & Hlun & Hife & Hiun
            & Hin & Hle & Heq).
      rewrite Hi1 in Hi2, Hin, Hle, Heq.
      rewrite Hfe in Hlfe, Hife. rewrite Hun in Hlun, Hiun, Hle, Heq.
      rewrite length_app in Hlfe, Hlun, Hle, Heq.
      assert (Hone : forall (A : Type) (b : bool) (x : A),
                 (List.length (if b then [x] else []) <= 1)%nat)
        by (intros A [|] x; cbn; lia).
      pose proof (Hone _ ((e - Ticks.instants c (Ticks.reads c)) / msPerDay
                          <=? 7)
                    {| FitnessExpiring.trainId :=
                         doc.(TrainDoc.train).(Train.trainsetId);
                       FitnessExpiring.expiryDate := e;
                       FitnessExpiring.daysRemaining :=
                         (e - Ticks.instants c (Ticks.reads c)) / msPerDay |})
        as Hone_fe.
      cbv zeta in Hlfe.
      pose proof (Hone _ (notReady (Ticks.instants c j) doc)
                    {| Unavailable.trainId :=
                         doc.(TrainDoc.train).(Train.trainsetId);
                       Unavailable.reasons :=
                         unavailableReasons doc.(TrainDoc.train) |})
        as Hone_un.
      split; [intros d [<-|Hd]; [congruence | auto]|].
      split; [split; [congruence | lia]|].
      split; [cbn [List.length]; lia|].
      split; [cbn [List.length]; lia|].
      split; [cbn [List.length]; lia|].
      split; [cbn [List.length]; lia|].
      split; [intros x Hx; apply Hife, in_or_app; now left|].
      split; [intros x Hx; apply Hiun, in_or_app; now left|].
      split; [|split].
      * intros d e' [<-|Hd] He'.
        -- rewrite He in He'. injection He' as <-.
           exists (Ticks.reads c), j.
           split; [lia|]. split; [lia|]. split.
           ++ intros Hdays. apply Hife, in_or_app. right. cbv zeta.
              apply Z.leb_le in Hdays. rewrite Hdays. now left.
           ++ intros Hnot. apply Hiun, in_or_app. right.
              rewrite Hnot. now left.
        -- destruct (Hin d e' Hd He') as (i' & j' & Hi' & Hj' & H).
           exists i', j'. split; [lia|]. split; [lia | exact H].
      * intros T HT.
        assert (Hrest : (List.length (Violations.unavailable v)
                         <= List.length (Violations.unavailable acc)
                            + List.length
                                (if notReady (Ticks.instants c j) doc
                                 then [ {| Unavailable.trainId :=
                                             doc.(TrainDoc.train).(Train.trainsetId);
                                           Unavailable.reasons :=
                                             unavailableReasons
                                               doc.(TrainDoc.train) |} ]
                                 else [])
                            + List.length (filter (notReady T) docs))%nat)
          by (apply Hle; intros i Hi; apply HT; lia).
        cbn [filter].
        destruct (notReady (Ticks.instants c j) doc) eqn:Hnot.
        -- rewrite (notReady_later _ T doc (HT j ltac:(lia)) Hnot).
           cbn [List.length] in *. lia.
        -- destruct (notReady T doc); cbn [List.length] in *; lia.
      * intros T HT.
        rewrite (Heq T) by (intros i Hi; apply HT; lia).
        cbn [filter]. rewrite (HT j) by lia.
        destruct (notReady T doc); cbn [List.length]; lia.
    + destruct (constraintsStep_throw acc doc c He) as (message & Hstep).
      rewrite Hstep in Hloop. discriminate.
Qed.

Lemma constraintsLoop_throw (docs : list TrainDoc.t) :
  forall acc c doc,
    In doc docs -> expiryOf doc = None ->
    exists message, fst (constraintsLoop acc docs c) = Throw message.
Proof.
  induction docs as [|d docs IH]; intros acc c doc Hin Hnone; [contradiction|].
  cbn [constraintsLoop].
  destruct (constraintsStep acc d c) as [[acc'|message] c1] eqn:Hstep;
    [|eexists; reflexivity].
  destruct Hin as [->|Hin].
  - destruct (constraintsStep_throw acc doc c Hnone) as (m & Hm).
    congruence.
  - exact (IH acc' c1 doc Hin Hnone).
Qed.

Lemma constraintsLoop_throws_only (docs : list TrainDoc.t) :
  forall acc c m,
    fst (constraintsLoop acc docs c) = Throw m ->
    exists doc, In doc docs /\ expiryOf doc = None.
Proof.
  induction docs as [|d docs IH]; intros acc c m H; [discriminate|].
  cbn [constraintsLoop] in H.
  destruct (expiryOf d) as [e|] eqn:He.
  - destruct (constraintsStep_ok acc d c e He) as (acc' & c1 & j & Hstep & _).
    rewrite Hstep in H. destruct (IH _ _ _ H) as (doc & Hin & Hnone).
    exists doc. split; [now right | exact Hnone].
  - exists d. split; [now left | exact He].
Qed.

(** The filter of the summary: the trains that it keeps were ready at the
    instants read for them. *)
Lemma filterServiceReady_ok (docs : list TrainDoc.t) :
  forall c,
    let kept := fst (filterServiceReady docs c) in
    let c' := snd (filterServiceReady docs c) in
    Ticks.follows c c'
    /\ (List.length kept <= List.length docs)%nat
    /\ (forall T,
           (forall i, (c.(Ticks.reads) <= i < c'.(Ticks.reads))%nat ->
                      T <= c.(Ticks.instants) i) ->
           (List.length kept
            <= List.length
                 (filter (fun doc => isServiceReady T doc.(TrainDoc.train))
                    docs))%nat)
    /\ (forall T,
           (forall i, (c.(Ticks.reads) <= i < c'.(Ticks.reads))%nat ->
                      c.(Ticks.instants) i = T) ->
           kept
           = filter (fun doc => isServiceReady T doc.(TrainDoc.train)) docs).
Proof.
  induction docs as [|doc docs IH]; intros c; cbv zeta.
  - cbn. split; [apply follows_refl|]. repeat split; intros; lia.
  - cbn [filterServiceReady].
    destruct (readIsServiceReady_spec (TrainDoc.train doc) c)
      as [[Hread Hnever]|Hread]; rewrite Hread.
    + specialize (IH c). cbv zeta in IH.
      destruct (filterServiceReady docs c) as [kept c'].
      cbn [fst snd] in *. destruct IH as (Hf & Hlen & Hle & Heq).
      split; [exact Hf|]. split; [cbn [List.length]; lia|].
      split; intros T HT; cbn [filter]; rewrite Hnever;
        [apply Hle | apply Heq]; exact HT.
    + specialize (IH (snd (dateNow c))). cbv zeta in IH.
      destruct (filterServiceReady docs (snd (dateNow c))) as [kept c'].
      cbn [fst snd dateNow Ticks.reads Ticks.instants] in *.
      destruct IH as ([Hi Hr] & Hlen & Hle & Heq).
      cbn [Ticks.reads Ticks.instants] in Hi, Hr.
      split; [split; [exact Hi | lia]|].
      split; [destruct (isServiceReady _ _); cbn [List.length]; lia|].
      split; intros T HT; cbn [filter].
      * assert (Hrest : (List.length kept
                         <= List.length
                              (filter
                                 (fun d => isServiceReady T d.(TrainDoc.train))
                                 docs))%nat)
          by (apply Hle; intros i Hi'; apply HT; lia).
        destruct (isServiceReady (Ticks.instants c (Ticks.reads c))
                    (TrainDoc.train doc)) eqn:E.
        -- assert (HTc : T <= Ticks.instants c (Ticks.reads c))
             by (apply HT; lia).
           rewrite (isServiceReady_earlier T _ _ HTc E).
           cbn [List.length]. lia.
        -- destruct (isServiceReady T (TrainDoc.train doc));
             cbn [List.length]; lia.
      * rewrite (HT (Ticks.reads c)) by lia.
        rewrite (Heq T) by (intros i Hi'; apply HT; lia).
        reflexivity.
Qed.

Lemma ready_or_not (T : Z) (docs : list TrainDoc.t) :
  (List.length
     (filter (fun doc => isServiceReady T doc.(TrainDoc.train)) docs)
   + List.length (filter (notReady T) docs))%nat = List.length docs.
Proof.
  unfold notReady. induction docs as [|d docs IH]; [reflexivity|].
  cbn [filter]. destruct (isServiceReady T (TrainDoc.train d));
    cbn [negb List.length]; lia.
Qed.

(** The report of a run that answers 200, piece by piece. *)
Lemma getConstraints_ok (docs : list TrainDoc.t) (c : Ticks.t)
    (report : ConstraintsReport.t) :
  fst (getConstraints docs c) = Ok report ->
  exists v c1,
    constraintsLoop
      {| Violations.fitnessExpiring := [];
         Violations.maintenanceDue := [];
         Violations.cleaningDue := [];
         Violations.unavailable := [] |} docs c = (Ok v, c1)
    /\ report.(ConstraintsReport.constraints) = v
    /\ report.(ConstraintsReport.summary)
       = {| ConstraintsSummary.totalTrains := Z.of_nat (List.length docs);
            ConstraintsSummary.serviceReady :=
              Z.of_nat (List.length (fst (filterServiceReady docs c1)));
            ConstraintsSummary.constraintViolations :=
              Z.of_nat (List.length v.(Violations.fitnessExpiring))
              + Z.of_nat (List.length v.(Violations.maintenanceDue))
              + Z.of_nat (List.length v.(Violations.cleaningDue))
              + Z.of_nat (List.length v.(Violations.unavailable)) |}.
Proof.
  unfold getConstraints.
  destruct (constraintsLoop _ docs c) as [[v|m] c1]; [|discriminate].
  destruct (filterServiceReady docs c1) as [kept c2] eqn:Hkept. cbn [fst].
  intros H. injection H as <-. exists v, c1. rewrite Hkept.
  split; [reflexivity|]. split; reflexivity.
Qed.

(** X22: the constraints route fails (500) exactly when a document has no
    fitness expiry date.  Otherwise [totalTrains] is the number of
    documents and [constraintViolations] is the total length of the four
    lists, at most four per train.  The readiness of a train is asked
    twice, in the loop and in the summary, each time at a new reading of
    the clock: when the clock never goes back, the service-ready trains and
    the unavailable ones are at most all the trains; they are all the
    trains when the clock shows one instant throughout. *)
Theorem constraints_summary_adds_up (docs : list TrainDoc.t)
    (clock : Ticks.t) :
  ((exists message, fst (getConstraints docs clock) = Throw message)
   <-> exists doc, In doc docs /\ expiryOf doc = None)
  /\ forall report,
      fst (getConstraints docs clock) = Ok report ->
      let s := report.(ConstraintsReport.summary) in
      let c := report.(ConstraintsReport.constraints) in
      s.(ConstraintsSummary.totalTrains) = Z.of_nat (List.length docs)
      /\ s.(ConstraintsSummary.constraintViolations)
         = Z.of_nat (List.length c.(Violations.fitnessExpiring))
           + Z.of_nat (List.length c.(Violations.maintenanceDue))
           + Z.of_nat (List.length c.(Violations.cleaningDue))
           + Z.of_nat (List.length c.(Violations.unavailable))
      /\ 0 <= s.(ConstraintsSummary.constraintViolations)
         <= 4 * s.(ConstraintsSummary.totalTrains)
      /\ 0 <= s.(ConstraintsSummary.serviceReady)
         <= s.(ConstraintsSummary.totalTrains)
      /\ (Ticks.monotone clock ->
          s.(ConstraintsSummary.serviceReady)
          + Z.of_nat (List.length c.(Violations.unavailable))
          <= s.(ConstraintsSummary.totalTrains))
      /\ (forall now : Z,
             (forall i, clock.(Ticks.instants) i = now) ->
             s.(ConstraintsSummary.serviceReady)
             = Z.of_nat
                 (List.length
                    (filter
                       (fun doc => isServiceReady now doc.(TrainDoc.train))
                       docs))
             /\ s.(ConstraintsSummary.serviceReady)
                + Z.of_nat (List.length c.(Violations.unavailable))
                = s.(ConstraintsSummary.totalTrains)).
Proof.
  split.
  - split.
    + intros (message & Hthrow). unfold getConstraints in Hthrow.
      destruct (constraintsLoop _ docs clock) as [[v|m] c1] eqn:Hloop.
      * destruct (filterServiceReady docs c1); discriminate.
      * eapply (constraintsLoop_throws_only docs).
        rewrite Hloop. reflexivity.
    + intros (doc & Hin & Hnone). unfold getConstraints.
      destruct (constraintsLoop_throw docs
                  {| Violations.fitnessExpiring := [];
                     Violations.maintenanceDue := [];
                     Violations.cleaningDue := [];
                     Violations.unavailable := [] |} clock doc Hin Hnone)
        as (message & Hthrow).
      destruct (constraintsLoop _ docs clock) as [[v|m] c1];
        [discriminate|]. eexists. reflexivity.
  - intros report Hreport.
    destruct (getConstraints_ok _ _ _ Hreport) as (v & c1 & Hloop & -> & ->).
    cbv zeta.
    cbn [ConstraintsSummary.totalTrains ConstraintsSummary.serviceReady
         ConstraintsSummary.constraintViolations].
    destruct (constraintsLoop_ok _ _ _ _ _ Hloop)
      as (_ & [Hi1 Hr1] & Hlfe & Hlmd & Hlcd & Hlun & _ & _ & _ & Hle & Heq).
    cbn [Violations.unavailable Violations.fitnessExpiring
         Violations.maintenanceDue Violations.cleaningDue List.length]
      in Hlfe, Hlmd, Hlcd, Hlun, Hle, Heq.
    destruct (filterServiceReady_ok docs c1) as ([Hi2 Hr2] & Hlen & Hrle & Hreq).
    rewrite Hi1 in Hrle, Hreq.
    split; [reflexivity|]. split; [reflexivity|].
    split; [lia|]. split; [lia|]. split.
    + intros Hmono.
      pose proof (ready_or_not (Ticks.instants clock (Ticks.reads c1)) docs).
      pose proof (Hle (Ticks.instants clock (Ticks.reads c1))
                    ltac:(intros i Hi; apply Hmono; lia)).
      pose proof (Hrle (Ticks.instants clock (Ticks.reads c1))
                    ltac:(intros i Hi; apply Hmono; lia)).
      lia.
    + intros now Hnow.
      pose proof (ready_or_not now docs).
      rewrite (Hreq now) by (intros; apply Hnow).
      rewrite (Heq now) by (intros; apply Hnow).
      split; [reflexivity | lia].
Qed.

(** A train whose certificate has run out before every reading of the
    clock, in a run that answers 200. *)
Lemma expired_train_is_listed (docs : list TrainDoc.t) (clock : Ticks.t)
    (report : ConstraintsReport.t) (doc : TrainDoc.t) (e : Z) :
  fst (getConstraints docs clock) = Ok report ->
  In doc docs ->
  expiryOf doc = Some e ->
  (forall i, (clock.(Ticks.reads) <= i)%nat -> e <= clock.(Ticks.instants) i) ->
  let train := doc.(TrainDoc.train) in
  let c := report.(ConstraintsReport.constraints) in
  exists i,
    (clock.(Ticks.reads) <= i)%nat
    /\ (e - clock.(Ticks.instants) i) / msPerDay <= 0
    /\ In {| FitnessExpiring.trainId := train.(Train.trainsetId);
             FitnessExpiring.expiryDate := e;
             FitnessExpiring.daysRemaining :=
               (e - clock.(Ticks.instants) i) / msPerDay |}
         c.(Violations.fitnessExpiring)
    /\ In {| Unavailable.trainId := train.(Train.trainsetId);
             Unavailable.reasons := unavailableReasons train |}
         c.(Violations.unavailable)
    /\ (serviceReady train = true ->
        train.(Train.isAvailableForService) = Some true ->
        unavailableReasons train = []).
Proof.
  intros Hreport Hin He Hexpired. cbv zeta.
  destruct (getConstraints_ok _ _ _ Hreport) as (v & c1 & Hloop & -> & _).
  destruct (constraintsLoop_ok _ _ _ _ _ Hloop)
    as (_ & _ & _ & _ & _ & _ & _ & _ & Hlisted & _).
  destruct (Hlisted doc e Hin He) as (i & j & Hi & Hj & Hfe & Hun).
  assert (Hdays : (e - Ticks.instants clock i) / msPerDay <= 0).
  { pose proof (Hexpired i ltac:(lia)).
    assert ((e - Ticks.instants clock i) / msPerDay <= 0 / msPerDay)
      by (apply Z.div_le_mono; unfold msPerDay; lia).
    now rewrite Z.div_0_l in H0 by (unfold msPerDay; lia). }
  exists i. split; [lia|]. split; [exact Hdays|].
  split; [apply Hfe; lia|]. split.
  - apply Hun. unfold notReady, isServiceReady.
    unfold expiryOf in He.
    destruct (Train.fitnessStatus (TrainDoc.train doc)) as [f|];
      [|reflexivity].
    rewrite He. pose proof (Hexpired j ltac:(lia)).
    destruct (Z.gtb_spec e (Ticks.instants clock j)); [lia|].
    now rewrite andb_false_r.
  - intros Hready Hav. unfold unavailableReasons.
    unfold serviceReady in Hready.
    apply andb_prop in Hready. destruct Hready as [Hready _].
    apply andb_prop in Hready. destruct Hready as [Hfit Hop].
    rewrite Hfit, Hop, Hav. reflexivity.
Qed.

(** X23: a train whose fitness certificate has run out, at every reading
    of the clock, is listed twice by the constraints route: among the
    expiring certificates, with the number of days at a reading of the
    clock, which is zero or negative, and among the unavailable trains;
    when its validity flag, its status and its availability are in order,
    the list of reasons given for it is empty. *)
Theorem expired_train_in_constraints (docs : list TrainDoc.t)
    (clock : Ticks.t) (report : ConstraintsReport.t) (doc : TrainDoc.t)
    (e : Z) :
  fst (getConstraints docs clock) = Ok report ->
  In doc docs ->
  expiryOf doc = Some e ->
  (forall i, (clock.(Ticks.reads) <= i)%nat -> e <= clock.(Ticks.instants) i) ->
  let train := doc.(TrainDoc.train) in
  let c := report.(ConstraintsReport.constraints) in
  exists now,
    (exists i, (clock.(Ticks.reads) <= i)%nat
               /\ now = clock.(Ticks.instants) i)
    /\ (e - now) / msPerDay <= 0
    /\ In {| FitnessExpiring.trainId := train.(Train.trainsetId);
             FitnessExpiring.expiryDate := e;
             FitnessExpiring.daysRemaining := (e - now) / msPerDay |}
         c.(Violations.fitnessExpiring)
    /\ In {| Unavailable.trainId := train.(Train.trainsetId);
             Unavailable.reasons := unavailableReasons train |}
         c.(Violations.unavailable)
    /\ (serviceReady train = true ->
        train.(Train.isAvailableForService) = Some true ->
        unavailableReasons train = []).
Proof.
  intros Hreport Hin He Hexpired. cbv zeta.
  destruct (expired_train_is_listed _ _ _ _ _ Hreport Hin He Hexpired)
    as (i & Hi & H).
  exists (Ticks.instants clock i). split; [exists i; auto | exact H].
Qed.

(** With a clock that shows [now] throughout, the days are counted at
    [now]. *)
Lemma expired_train_at_one_instant (now : Z) (docs : list TrainDoc.t)
    (report : ConstraintsReport.t) (doc : TrainDoc.t) (e : Z) :
  fst (getConstraints docs (Ticks.frozen now)) = Ok report ->
  In doc docs ->
  expiryOf doc = Some e ->
  e <= now ->
  let train := doc.(TrainDoc.train) in
  let c := report.(ConstraintsReport.constraints) in
  (e - now) / msPerDay <= 0
  /\ In {| FitnessExpiring.trainId := train.(Train.trainsetId);
           FitnessExpiring.expiryDate := e;
           FitnessExpiring.daysRemaining := (e - now) / msPerDay |}
       c.(Violations.fitnessExpiring)
  /\ In {| Unavailable.trainId := train.(Train.trainsetId);
           Unavailable.reasons := unavailableReasons train |}
       c.(Violations.unavailable)
  /\ (serviceReady train = true ->
      train.(Train.isAvailableForService) = Some true ->
      unavailableReasons train = []).
Proof.
  intros Hreport Hin He Hexpired. cbv zeta.
  destruct (expired_train_is_listed _ _ _ _ _ Hreport Hin He
              ltac:(intros; exact Hexpired))
    as (i & _ & H).
  exact H.
Qed.

(** ** The reasoning text and the explanation of a plan *)

Section Reasoning.

Context {host : Js.Host}.

Lemma concat_last_nonempty (sep : string) (l : list string) (x : string) :
  x <> EmptyString ->
  String.eqb (String.concat sep (l ++ [x])) "" = false.
Proof.
  intros Hx. induction l as [|a l IH].
  - cbn. now apply String.eqb_neq.
  - cbn [app]. destruct (l ++ [x]) as [|b rest] eqn:E.
    + destruct l; discriminate.
    + cbn [String.concat]. apply append_nonempty.
      intros Hempty. apply String.eqb_neq in IH. apply IH.
      destruct sep; cbn in Hempty; [|discriminate].
      exact Hempty.
Qed.

(** X24: the reasoning of every ranked entry is a list of phrases joined by
    ["; "]: it begins with the validity of the certificate and with
    ["Maintenance status: Operational"], has at most three more phrases, and
    ends with the overall score, which is the score before rounding; the
    default text of [generateReasoning] is never used. *)
Theorem reasoning_of_ranked_entries (clock : Clock.t) (trains : list Train.t)
    (constraints : Js.json) (e : Ranked.t) :
  In e (fallbackOptimization clock trains constraints).(Result.rankedTrains) ->
  exists train until rest,
    In train trains
    /\ e.(Ranked.train) = train.(Train._id)
    /\ (List.length rest <= 3)%nat
    /\ e.(Ranked.reasoning)
       = String.concat "; "
           ([String.append "Valid fitness certificate until " until;
             "Maintenance status: Operational"%string]
            ++ rest
            ++ [String.append "Overall optimization score: "
                  (Js.numberToString (rawScore trains train))]).
Proof.
  intros He. cbn [fallbackOptimization Result.rankedTrains] in He.
  destruct (rankTrains_In _ _ He) as (train & k & Hin & Hready & _ & ->).
  unfold serviceReady in Hready.
  apply andb_prop in Hready. destruct Hready as [Hready _].
  apply andb_prop in Hready. destruct Hready as [Hfit Hop].
  exists train.
  cbn [rankEntry scoreTrain Ranked.train Ranked.reasoning Scored.train
       Scored.reasoning].
  unfold generateReasoning. cbv zeta. rewrite Hfit, Hop.
  set (overall := String.append "Overall optimization score: "
                    (Js.numberToString (rawScore trains train))).
  set (until := match Train.fitnessStatus train with
                | Some {| Fitness.expiryDate := Some d |} => Js.toDateString d
                | _ => "Unknown"%string
                end).
  exists until.
  destruct (Train.currentMileage train) as [m|];
    [destruct (Js.truthyNum (Some m))|];
    destruct (hasBranding train);
    (destruct (Train.performanceScore train) as [p|];
     [destruct (Js.truthyNum (Some p))|]);
    match goal with
    | |- context [String.concat "; " ?L] =>
        let r := eval cbn [app tl removelast] in (removelast (tl (tl L))) in
        exists r
    end;
    (split; [exact Hin|]; split; [reflexivity|]; split; [cbn; lia|]);
    rewrite concat_last_nonempty by discriminate; cbn [app]; reflexivity.
Qed.

End Reasoning.





(** ** The further properties on the small fleet *)

Section FleetMore.

#[local] Existing Instance exactHost.

(** The explanation of the stored plan, of a plan that is not stored and
    of a string that is no id. *)
Example explain_of_three_ids :
  (exists body,
      fst (explain hexCaster [dueIn 2] [firstPlan]
             "6600000000000000000000b1" (Ticks.frozen t0))
      = ExplainOk body
      /\ map (fun x => (x.(Explanation.rank),
                        x.(Explanation.detailedAnalysis)))
           body.(ExplainBody.explanations)
         = [ (1, {| DetailedAnalysis.fitnessStatus := "Valid";
                    DetailedAnalysis.maintenanceUrgency := Some "HIGH"%string;
                    DetailedAnalysis.mileageBalance := Some 5000%Q;
                    DetailedAnalysis.brandingPriority := Some 1%Q;
                    DetailedAnalysis.locationAdvantage :=
                      Some "Depot A"%string |});
             (2, {| DetailedAnalysis.fitnessStatus := "Invalid";
                    DetailedAnalysis.maintenanceUrgency := None;
                    DetailedAnalysis.mileageBalance := None;
                    DetailedAnalysis.brandingPriority := None;
                    DetailedAnalysis.locationAdvantage := None |}) ])
  /\ fst (explain hexCaster [docOf ts01] [firstPlan]
            "6600000000000000000000b9" (Ticks.frozen t0))
     = ExplainNotFound "PLAN_NOT_FOUND"
  /\ fst (explain hexCaster [docOf ts01] [firstPlan] "latest"
            (Ticks.frozen t0))
     = ExplainServerError "Cast to ObjectId failed for value latest".
Proof.
  split; [eexists; split; vm_compute; reflexivity|].
  split; vm_compute; reflexivity.
Qed.

Lemma every_ready_train_is_ranked_witness :
  In ts02 [ts01; ts02] /\ serviceReady ts02 = true
  /\ exists e,
      In e (fallbackOptimization clock0 [ts01; ts02]
              (Js.JObj [])).(Result.rankedTrains)
      /\ e.(Ranked.train) = ts02.(Train._id).
Proof.
  split; [right; now left|]. split; [reflexivity|].
  destruct (every_ready_train_is_ranked clock0 [ts01; ts02] (Js.JObj []) ts02
              (or_intror (or_introl eq_refl)) eq_refl)
    as (e & He & Hid & _).
  exists e. split; assumption.
Defined.

Lemma metrics_of_nonempty_ranking_witness :
  existsb serviceReady [ts01; ts07] = true
  /\ exists m q,
      (fallbackOptimization clock0 [ts01; ts07] (Js.JObj [])).(Result.metrics)
      = Some m
      /\ m.(Metrics.constraintsSatisfied) = 1
      /\ m.(Metrics.totalTrainsEvaluated) = 2
      /\ m.(Metrics.averageConfidence) = Js.Num q
      /\ (60 <= q <= 100)%Q.
Proof.
  split; [reflexivity|].
  destruct (metrics_of_nonempty_ranking clock0 [ts01; ts07] (Js.JObj [])
              eq_refl)
    as (m & q & Hm & Htotal & Hsat & _ & Havg & Hq).
  exists m, q. repeat split; try assumption; try apply Hq.
Defined.


Lemma unavailable_train_is_reported_not_ranked_witness :
  NoDup (map Train._id [ts01; ts10])
  /\ ts10.(Train.isAvailableForService) = Some false
  /\ In {| Alert.type := "INFO";
           Alert.message := "TS-10 is not available for service";
           Alert.trainId := "TS-10";
           Alert.severity := 2 |}
       (fallbackOptimization clock0 [ts01; ts10] (Js.JObj [])).(Result.alerts).
Proof.
  assert (Hnd : NoDup (map Train._id [ts01; ts10])).
  { repeat constructor; cbn; intuition discriminate. }
  split; [exact Hnd|]. split; [reflexivity|].
  exact (proj1 (unavailable_train_is_reported_not_ranked clock0 [ts01; ts10]
                  (Js.JObj []) ts10 Hnd (or_intror (or_introl eq_refl))
                  eq_refl)).
Defined.

Lemma model_ready_trains_are_ranked_witness :
  isServiceReady t0 ts01 = true
  /\ hardEligible t0 ts01 = true /\ serviceReady ts01 = true.
Proof.
  split; [reflexivity|].
  destruct (model_ready_trains_are_ranked t0 clock0 [ts01; ts06] (Js.JObj [])
              ts01 (or_introl eq_refl) eq_refl) as (Helig & Hready & _).
  split; assumption.
Defined.

Lemma critical_alerts_come_first_witness :
  alertPlan.(Plan.alerts) = generateAlerts t0 [ts04; ts05; ts06]
  /\ List.length (getCriticalAlerts alertPlan) = 2%nat
  /\ alertPlan.(Plan.alerts)
     = getCriticalAlerts alertPlan
       ++ filter (fun a => negb (String.eqb a.(Alert.type) "CRITICAL"))
            alertPlan.(Plan.alerts).
Proof.
  split; [reflexivity|]. split; [reflexivity|].
  exact (proj1 (critical_alerts_come_first t0 [ts04; ts05; ts06] alertPlan
                  eq_refl)).
Defined.

Lemma simulation_without_target_witness :
  (forall train, In train [ts01; ts02] -> isTarget "TS-99" train = false)
  /\ (fallbackSimulation clock0 [ts01; ts02] "TS-99" brandedFive
        (Js.JObj [])).(Simulation.result)
     = fallbackOptimization clock0 [ts01; ts02] (Js.JObj []).
Proof.
  assert (Hnone : forall train,
             In train [ts01; ts02] -> isTarget "TS-99" train = false).
  { intros train [<-|[<-|[]]]; reflexivity. }
  split; [exact Hnone|].
  exact (proj1 (simulation_without_target clock0 [ts01; ts02] "TS-99"
                  brandedFive (Js.JObj []) Hnone)).
Defined.

Lemma simulate_falls_back_on_refusal_witness :
  In ts02 [ts01; ts02]
  /\ isTarget "65f000000000000000000002" ts02 = true
  /\ exists body,
      simulate t0 clock0 [ts01; ts02] simRefused
        (simRequestFor "65f000000000000000000002") = SimOk body
      /\ body.(SimulationBody.status) = "SIMULATION"%string
      /\ option_map Impact.newRank body.(SimulationBody.impactAnalysis)
         = Some (Some 1).
Proof.
  split; [right; now left|]. split; [reflexivity|].
  eexists. split.
  - exact (simulate_falls_back_on_refusal t0 clock0 [ts01; ts02]
             (simRequestFor "65f000000000000000000002")
             "connect ECONNREFUSED 127.0.0.1:5000"
             "65f000000000000000000002" brandedFive ts02
             eq_refl ltac:(discriminate) eq_refl
             (or_intror (or_introl eq_refl)) eq_refl).
  - split; reflexivity.
Defined.

Lemma generate_then_conflict_witness :
  generate firstEnv (requestFor t0 false) [] = (Created firstPlan, [firstPlan])
  /\ generate (envWith timedOut []) (requestFor t0 false) [firstPlan]
     = (Conflict "PLAN_EXISTS" "6600000000000000000000b1", [firstPlan]).
Proof.
  assert (Hfirst : generate firstEnv (requestFor t0 false) []
                   = (Created firstPlan, [firstPlan]))
    by (vm_compute; reflexivity).
  split; [exact Hfirst|].
  exact (proj2 (generate_then_conflict firstEnv (envWith timedOut [])
                  (requestFor t0 false) (requestFor t0 false) []
                  [firstPlan] firstPlan Hfirst eq_refl eq_refl)).
Defined.

Lemma generate_keeps_store_invariants_witness :
  NoDup (map Plan.planDate [firstPlan])
  /\ NoDup
       (map Plan.planDate
          (snd (generate (envWith refused [ts01; ts02])
                  (requestFor (t0 + msPerDay) false) [firstPlan])))
  /\ snd (generate (envWith refused [ts01; ts02])
            (requestFor (t0 + msPerDay) false) [firstPlan])
     = [firstPlan; secondPlan].
Proof.
  assert (Hnd : NoDup (map Plan.planDate [firstPlan]))
    by (repeat constructor; intros []).
  assert (Hall : Forall (fun p => p.(Plan.status) = "FINALIZED"%string
                                  /\ validate p = true) [firstPlan])
    by (repeat constructor).
  split; [exact Hnd|]. split.
  - exact (proj1 (generate_keeps_store_invariants
                    (envWith refused [ts01; ts02])
                    (requestFor (t0 + msPerDay) false) [firstPlan] Hnd Hall)).
  - vm_compute. reflexivity.
Defined.

Lemma maintenance_urgency_by_time_left_witness :
  (dueIn 2).(TrainDoc.nextMaintenanceDue) = Some (t0 + 2 * msPerDay)
  /\ maintenanceUrgency (t0 + 1) (dueIn 2) = "HIGH"%string.
Proof.
  split; [reflexivity|].
  destruct (maintenance_urgency_by_time_left (t0 + 1) (dueIn 2)
              (t0 + 2 * msPerDay) eq_refl)
    as [[Hlt _]|[[_ H]|[[Hge _]|[Hge _]]]].
  - vm_compute in Hlt. discriminate.
  - exact H.
  - exfalso. vm_compute in Hge. destruct Hge as [Hge _]. now apply Hge.
  - exfalso. vm_compute in Hge. now apply Hge.
Defined.

Lemma top_trains_of_a_ranking_witness :
  firstPlan.(Plan.rankedTrains) = rankTrains (formatTrainsForAI [ts01; ts02])
  /\ map Ranked.rank (getTopTrains firstPlan 1) = [1]
  /\ getTopTrains firstPlan 1 = firstn 1 firstPlan.(Plan.rankedTrains).
Proof.
  split; [reflexivity|]. split; [reflexivity|].
  exact (proj1 (top_trains_of_a_ranking firstPlan
                  (formatTrainsForAI [ts01; ts02]) 1 eq_refl)).
Defined.

Lemma created_plan_becomes_latest_witness :
  generate (envWith refused [ts01; ts02]) (requestFor (t0 + msPerDay) false)
    [firstPlan]
  = (Created secondPlan, [firstPlan; secondPlan])
  /\ getLatest [firstPlan; secondPlan] = Some secondPlan.
Proof.
  assert (Hsecond :
    generate (envWith refused [ts01; ts02]) (requestFor (t0 + msPerDay) false)
      [firstPlan]
    = (Created secondPlan, [firstPlan; secondPlan]))
    by (vm_compute; reflexivity).
  split; [exact Hsecond|].
  apply (created_plan_becomes_latest (envWith refused [ts01; ts02])
           (requestFor (t0 + msPerDay) false) [firstPlan] _ secondPlan
           Hsecond).
  intros q [<-|[]] _. vm_compute. reflexivity.
Defined.

Lemma expired_train_in_constraints_witness :
  exists report,
    fst (getConstraints [docOf ts01; docOf ts06] (Ticks.frozen t0)) = Ok report
    /\ expiryOf (docOf ts06) = Some (t0 - msPerDay)
    /\ In {| Unavailable.trainId := "TS-06"; Unavailable.reasons := [] |}
         report.(ConstraintsReport.constraints).(Violations.unavailable)
    /\ In {| FitnessExpiring.trainId := "TS-06";
             FitnessExpiring.expiryDate := t0 - msPerDay;
             FitnessExpiring.daysRemaining := -1 |}
         report.(ConstraintsReport.constraints).(Violations.fitnessExpiring).
Proof.
  eexists. split; [vm_compute; reflexivity|]. split; [reflexivity|].
  destruct (expired_train_in_constraints [docOf ts01; docOf ts06]
              (Ticks.frozen t0) _
              (docOf ts06) (t0 - msPerDay) eq_refl
              (or_intror (or_introl eq_refl)) eq_refl
              ltac:(intros i _; vm_compute; discriminate))
    as (now & (i & _ & ->) & _ & Hfe & Hun & _).
  split; [exact Hun | exact Hfe].
Defined.

Lemma constraints_summary_adds_up_witness :
  exists report,
    fst (getConstraints [docOf ts01; docOf ts06] (Ticks.frozen t0)) = Ok report
    /\ report.(ConstraintsReport.summary).(ConstraintsSummary.totalTrains) = 2
    /\ report.(ConstraintsReport.summary).(ConstraintsSummary.serviceReady) = 1
    /\ map Unavailable.trainId
         report.(ConstraintsReport.constraints).(Violations.unavailable)
       = ["TS-06"%string]
    /\ report.(ConstraintsReport.summary).(ConstraintsSummary.serviceReady)
       + Z.of_nat
           (List.length
              report.(ConstraintsReport.constraints).(Violations.unavailable))
       = report.(ConstraintsReport.summary).(ConstraintsSummary.totalTrains).
Proof.
  eexists. split; [vm_compute; reflexivity|].
  repeat (split; [vm_compute; reflexivity|]).
  destruct (proj2 (constraints_summary_adds_up [docOf ts01; docOf ts06]
                     (Ticks.frozen t0)) _ eq_refl)
    as (_ & _ & _ & _ & _ & Hfrozen).
  exact (proj2 (Hfrozen t0 (fun _ => eq_refl))).
Defined.

(** The two readings of the readiness of one train can differ: TS-33 is
    ready in the loop, so it is not listed as unavailable, and its
    certificate has run out when the summary is made, so it is not counted
    as ready; the summary of one train has neither. *)
Example readiness_lost_between_readings :
  Ticks.monotone slowClock
  /\ exists report,
      fst (getConstraints [docOf ts33] slowClock) = Ok report
      /\ report.(ConstraintsReport.summary).(ConstraintsSummary.totalTrains) = 1
      /\ report.(ConstraintsReport.summary).(ConstraintsSummary.serviceReady)
         = 0
      /\ report.(ConstraintsReport.constraints).(Violations.unavailable) = []
      /\ report.(ConstraintsReport.constraints).(Violations.fitnessExpiring)
         = [ {| FitnessExpiring.trainId := "TS-33";
                FitnessExpiring.expiryDate := t0 + msPerDay;
                FitnessExpiring.daysRemaining := 1 |} ].
Proof.
  split.
  - intros i j Hij. cbn [slowClock Ticks.instants].
    destruct (Nat.ltb_spec i 2), (Nat.ltb_spec j 2);
      unfold msPerDay; lia.
  - eexists. split; [vm_compute; reflexivity|].
    repeat split; vm_compute; reflexivity.
Qed.

Lemma reasoning_of_ranked_entries_witness :
  exists e,
    In e (fallbackOptimization clock0 [ts01; ts02]
            (Js.JObj [])).(Result.rankedTrains)
    /\ exists train until rest,
        e.(Ranked.train) = train.(Train._id)
        /\ e.(Ranked.reasoning)
           = String.concat "; "
               ([String.append "Valid fitness certificate until " until;
                 "Maintenance status: Operational"%string]
                ++ rest
                ++ [String.append "Overall optimization score: "
                      (Js.numberToString (rawScore [ts01; ts02] train))]).
Proof.
  exists (rankEntry (scoreTrain [ts01; ts02] ts01) 0).
  assert (Hin : In (rankEntry (scoreTrain [ts01; ts02] ts01) 0)
                  (fallbackOptimization clock0 [ts01; ts02]
                     (Js.JObj [])).(Result.rankedTrains))
    by (left; reflexivity).
  split; [exact Hin|].
  destruct (reasoning_of_ranked_entries clock0 [ts01; ts02] (Js.JObj []) _ Hin)
    as (train & until & rest & _ & Hid & _ & Hreason).
  exists train, until, rest. split; assumption.
Defined.

End FleetMore.
